(** * QuMADA measurement core: a shallow embedding

    The development follows [src/qtools/measurement/measurement.py]
    (class [MeasurementScript], [create_hook], [CustomSweep]) and
    [src/qtools/instrument/buffer.py] ([SR830Buffer], [MFLIBuffer],
    [is_bufferable]).

    Python objects are mutable and may raise: every method is a computation
    in a small state-and-exception monad whose state survives a raise, as
    the attributes of a Python object do. *)

From stdpp Require Import gmap strings list.
From Stdlib Require Import ZArith QArith Qround.

Set Warnings "-register-all".

Local Open Scope string_scope.
Local Open Scope list_scope.

(** ** Python values *)

(** The values that occur in property dictionaries, settings and readings.
    A float is idealised as a rational number. *)
Inductive pyval : Type :=
  | PNone
  | PBool (b : bool)
  | PInt (n : Z)
  | PFloat (q : Q)
  | PStr (s : string)
  | PList (l : list pyval).

(** Python truth value testing. *)
Definition truthy (v : pyval) : bool :=
  match v with
  | PNone => false
  | PBool b => b
  | PInt n => negb (n =? 0)%Z
  | PFloat q => negb (Qeq_bool q 0)
  | PStr s => negb (String.eqb s "")
  | PList l => match l with [] => false | _ => true end
  end.

(** The exceptions the modelled code raises or lets through.  A bare
    [Exception("...")] of the source is [PyException]. *)
Inductive exn : Type :=
  | KeyError (key : string)
  | AttributeError (attr : string)
  | IndexError
  | TypeError
  | UnboundLocalError (var : string)
  | StopIteration
  | VisaIOError
  | BufferException (msg : string)
  | PyException (msg : string).

Definition is_KeyError (e : exn) : bool :=
  match e with KeyError _ => true | _ => false end.

Definition is_VisaIOError (e : exn) : bool :=
  match e with VisaIOError => true | _ => false end.

(** ** The monad *)

(** A computation over a mutable object of type [S]: it returns a value or
    raises, and in both cases leaves a state behind. *)
Inductive outcome (S A : Type) : Type :=
  | Ok (a : A) (s : S)
  | Raise (e : exn) (s : S).
Arguments Ok {S A} a s.
Arguments Raise {S A} e s.

Definition M (S A : Type) : Type := S -> outcome S A.

Definition final_state {S A} (o : outcome S A) : S :=
  match o with Ok _ s => s | Raise _ s => s end.

Definition returned {S A} (o : outcome S A) : option A :=
  match o with Ok a _ => Some a | Raise _ _ => None end.

Definition raised {S A} (o : outcome S A) : option exn :=
  match o with Ok _ _ => None | Raise e _ => Some e end.

Definition ret {S A} (a : A) : M S A := fun s => Ok a s.

Definition bind {S A B} (m : M S A) (k : A -> M S B) : M S B :=
  fun s => match m s with
           | Ok a s' => k a s'
           | Raise e s' => Raise e s'
           end.

Definition raise {S A} (e : exn) : M S A := fun s => Raise e s.

Definition gets {S A} (f : S -> A) : M S A := fun s => Ok (f s) s.

Definition modify {S} (f : S -> S) : M S unit := fun s => Ok tt (f s).

(** [try: body / except <class>: handler]; [catches] selects the class. *)
Definition try_except {S A} (catches : exn -> bool)
    (body : M S A) (handler : exn -> M S A) : M S A :=
  fun s => match body s with
           | Ok a s' => Ok a s'
           | Raise e s' => if catches e then handler e s' else Raise e s'
           end.

(** The value of a Python expression that may raise but has no effect. *)
Definition eval {S A} (r : exn + A) : M S A :=
  match r with inl e => raise e | inr a => ret a end.

Declare Scope py_scope.
Delimit Scope py_scope with py.
Notation "x <- c1 ;; c2" := (bind c1 (fun x => c2))
  (at level 100, c1 at next level, right associativity) : py_scope.
Notation "c1 ;; c2" := (bind c1 (fun _ => c2))
  (at level 100, right associativity) : py_scope.
Local Open Scope py_scope.

(** [for x in xs: body x] *)
Fixpoint for_ {S A} (xs : list A) (body : A -> M S unit) : M S unit :=
  match xs with
  | [] => ret tt
  | x :: xs' => body x ;; for_ xs' body
  end.

(** ** Parameters (channels) *)

(** A qcodes [Parameter] as the core sees it.  [p_id] stands for the identity
    of the Python object; [name] is its [name] attribute.  [qtools_buffer]
    is the parameter's own [_qtools_buffer] attribute when it exists and is
    a [Buffer] (what [is_bufferable] inspects); [root_qtools_buffer] is
    [root_instrument._qtools_buffer] when the instrument has one.  The
    mutable [label] lives in a store indexed by [p_id]. *)
Record Param : Type := {
  p_id : nat;
  name : string;
  qtools_buffer : option nat;
  root_qtools_buffer : option nat
}.

#[global] Instance Param_eq_dec : EqDecision Param.
Proof. solve_decision. Defined.

#[global] Instance Param_countable : Countable Param.
Proof.
  apply (inj_countable'
           (fun p => (p_id p, name p, qtools_buffer p, root_qtools_buffer p))
           (fun t => match t with (i, n, b, r) =>
              {| p_id := i; name := n; qtools_buffer := b; root_qtools_buffer := r |}
            end)).
  by intros [].
Defined.

(** [is_bufferable(instrument)]:
    [hasattr(instrument, "_qtools_buffer") and isinstance(..., Buffer)]. *)
Definition is_bufferable (instrument : Param) : bool :=
  match qtools_buffer instrument with Some _ => true | None => false end.

(** The label store.  A qcodes parameter's label defaults to its name. *)
Definition label_of (labels : gmap nat string) (p : Param) : string :=
  default (name p) (labels !! p_id p).

(** ** Buffers *)

(** The [Buffer] interface, as far as the measurement core calls it.
    [subscribed_parameters] is the [_subscribed_parameters] attribute that
    [readout_buffers] iterates over.  Operations that look at a parameter's
    label take the label store. *)
Class Buffer (B : Type) : Type := {
  subscribe : gmap nat string -> list Param -> M B unit;
  is_subscribed : Param -> B -> bool;
  start : M B unit;
  stop : M B unit;
  read : gmap nat string -> M B (gmap string pyval);
  subscribed_parameters : B -> list Param
}.

Module SR830Buffer.

(** The lock-in amplifier behind the buffer: an external collaborator (the
    qcodes driver and the instrument).  Only what the buffer relies on is
    modelled: the two display selections, whether data storage is running,
    and the stored traces.  Reading a trace from a unit that is still
    storing, or over a faulty link ([io_fault]), raises [VisaIOError]; the
    buffer's own error message says the former. *)
Record SR830 : Type := {
  ch1_display : string;
  ch2_display : string;
  acquiring : bool;
  io_fault : bool;
  ch1_datatrace : pyval;
  ch2_datatrace : pyval
}.

Definition set_ch1_display (n : string) (d : SR830) : SR830 :=
  {| ch1_display := n; ch2_display := ch2_display d; acquiring := acquiring d;
     io_fault := io_fault d; ch1_datatrace := ch1_datatrace d;
     ch2_datatrace := ch2_datatrace d |}.

Definition set_ch2_display (n : string) (d : SR830) : SR830 :=
  {| ch1_display := ch1_display d; ch2_display := n; acquiring := acquiring d;
     io_fault := io_fault d; ch1_datatrace := ch1_datatrace d;
     ch2_datatrace := ch2_datatrace d |}.

Definition buffer_reset (d : SR830) : SR830 :=
  {| ch1_display := ch1_display d; ch2_display := ch2_display d;
     acquiring := acquiring d; io_fault := io_fault d;
     ch1_datatrace := PList []; ch2_datatrace := PList [] |}.

Definition set_acquiring (b : bool) (d : SR830) : SR830 :=
  {| ch1_display := ch1_display d; ch2_display := ch2_display d; acquiring := b;
     io_fault := io_fault d; ch1_datatrace := ch1_datatrace d;
     ch2_datatrace := ch2_datatrace d |}.

Definition buffer_start : SR830 -> SR830 := set_acquiring true.
Definition buffer_pause : SR830 -> SR830 := set_acquiring false.

(** [device.__getattr__(f"{ch}_datatrace").get()] *)
Definition datatrace_get (ch : string) (d : SR830) : exn + pyval :=
  if acquiring d || io_fault d then inl VisaIOError
  else if String.eqb ch "ch1" then inr (ch1_datatrace d)
  else if String.eqb ch "ch2" then inr (ch2_datatrace d)
  else inl (AttributeError (ch ++ "_datatrace")).

Definition ch1_names : list string := ["X"; "R"; "X Noise"; "aux_in1"; "aux_in2"].
Definition ch2_names : list string := ["Y"; "Phase"; "Y Noise"; "aux_in3"; "aux_in4"].

(** The attributes set by [__init__]. *)
Record t : Type := {
  _device : SR830;
  _trigger : option Param;
  _subscribed_parameters : gset Param
}.

Definition with_device (f : SR830 -> SR830) (b : t) : t :=
  {| _device := f (_device b); _trigger := _trigger b;
     _subscribed_parameters := _subscribed_parameters b |}.

Definition with_subscribed (f : gset Param -> gset Param) (b : t) : t :=
  {| _device := _device b; _trigger := _trigger b;
     _subscribed_parameters := f (_subscribed_parameters b) |}.

Definition in_ch1 (p : Param) : Prop := name p ∈ ch1_names.
Definition in_ch2 (p : Param) : Prop := name p ∈ ch2_names.
#[global] Instance in_ch1_dec p : Decision (in_ch1 p).
Proof. unfold in_ch1. apply _. Defined.
#[global] Instance in_ch2_dec p : Decision (in_ch2 p).
Proof. unfold in_ch2. apply _. Defined.

(** The body of the loop of [subscribe]. *)
Definition subscribe_one (parameter : Param) : M t unit :=
  let name := name parameter in
  if bool_decide (name ∈ ch1_names) then
    modify (with_device (set_ch1_display name)) ;;
    param_to_remove <- gets (fun b => filter in_ch1 (_subscribed_parameters b)) ;;
    modify (with_subscribed (fun s => s ∖ param_to_remove)) ;;
    modify (with_subscribed (fun s => s ∪ {[parameter]}))
  else if bool_decide (name ∈ ch2_names) then
    modify (with_device (set_ch2_display name)) ;;
    param_to_remove <- gets (fun b => filter in_ch2 (_subscribed_parameters b)) ;;
    modify (with_subscribed (fun s => s ∖ param_to_remove)) ;;
    modify (with_subscribed (fun s => s ∪ {[parameter]}))
  else
    raise (PyException ("Parameter " ++ name ++ " can not be buffered.")).

Definition subscribe (parameters : list Param) : M t unit :=
  for_ parameters subscribe_one.

Definition is_subscribed (parameter : Param) (b : t) : bool :=
  bool_decide (parameter ∈ _subscribed_parameters b).

Definition start : M t unit :=
  modify (with_device buffer_reset) ;;
  modify (with_device buffer_start).

Definition stop : M t unit :=
  modify (with_device buffer_pause).

(** The loop of [read].  The local [ch] keeps its binding from one
    iteration to the next; it is unbound until a first name matches. *)
Fixpoint read_loop (ps : list Param) (ch : option string)
    (data : gmap string pyval) : M t (gmap string pyval) :=
  match ps with
  | [] => ret data
  | parameter :: ps' =>
      let ch :=
        if bool_decide (name parameter ∈ ch1_names) then Some "ch1"
        else if bool_decide (name parameter ∈ ch2_names) then Some "ch2"
        else ch in
      match ch with
      | None => raise (UnboundLocalError "ch")
      | Some c =>
          d <- gets _device ;;
          v <- eval (datatrace_get c d) ;;
          read_loop ps' ch (<[name parameter := v]> data)
      end
  end.

Definition read_error_message : string :=
  "Could not read the buffer. Buffer has to be stopped before readout.".

Definition read : M t (gmap string pyval) :=
  try_except is_VisaIOError
    (ps <- gets (fun b => elements (_subscribed_parameters b)) ;;
     read_loop ps None ∅)
    (fun _ => raise (BufferException read_error_message)).

#[global] Instance buffer : Buffer t :=
  Build_Buffer t (fun _ => subscribe) is_subscribed start stop (fun _ => read)
    (fun b => elements (_subscribed_parameters b)).

End SR830Buffer.

Module MFLIBuffer.

(** A node of the instrument's data tree:
    [device.demods[channel].sample.__getattr__(label)]. *)
Definition node : Type := (Z * string)%type.

(** One acquired burst of a node: [data[key][i]] with its [value] and
    [time] attributes. *)
Record burst : Type := { value : pyval; time : pyval }.

(** The data-acquisition module of the vendor session, an external
    collaborator: the nodes it is subscribed to, whether it is running,
    and what [read()] hands back (a dictionary in key order, from node to
    the list of bursts). *)
Record DAQ : Type := {
  daq_nodes : list node;
  daq_running : bool;
  daq_data : list (node * list burst)
}.

Definition daq_subscribe (n : node) (d : DAQ) : DAQ :=
  {| daq_nodes := daq_nodes d ++ [n]; daq_running := daq_running d;
     daq_data := daq_data d |}.

Definition daq_set_running (b : bool) (d : DAQ) : DAQ :=
  {| daq_nodes := daq_nodes d; daq_running := b; daq_data := daq_data d |}.

(** The attributes set by [__init__]. *)
Record t : Type := {
  _daq : DAQ;
  _sample_nodes : list node;
  _subscribed_parameters : list Param;
  _trigger : option Param;
  _channel : Z
}.

Definition with_daq (f : DAQ -> DAQ) (b : t) : t :=
  {| _daq := f (_daq b); _sample_nodes := _sample_nodes b;
     _subscribed_parameters := _subscribed_parameters b;
     _trigger := _trigger b; _channel := _channel b |}.

Definition append_subscription (p : Param) (n : node) (b : t) : t :=
  {| _daq := _daq b; _sample_nodes := _sample_nodes b ++ [n];
     _subscribed_parameters := _subscribed_parameters b ++ [p];
     _trigger := _trigger b; _channel := _channel b |}.

Definition _get_node_from_parameter (labels : gmap nat string)
    (parameter : Param) (b : t) : node :=
  (_channel b, label_of labels parameter).

(** The body of the loop of [subscribe]. *)
Definition subscribe_one (labels : gmap nat string) (parameter : Param) : M t unit :=
  node <- gets (_get_node_from_parameter labels parameter) ;;
  sample_nodes <- gets _sample_nodes ;;
  if bool_decide (node ∉ sample_nodes) then
    modify (append_subscription parameter node) ;;
    modify (with_daq (daq_subscribe node))
  else ret tt.

Definition subscribe (labels : gmap nat string) (parameters : list Param) : M t unit :=
  for_ parameters (subscribe_one labels).

Definition is_subscribed (parameter : Param) (b : t) : bool :=
  bool_decide (parameter ∈ _subscribed_parameters b).

Definition start : M t unit := modify (with_daq (daq_set_running true)).

Definition stop : M t unit := modify (with_daq (daq_set_running false)).

Definition read_raw : M t (list (node * list burst)) :=
  gets (fun b => daq_data (_daq b)).

(** [next(key for key in data.keys() if str(key) == str(node))], then
    [data[key]]. *)
Fixpoint next_key (data : list (node * list burst)) (n : node)
    : exn + list burst :=
  match data with
  | [] => inl StopIteration
  | (key, bursts) :: data' =>
      if bool_decide (key = n) then inr bursts else next_key data' n
  end.

Definition first_burst (bursts : list burst) : exn + burst :=
  match bursts with [] => inl IndexError | b :: _ => inr b end.

Fixpoint read_loop (labels : gmap nat string) (data : list (node * list burst))
    (ps : list Param) (result_dict : gmap string pyval)
    : M t (gmap string pyval) :=
  match ps with
  | [] => ret result_dict
  | parameter :: ps' =>
      node <- gets (_get_node_from_parameter labels parameter) ;;
      bursts <- eval (next_key data node) ;;
      b0 <- eval (first_burst bursts) ;;
      let result_dict := <[name parameter := value b0]> result_dict in
      let result_dict :=
        match result_dict !! "timestamps" with
        | None => <["timestamps" := time b0]> result_dict
        | Some _ => result_dict
        end in
      read_loop labels data ps' result_dict
  end.

Definition read (labels : gmap nat string) : M t (gmap string pyval) :=
  data <- read_raw ;;
  ps <- gets _subscribed_parameters ;;
  read_loop labels data ps ∅.

#[global] Instance buffer : Buffer t :=
  Build_Buffer t subscribe is_subscribed start stop read _subscribed_parameters.

End MFLIBuffer.

(** A buffer object of either family. *)
Inductive buffer : Type :=
  | SR830 (b : SR830Buffer.t)
  | MFLI (b : MFLIBuffer.t).

(** A method of the concrete class, run on the object behind the
    interface. *)
Definition dispatch {A} (sr : M SR830Buffer.t A) (mf : M MFLIBuffer.t A)
    : M buffer A :=
  fun b => match b with
           | SR830 s => match sr s with
                        | Ok a s' => Ok a (SR830 s')
                        | Raise e s' => Raise e (SR830 s')
                        end
           | MFLI m => match mf m with
                       | Ok a m' => Ok a (MFLI m')
                       | Raise e m' => Raise e (MFLI m')
                       end
           end.

#[global] Instance buffer_Buffer : Buffer buffer :=
  Build_Buffer buffer
    (fun labels ps => dispatch (subscribe labels ps) (subscribe labels ps))
    (fun p b => match b with
                | SR830 s => is_subscribed p s
                | MFLI m => is_subscribed p m
                end)
    (dispatch start start)
    (dispatch stop stop)
    (fun labels => dispatch (read labels) (read labels))
    (fun b => match b with
              | SR830 s => subscribed_parameters s
              | MFLI m => subscribed_parameters m
              end).

(** ** The measurement script and the laboratory around it *)

(** A sweep of the plan.  [LinSweep] is the qcodes class (an external
    collaborator): its constructor stores its arguments and
    [get_setpoints] is [numpy.linspace(start, stop, num_points)].
    [CustomSweep] is the class of [measurement.py]. *)
Inductive sweep : Type :=
  | LinSweep (param : Param) (start stop num_points delay : pyval)
  | CustomSweep (param : Param) (setpoints : pyval) (num_points : nat)
      (delay : pyval).

(** What [initialize] derives. *)
Record partitions : Type := {
  gettable_parameters : list (string * string);
  gettable_channels : list Param;
  break_conditions : list (Param * pyval);
  static_parameters : list (string * string);
  dynamic_parameters : list (string * string);
  dynamic_channels : list Param;
  dynamic_sweeps : list sweep;
  buffers : gset nat
}.

Definition with_gettable_parameters (f : list (string * string) -> list (string * string)) (p : partitions) : partitions :=
  {| gettable_parameters := f (gettable_parameters p); gettable_channels :=
     gettable_channels p; break_conditions := break_conditions p;
     static_parameters := static_parameters p; dynamic_parameters :=
     dynamic_parameters p; dynamic_channels := dynamic_channels p;
     dynamic_sweeps := dynamic_sweeps p; buffers := buffers p |}.

Definition with_gettable_channels (f : list Param -> list Param) (p : partitions) : partitions :=
  {| gettable_parameters := gettable_parameters p; gettable_channels := f
     (gettable_channels p); break_conditions := break_conditions p;
     static_parameters := static_parameters p; dynamic_parameters :=
     dynamic_parameters p; dynamic_channels := dynamic_channels p;
     dynamic_sweeps := dynamic_sweeps p; buffers := buffers p |}.

Definition with_break_conditions (f : list (Param * pyval) -> list (Param * pyval)) (p : partitions) : partitions :=
  {| gettable_parameters := gettable_parameters p; gettable_channels :=
     gettable_channels p; break_conditions := f (break_conditions p);
     static_parameters := static_parameters p; dynamic_parameters :=
     dynamic_parameters p; dynamic_channels := dynamic_channels p;
     dynamic_sweeps := dynamic_sweeps p; buffers := buffers p |}.

Definition with_static_parameters (f : list (string * string) -> list (string * string)) (p : partitions) : partitions :=
  {| gettable_parameters := gettable_parameters p; gettable_channels :=
     gettable_channels p; break_conditions := break_conditions p;
     static_parameters := f (static_parameters p); dynamic_parameters :=
     dynamic_parameters p; dynamic_channels := dynamic_channels p;
     dynamic_sweeps := dynamic_sweeps p; buffers := buffers p |}.

Definition with_dynamic_parameters (f : list (string * string) -> list (string * string)) (p : partitions) : partitions :=
  {| gettable_parameters := gettable_parameters p; gettable_channels :=
     gettable_channels p; break_conditions := break_conditions p;
     static_parameters := static_parameters p; dynamic_parameters := f
     (dynamic_parameters p); dynamic_channels := dynamic_channels p;
     dynamic_sweeps := dynamic_sweeps p; buffers := buffers p |}.

Definition with_dynamic_channels (f : list Param -> list Param) (p : partitions) : partitions :=
  {| gettable_parameters := gettable_parameters p; gettable_channels :=
     gettable_channels p; break_conditions := break_conditions p;
     static_parameters := static_parameters p; dynamic_parameters :=
     dynamic_parameters p; dynamic_channels := f (dynamic_channels p);
     dynamic_sweeps := dynamic_sweeps p; buffers := buffers p |}.

Definition with_dynamic_sweeps (f : list sweep -> list sweep) (p : partitions) : partitions :=
  {| gettable_parameters := gettable_parameters p; gettable_channels :=
     gettable_channels p; break_conditions := break_conditions p;
     static_parameters := static_parameters p; dynamic_parameters :=
     dynamic_parameters p; dynamic_channels := dynamic_channels p;
     dynamic_sweeps := f (dynamic_sweeps p); buffers := buffers p |}.

Definition with_buffers (f : gset nat -> gset nat) (p : partitions) : partitions :=
  {| gettable_parameters := gettable_parameters p; gettable_channels :=
     gettable_channels p; break_conditions := break_conditions p;
     static_parameters := static_parameters p; dynamic_parameters :=
     dynamic_parameters p; dynamic_channels := dynamic_channels p;
     dynamic_sweeps := dynamic_sweeps p; buffers := f (buffers p) |}.

Definition empty_partitions : partitions :=
  {| gettable_parameters := []; gettable_channels := []; break_conditions := [];
     static_parameters := []; dynamic_parameters := []; dynamic_channels := [];
     dynamic_sweeps := []; buffers := ∅ |}.

(** The metadata collaborator: the [measurement] slot with its [datetime]
    and [data] entries, and [save_to_db()], which fails with [db_fault] when
    one is set and is counted in [db_saves] otherwise. *)
Record MeasurementRecord : Type := { datetime : pyval; data : pyval }.

Record Metadata : Type := {
  measurement : option MeasurementRecord;
  db_fault : option exn;
  db_saves : nat
}.

(** One call of [ramp_or_set_parameter], with the keyword arguments the
    caller passed ([ramp_time] is passed by [initialize] only). *)
Record ramp_call : Type := {
  rc_parameter : Param;
  rc_target : pyval;
  rc_ramp_rate : pyval;
  rc_ramp_time : option pyval;
  rc_setpoint_intervall : pyval
}.

(** A method of a buffer object called by the core. *)
Inductive buffer_method : Type := CallSubscribe | CallStop | CallRead.

(** What the surroundings answer: [datetime.now()],
    [qc.config.core.db_location] and [MeasurementData.create(...)]. *)
Record environment : Type := {
  now : pyval;
  db_location : exn + pyval;
  new_measurement_data : exn + pyval
}.

(** The state all methods of [MeasurementScript] run on: the attributes of
    the instance ([properties] to [parts]; [buffered_num_points] and
    [metadata] are [None] while the attribute does not exist, [parts] is
    [None] until [initialize] has created the derived lists), and the
    objects the instance refers to: the value and the label of every
    channel, the buffer objects, the calls made to
    [ramp_or_set_parameter] and to buffers, and what was printed. *)
Record world : Type := {
  properties : gmap string (gmap string (gmap string pyval));
  gate_parameters : list (string * list (string * Param));
  buffered_num_points : option pyval;
  buffer_settings : gmap string pyval;
  settings : gmap string pyval;
  buffered : bool;
  metadata : option Metadata;
  parts : option partitions;
  values : gmap nat pyval;
  labels : gmap nat string;
  buffer_objects : gmap nat buffer;
  ramp_calls : list ramp_call;
  buffer_calls : list (nat * buffer_method);
  stdout : list string;
  env : environment
}.

Definition with_properties (f : gmap string (gmap string (gmap string pyval)) -> gmap string (gmap string (gmap string pyval))) (w : world) : world :=
  {| properties := f (properties w); gate_parameters := gate_parameters w;
     buffered_num_points := buffered_num_points w; buffer_settings :=
     buffer_settings w; settings := settings w; buffered := buffered w;
     metadata := metadata w; parts := parts w; values := values w; labels :=
     labels w; buffer_objects := buffer_objects w; ramp_calls := ramp_calls
     w; buffer_calls := buffer_calls w; stdout := stdout w; env := env w |}.

Definition with_buffered_num_points (f : option pyval -> option pyval) (w : world) : world :=
  {| properties := properties w; gate_parameters := gate_parameters w;
     buffered_num_points := f (buffered_num_points w); buffer_settings :=
     buffer_settings w; settings := settings w; buffered := buffered w;
     metadata := metadata w; parts := parts w; values := values w; labels :=
     labels w; buffer_objects := buffer_objects w; ramp_calls := ramp_calls
     w; buffer_calls := buffer_calls w; stdout := stdout w; env := env w |}.

Definition with_metadata (f : option Metadata -> option Metadata) (w : world) : world :=
  {| properties := properties w; gate_parameters := gate_parameters w;
     buffered_num_points := buffered_num_points w; buffer_settings :=
     buffer_settings w; settings := settings w; buffered := buffered w;
     metadata := f (metadata w); parts := parts w; values := values w; labels
     := labels w; buffer_objects := buffer_objects w; ramp_calls :=
     ramp_calls w; buffer_calls := buffer_calls w; stdout := stdout w; env :=
     env w |}.

Definition with_parts (f : option partitions -> option partitions) (w : world) : world :=
  {| properties := properties w; gate_parameters := gate_parameters w;
     buffered_num_points := buffered_num_points w; buffer_settings :=
     buffer_settings w; settings := settings w; buffered := buffered w;
     metadata := metadata w; parts := f (parts w); values := values w; labels
     := labels w; buffer_objects := buffer_objects w; ramp_calls :=
     ramp_calls w; buffer_calls := buffer_calls w; stdout := stdout w; env :=
     env w |}.

Definition with_values (f : gmap nat pyval -> gmap nat pyval) (w : world) : world :=
  {| properties := properties w; gate_parameters := gate_parameters w;
     buffered_num_points := buffered_num_points w; buffer_settings :=
     buffer_settings w; settings := settings w; buffered := buffered w;
     metadata := metadata w; parts := parts w; values := f (values w); labels
     := labels w; buffer_objects := buffer_objects w; ramp_calls :=
     ramp_calls w; buffer_calls := buffer_calls w; stdout := stdout w; env :=
     env w |}.

Definition with_labels (f : gmap nat string -> gmap nat string) (w : world) : world :=
  {| properties := properties w; gate_parameters := gate_parameters w;
     buffered_num_points := buffered_num_points w; buffer_settings :=
     buffer_settings w; settings := settings w; buffered := buffered w;
     metadata := metadata w; parts := parts w; values := values w; labels :=
     f (labels w); buffer_objects := buffer_objects w; ramp_calls :=
     ramp_calls w; buffer_calls := buffer_calls w; stdout := stdout w; env :=
     env w |}.

Definition with_buffer_objects (f : gmap nat buffer -> gmap nat buffer) (w : world) : world :=
  {| properties := properties w; gate_parameters := gate_parameters w;
     buffered_num_points := buffered_num_points w; buffer_settings :=
     buffer_settings w; settings := settings w; buffered := buffered w;
     metadata := metadata w; parts := parts w; values := values w; labels :=
     labels w; buffer_objects := f (buffer_objects w); ramp_calls :=
     ramp_calls w; buffer_calls := buffer_calls w; stdout := stdout w; env :=
     env w |}.

Definition with_ramp_calls (f : list ramp_call -> list ramp_call) (w : world) : world :=
  {| properties := properties w; gate_parameters := gate_parameters w;
     buffered_num_points := buffered_num_points w; buffer_settings :=
     buffer_settings w; settings := settings w; buffered := buffered w;
     metadata := metadata w; parts := parts w; values := values w; labels :=
     labels w; buffer_objects := buffer_objects w; ramp_calls := f
     (ramp_calls w); buffer_calls := buffer_calls w; stdout := stdout w; env
     := env w |}.

Definition with_buffer_calls (f : list (nat * buffer_method) -> list (nat * buffer_method)) (w : world) : world :=
  {| properties := properties w; gate_parameters := gate_parameters w;
     buffered_num_points := buffered_num_points w; buffer_settings :=
     buffer_settings w; settings := settings w; buffered := buffered w;
     metadata := metadata w; parts := parts w; values := values w; labels :=
     labels w; buffer_objects := buffer_objects w; ramp_calls := ramp_calls
     w; buffer_calls := f (buffer_calls w); stdout := stdout w; env := env w |}.

Definition with_stdout (f : list string -> list string) (w : world) : world :=
  {| properties := properties w; gate_parameters := gate_parameters w;
     buffered_num_points := buffered_num_points w; buffer_settings :=
     buffer_settings w; settings := settings w; buffered := buffered w;
     metadata := metadata w; parts := parts w; values := values w; labels :=
     labels w; buffer_objects := buffer_objects w; ramp_calls := ramp_calls
     w; buffer_calls := buffer_calls w; stdout := f (stdout w); env := env w |}.

(** ** Python expressions used by the script *)

(** [d[k]] on a dictionary. *)
Definition getitem {V} (d : gmap string V) (k : string) : exn + V :=
  match d !! k with Some v => inr v | None => inl (KeyError k) end.

(** [v.find(sub)]: the lowest index of [sub] in the string, or [-1]. *)
Definition find (v : pyval) (sub : string) : exn + Z :=
  match v with
  | PStr s => inr (match String.index 0 sub s with
                   | Some n => Z.of_nat n
                   | None => (-1)%Z
                   end)
  | _ => inl (AttributeError "find")
  end.

(** [l[i]] on a list, with Python's negative indices. *)
Definition list_subscript {A} (l : list A) (i : Z) : exn + A :=
  let n := Z.of_nat (length l) in
  let j := if (i <? 0)%Z then (n + i)%Z else i in
  if (j <? 0)%Z then inl IndexError
  else match l !! Z.to_nat j with Some x => inr x | None => inl IndexError end.

(** [v[i]]: lists and strings can be subscripted. *)
Definition subscript (v : pyval) (i : Z) : exn + pyval :=
  match v with
  | PList l => list_subscript l i
  | PStr s =>
      match list_subscript (String.list_ascii_of_string s) i with
      | inl e => inl e
      | inr c => inr (PStr (String c EmptyString))
      end
  | _ => inl TypeError
  end.

(** The elements [for x in v] runs over. *)
Definition iterate (v : pyval) : exn + list pyval :=
  match v with
  | PList l => inr l
  | PStr s => inr (map (fun c => PStr (String c EmptyString)) (String.list_ascii_of_string s))
  | _ => inl TypeError
  end.

(** [len(v)] *)
Definition len (v : pyval) : exn + nat :=
  match v with
  | PList l => inr (length l)
  | PStr s => inr (String.length s)
  | _ => inl TypeError
  end.

(** A number, for arithmetic. *)
Definition as_number (v : pyval) : exn + Q :=
  match v with
  | PBool b => inr (if b then 1 else 0)%Q
  | PInt n => inr (inject_Z n)
  | PFloat q => inr q
  | _ => inl TypeError
  end.

(** [int(np.ceil(a * b))] *)
Definition ceil_product (a b : pyval) : exn + pyval :=
  match as_number a, as_number b with
  | inr x, inr y => inr (PInt (Qceiling (x * y)))
  | inl e, _ => inl e
  | _, inl e => inl e
  end.

(** [numpy.linspace(a, b, n)], which [LinSweep.get_setpoints] returns. *)
Definition linspace (a b : Q) (n : nat) : list Q :=
  match n with
  | 0%nat => []
  | 1%nat => [a]
  | _ => map (fun i => a + inject_Z (Z.of_nat i) * ((b - a) / inject_Z (Z.of_nat (n - 1))))%Q
           (seq 0 n)
  end.

Definition get_setpoints (s : sweep) : exn + list Q :=
  match s with
  | LinSweep _ start stop (PInt n) _ =>
      match as_number start, as_number stop with
      | inr a, inr b => if (n <? 0)%Z then inl TypeError
                        else inr (linspace a b (Z.to_nat n))
      | _, _ => inl TypeError
      end
  | LinSweep _ _ _ _ _ => inl TypeError
  | CustomSweep _ setpoints _ _ =>
      match setpoints with
      | PList l =>
          foldr (fun v acc =>
                   match as_number v, acc with
                   | inr q, inr qs => inr (q :: qs)
                   | inl e, _ => inl e
                   | _, inl e => inl e
                   end) (inr []) l
      | _ => inl TypeError
      end
  end.

(** [CustomSweep.__init__(param, setpoints, delay)] *)
Definition CustomSweep_init {S} (param : Param) (setpoints delay : pyval) : M S sweep :=
  _num_points <- eval (len setpoints) ;;
  ret (CustomSweep param setpoints _num_points delay).

(** ** Attribute and dictionary access on the instance *)

(** [self.properties[gate][parameter][key]] *)
Definition property_of (gate parameter key : string) (w : world) : exn + pyval :=
  match getitem (properties w) gate with
  | inl e => inl e
  | inr g => match getitem g parameter with
             | inl e => inl e
             | inr p => getitem p key
             end
  end.

Definition prop (gate parameter key : string) : M world pyval :=
  fun w => eval (property_of gate parameter key w) w.

(** [self.properties[gate][parameter].setdefault(key, dflt)] *)
Definition setdefault (gate parameter key : string) (dflt : pyval) : M world pyval :=
  fun w =>
    match properties w !! gate with
    | None => Raise (KeyError gate) w
    | Some g =>
        match g !! parameter with
        | None => Raise (KeyError parameter) w
        | Some p =>
            match p !! key with
            | Some v => Ok v w
            | None =>
                Ok dflt (with_properties
                           (fun _ => <[gate := <[parameter := <[key := dflt]> p]> g]>
                                       (properties w)) w)
            end
        end
    end.

(** [self.properties[gate][parameter]["type"].find(role) >= 0] *)
Definition has_role (gate parameter role : string) : M world bool :=
  t <- prop gate parameter "type" ;;
  i <- eval (find t role) ;;
  ret (0 <=? i)%Z.

(** [self.buffered_num_points] *)
Definition get_buffered_num_points : M world pyval :=
  fun w => match buffered_num_points w with
           | Some n => Ok n w
           | None => Raise (AttributeError "buffered_num_points") w
           end.

(** [self.<list>.append(x)] on one of the derived lists. *)
Definition update_parts (f : partitions -> partitions) : M world unit :=
  fun w => match parts w with
           | Some p => Ok tt (with_parts (fun _ => Some (f p)) w)
           | None => Raise (AttributeError "parts") w
           end.

Definition get_parts {A} (f : partitions -> A) : M world A :=
  fun w => match parts w with
           | Some p => Ok (f p) w
           | None => Raise (AttributeError "parts") w
           end.

(** Modelled from the spec: [ramp_or_set_parameter] of
    [qtools.utils.ramp_parameter] is not among the sources.  The spec has it
    "ramp/set the channel to" the target "using the configured ramp rate,
    ramp time, and setpoint interval": the call is recorded and the channel
    ends at the target. *)
Definition ramp_or_set_parameter (channel : Param) (target : pyval)
    (ramp_rate : pyval) (ramp_time : option pyval) (setpoint_intervall : pyval)
    : M world unit :=
  modify (with_ramp_calls
            (fun l => l ++ [{| rc_parameter := channel; rc_target := target;
                               rc_ramp_rate := ramp_rate; rc_ramp_time := ramp_time;
                               rc_setpoint_intervall := setpoint_intervall |}])) ;;
  modify (with_values (fun v => <[p_id channel := target]> v)).

(** A method call on the buffer object [b]. *)
Definition call_buffer {A} (b : nat) (method : buffer_method) (m : M buffer A)
    : M world A :=
  fun w =>
    match buffer_objects w !! b with
    | None => Raise (AttributeError "_qtools_buffer") w
    | Some o =>
        let w1 := with_buffer_calls (fun l => l ++ [(b, method)]) w in
        match m o with
        | Ok a o' => Ok a (with_buffer_objects (fun bs => <[b := o']> bs) w1)
        | Raise e o' => Raise e (with_buffer_objects (fun bs => <[b := o']> bs) w1)
        end
    end.

(** ** [MeasurementScript._set_buffered_num_points] *)

Definition overdefined_message : string :=
  "You cannot define sampling_rate, burst_duration and num_points at the same time".

Definition _set_buffered_num_points : M world unit :=
  buffer_settings <- gets buffer_settings ;;
  if forallb (fun k => bool_decide (is_Some (buffer_settings !! k)))
       ["sampling_rate"; "burst_duration"; "num_points"]
  then raise (PyException overdefined_message)
  else if truthy (default (PBool false) (buffer_settings !! "num_points"))
  then
    n <- eval (getitem buffer_settings "num_points") ;;
    modify (with_buffered_num_points (fun _ => Some n))
  else if forallb (fun k => bool_decide (is_Some (buffer_settings !! k)))
            ["sampling_rate"; "burst_duration"]
  then
    sampling_rate <- eval (getitem buffer_settings "sampling_rate") ;;
    burst_duration <- eval (getitem buffer_settings "burst_duration") ;;
    n <- eval (ceil_product sampling_rate burst_duration) ;;
    modify (with_buffered_num_points (fun _ => Some n))
  else ret tt.

(** ** [MeasurementScript.initialize] *)

(** The three ramp settings read at the top of [initialize] and [reset]. *)
Definition setting (key : string) (dflt : pyval) : M world pyval :=
  gets (fun w => default dflt (settings w !! key)).

(** [if "static" in role]: ramp to [value] (the source does it twice) and
    record the parameter. *)
Definition initialize_static (ramp_rate ramp_time setpoint_intervall : pyval)
    (gate parameter : string) (channel : Param) : M world unit :=
  v <- prop gate parameter "value" ;;
  ramp_or_set_parameter channel v ramp_rate (Some ramp_time) setpoint_intervall ;;
  v <- prop gate parameter "value" ;;
  ramp_or_set_parameter channel v ramp_rate (Some ramp_time) setpoint_intervall ;;
  update_parts (with_static_parameters (fun l => l ++ [(gate, parameter)])).

(** [if "gettable" in role]: record parameter, channel and break
    conditions; a missing ["break_conditions"] is suppressed. *)
Definition initialize_gettable (gate parameter : string) (channel : Param)
    : M world unit :=
  update_parts (with_gettable_parameters (fun l => l ++ [(gate, parameter)])) ;;
  update_parts (with_gettable_channels (fun l => l ++ [channel])) ;;
  try_except is_KeyError
    (conditions <- prop gate parameter "break_conditions" ;;
     conditions <- eval (iterate conditions) ;;
     for_ conditions (fun condition =>
       update_parts (with_break_conditions (fun l => l ++ [(channel, condition)]))))
    (fun _ => ret tt).

(** The nested [try]/[except KeyError] that ramps a dynamic parameter to
    its starting point; [ramp_time] is [None] when called from [reset]. *)
Definition ramp_to_start (ramp_rate : pyval) (ramp_time : option pyval)
    (setpoint_intervall : pyval) (gate parameter : string) (channel : Param)
    : M world unit :=
  try_except is_KeyError
    (v <- prop gate parameter "value" ;;
     ramp_or_set_parameter channel v ramp_rate ramp_time setpoint_intervall)
    (fun _ =>
       try_except is_KeyError
         (v <- prop gate parameter "start" ;;
          ramp_or_set_parameter channel v ramp_rate ramp_time setpoint_intervall)
         (fun _ =>
            setpoints <- prop gate parameter "setpoints" ;;
            v <- eval (subscript setpoints 0) ;;
            ramp_or_set_parameter channel v ramp_rate ramp_time setpoint_intervall)).

Definition append_sweep (s : sweep) : M world unit :=
  update_parts (with_dynamic_sweeps (fun l => l ++ [s])).

(** [if self.buffered: try: ... except KeyError: ...] *)
Definition buffered_sweep (gate parameter : string) (channel : Param) : M world unit :=
  try_except is_KeyError
    (start <- prop gate parameter "start" ;;
     stop <- prop gate parameter "stop" ;;
     num_points <- get_buffered_num_points ;;
     delay <- prop gate parameter "delay" ;;
     append_sweep (LinSweep channel start stop num_points delay))
    (fun _ =>
       setpoints <- prop gate parameter "setpoints" ;;
       first <- eval (subscript setpoints 0) ;;
       setpoints <- prop gate parameter "setpoints" ;;
       last <- eval (subscript setpoints (-1)) ;;
       num_points <- get_buffered_num_points ;;
       delay <- setdefault gate parameter "delay" (PInt 0) ;;
       append_sweep (LinSweep channel first last num_points delay)).

(** [else: try: ... except KeyError: ...] *)
Definition unbuffered_sweep (gate parameter : string) (channel : Param) : M world unit :=
  try_except is_KeyError
    (start <- prop gate parameter "start" ;;
     stop <- prop gate parameter "stop" ;;
     num_points <- prop gate parameter "num_points" ;;
     delay <- prop gate parameter "delay" ;;
     append_sweep (LinSweep channel start stop num_points delay))
    (fun _ =>
       setpoints <- prop gate parameter "setpoints" ;;
       delay <- setdefault gate parameter "delay" (PInt 0) ;;
       s <- CustomSweep_init channel setpoints delay ;;
       append_sweep s).

(** [elif "dynamic" in role] *)
Definition initialize_dynamic (ramp_rate ramp_time setpoint_intervall : pyval)
    (gate parameter : string) (channel : Param) : M world unit :=
  ramp_to_start ramp_rate (Some ramp_time) setpoint_intervall gate parameter channel ;;
  update_parts (with_dynamic_parameters (fun l => l ++ [(gate, parameter)])) ;;
  update_parts (with_dynamic_channels (fun l => l ++ [channel])) ;;
  is_buffered <- gets buffered ;;
  if is_buffered then buffered_sweep gate parameter channel
  else unbuffered_sweep gate parameter channel.

(** The body of the two nested loops of [initialize]. *)
Definition initialize_parameter (ramp_rate ramp_time setpoint_intervall : pyval)
    (gate parameter : string) (channel : Param) : M world unit :=
  is_static <- has_role gate parameter "static" ;;
  (if is_static
   then initialize_static ramp_rate ramp_time setpoint_intervall gate parameter channel
   else ret tt) ;;
  is_gettable <- has_role gate parameter "gettable" ;;
  if is_gettable then initialize_gettable gate parameter channel
  else
    is_dynamic <- has_role gate parameter "dynamic" ;;
    if is_dynamic
    then initialize_dynamic ramp_rate ramp_time setpoint_intervall gate parameter channel
    else ret tt.

(** [{channel.root_instrument._qtools_buffer
      for channel in self.gettable_channels if is_bufferable(channel)}] *)
Fixpoint buffers_of (channels : list Param) : exn + gset nat :=
  match channels with
  | [] => inr ∅
  | channel :: channels' =>
      if is_bufferable channel then
        match root_qtools_buffer channel with
        | None => inl (AttributeError "_qtools_buffer")
        | Some b => match buffers_of channels' with
                    | inl e => inl e
                    | inr bs => inr ({[b]} ∪ bs)
                    end
        end
      else buffers_of channels'
  end.

(** The body of the subscription loop.  The message of the exception shows
    the parameter's name for [str(gettable_param)]. *)
Definition subscribe_gettable (gettable_param : Param) : M world unit :=
  if is_bufferable gettable_param then
    match root_qtools_buffer gettable_param with
    | None => raise (AttributeError "_qtools_buffer")
    | Some b =>
        labels <- gets labels ;;
        call_buffer b CallSubscribe (subscribe labels [gettable_param])
    end
  else raise (PyException (name gettable_param ++ " is not bufferable.")%string).

(** [MeasurementScript._relabel_instruments] *)
Definition _relabel_instruments : M world unit :=
  gate_parameters <- gets gate_parameters ;;
  for_ gate_parameters (fun '(gate, parameters) =>
    for_ parameters (fun '(key, parameter) =>
      modify (with_labels (fun l => <[p_id parameter := (gate ++ " " ++ key)%string]> l)))).

Definition initialize : M world unit :=
  modify (with_parts (fun _ => Some empty_partitions)) ;;
  ramp_rate <- setting "ramp_rate" (PFloat (3 # 10)) ;;
  ramp_time <- setting "ramp_time" (PInt 5) ;;
  setpoint_intervall <- setting "setpoint_intervall" (PFloat (1 # 10)) ;;
  gate_parameters <- gets gate_parameters ;;
  for_ gate_parameters (fun '(gate, parameters) =>
    for_ parameters (fun '(parameter, channel) =>
      initialize_parameter ramp_rate ramp_time setpoint_intervall
        gate parameter channel)) ;;
  is_buffered <- gets buffered ;;
  (if is_buffered then
     channels <- get_parts gettable_channels ;;
     bs <- eval (buffers_of channels) ;;
     update_parts (with_buffers (fun _ => bs)) ;;
     channels <- get_parts gettable_channels ;;
     for_ channels subscribe_gettable
   else ret tt) ;;
  _relabel_instruments.

(** ** [MeasurementScript.reset] *)



(** ** [MeasurementScript.readout_buffers] *)

(** The inner loop: [results.append((param, flatten_array(data[param.name])))].
    [flatten_array] of [qtools.utils.utils] is not among the sources and is
    taken as an argument. *)
Fixpoint readout_parameters (flatten_array : pyval -> exn + pyval)
    (reading : gmap string pyval) (params : list Param)
    (results : list (Param * pyval)) : exn + list (Param * pyval) :=
  match params with
  | [] => inr results
  | param :: params' =>
      match getitem reading (name param) with
      | inl e => inl e
      | inr raw =>
          match flatten_array raw with
          | inl e => inl e
          | inr flat =>
              readout_parameters flatten_array reading params'
                (results ++ [(param, flat)])
          end
      end
  end.

(** The loop over [self.buffers], with the locals [data] and [results]. *)
Fixpoint readout_loop (flatten_array : pyval -> exn + pyval) (bs : list nat)
    (data : gmap nat (gmap string pyval)) (results : list (Param * pyval))
    : M world (list (Param * pyval)) :=
  match bs with
  | [] => ret results
  | b :: bs' =>
      call_buffer b CallStop stop ;;
      labels <- gets labels ;;
      reading <- call_buffer b CallRead (read labels) ;;
      let data := <[b := reading]> data in
      params <- (fun w => match buffer_objects w !! b with
                          | Some o => Ok (subscribed_parameters o) w
                          | None => Raise (AttributeError "_qtools_buffer") w
                          end) ;;
      reading <- eval (match data !! b with
                       | Some r => inr r
                       | None => inl (KeyError "buffer")
                       end) ;;
      results <- eval (readout_parameters flatten_array reading params results) ;;
      readout_loop flatten_array bs' data results
  end.

Definition readout_buffers (flatten_array : pyval -> exn + pyval)
    : M world (list (Param * pyval)) :=
  bs <- get_parts (fun p => elements (buffers p)) ;;
  readout_loop flatten_array bs ∅ [].

(** ** Lifecycle hooks *)

(** [str(ex)], for the messages the hooks print. *)
Definition str_exn (e : exn) : string :=
  match e with
  | KeyError k => "'" ++ k ++ "'"
  | AttributeError a => "object has no attribute '" ++ a ++ "'"
  | IndexError => "list index out of range"
  | TypeError => "unsupported operand"
  | UnboundLocalError v => "local variable '" ++ v ++ "' referenced before assignment"
  | StopIteration => ""
  | VisaIOError => "VI_ERROR_TMO"
  | BufferException m => m
  | PyException m => m
  end.

Definition print (line : string) : M world unit :=
  modify (with_stdout (fun l => l ++ [line])).

(** A method called as [f(self, *args, **kwargs)]: [self] is the state,
    [args] the remaining positional arguments. *)
Definition routine : Type := list pyval -> gmap string pyval -> M world pyval.

(** A hook with its signature as [inspect.signature] sees it: the names of
    its keyword-only parameters and whether it has a [**kwargs]
    parameter.  [hook_call] receives the keyword arguments as passed and
    binds them itself. *)
Record hook : Type := {
  hook_call : list pyval -> gmap string pyval -> M world unit;
  hook_keyword_only : list string;
  hook_has_varkw : bool
}.

(** [create_hook(func, hook)]: the [wrapper] it returns. *)
Definition create_hook (func : routine) (hook : hook) : routine :=
  fun args kwargs =>
    hook_call hook args kwargs ;;
    (if hook_has_varkw hook then ret tt else raise StopIteration) ;;
    let unused_kwargs :=
      filter (fun kv => kv.1 ∉ hook_keyword_only hook) kwargs in
    func args unused_kwargs.

(** [self.metadata] *)
Definition get_metadata : M world Metadata :=
  fun w => match metadata w with
           | Some m => Ok m w
           | None => Raise (AttributeError "metadata") w
           end.

(** [metadata.measurement.<slot>], read and written through the one
    metadata object the instance refers to. *)
Definition get_measurement {A} (f : MeasurementRecord -> A) : M world A :=
  m <- get_metadata ;;
  match measurement m with
  | Some r => ret (f r)
  | None => raise (AttributeError "measurement")
  end.

Definition with_measurement (f : MeasurementRecord -> MeasurementRecord)
    (m : Metadata) : Metadata :=
  {| measurement := f <$> measurement m; db_fault := db_fault m;
     db_saves := db_saves m |}.

Definition set_datetime (v : pyval) (r : MeasurementRecord) : MeasurementRecord :=
  {| datetime := v; data := data r |}.

Definition set_data (v : pyval) (r : MeasurementRecord) : MeasurementRecord :=
  {| datetime := datetime r; data := v |}.

(** [metadata.save_to_db()] *)
Definition save_to_db : M world unit :=
  m <- get_metadata ;;
  match db_fault m with
  | Some e => raise e
  | None =>
      modify (with_metadata (fmap (fun m =>
        {| measurement := measurement m; db_fault := db_fault m;
           db_saves := S (db_saves m) |})))
  end.

(** [except Exception] catches every exception of the model. *)
Definition is_Exception (e : exn) : bool := true.

Definition _add_datetime_to_metadata_if_empty : hook :=
  {| hook_keyword_only := ["add_datetime_to_metadata"];
     hook_has_varkw := true;
     hook_call := fun args kwargs =>
       let add_datetime_to_metadata :=
         default (PBool true) (kwargs !! "add_datetime_to_metadata") in
       if truthy add_datetime_to_metadata then
         try_except is_Exception
           (dt <- get_measurement datetime ;;
            if negb (truthy dt) then
              t <- gets (fun w => now (env w)) ;;
              modify (with_metadata (fmap (with_measurement (set_datetime t))))
            else ret tt)
           (fun ex =>
              print ("Datetime could not be added to metadata: " ++ str_exn ex))
       else ret tt |}.

Definition _add_data_to_metadata : hook :=
  {| hook_keyword_only := ["add_data_to_metadata"];
     hook_has_varkw := true;
     hook_call := fun args kwargs =>
       let add_data_to_metadata :=
         default (PBool true) (kwargs !! "add_data_to_metadata") in
       if truthy add_data_to_metadata then
         try_except is_Exception
           (d <- get_measurement data ;;
            (if negb (truthy d)
             then modify (with_metadata (fmap (with_measurement (set_data (PList [])))))
             else ret tt) ;;
            datalist <- get_measurement data ;;
            db_location <- (fun w => eval (db_location (env w)) w) ;;
            new_data <- (fun w => eval (new_measurement_data (env w)) w) ;;
            match datalist with
            | PList l =>
                modify (with_metadata
                          (fmap (with_measurement (set_data (PList (l ++ [new_data]))))))
            | _ => raise (AttributeError "append")
            end)
           (fun e => print ("Data could not be added to metadata: " ++ str_exn e))
       else ret tt |}.

Definition _insert_metadata_into_db : hook :=
  {| hook_keyword_only := ["insert_metadata_into_db"];
     hook_has_varkw := true;
     hook_call := fun args kwargs =>
       let insert_metadata_into_db :=
         default (PBool true) (kwargs !! "insert_metadata_into_db") in
       if truthy insert_metadata_into_db then
         try_except is_Exception save_to_db
           (fun e =>
              print ("Metadata could not inserted into database: " ++ str_exn e))
       else ret tt |}.

(** [MeasurementScript.__new__] rewraps the class attribute [run]: the
    hook installed last runs first. *)
Definition __new__ (run : routine) : routine :=
  let run := create_hook run _insert_metadata_into_db in
  let run := create_hook run _add_data_to_metadata in
  let run := create_hook run _add_datetime_to_metadata_if_empty in
  run.

(** The switches the hooks consume. *)
Definition hook_switches : list string :=
  ["add_datetime_to_metadata"; "add_data_to_metadata"; "insert_metadata_into_db"].

(** * Vocabulary of the properties *)

(** ** Observations of a computation *)

Section Observations.
Context {S X : Type} (f : S -> X).

(** [m] leaves the observation [f] of the state as it was, whether it
    returns or raises. *)
Definition preserves {A} (m : M S A) : Prop :=
  forall s, f (final_state (m s)) = f s.
End Observations.

(** [m] never changes the state. *)
Definition pure_ {S A} (m : M S A) : Prop := forall s, final_state (m s) = s.

(** ** Buffers *)

(** Each of the two channel slots of an SR830 holds at most one subscribed
    parameter, and every subscribed parameter sits in one of them. *)
Definition SR830_slot_inv (b : SR830Buffer.t) : Prop :=
  set_Forall (fun p => SR830Buffer.in_ch1 p \/ SR830Buffer.in_ch2 p)
    (SR830Buffer._subscribed_parameters b)
  /\ (size (filter SR830Buffer.in_ch1 (SR830Buffer._subscribed_parameters b)) <= 1)%nat
  /\ (size (filter SR830Buffer.in_ch2 (SR830Buffer._subscribed_parameters b)) <= 1)%nat.

(** The slots of an MFLI are its sample nodes: no node is subscribed twice,
    and nodes and parameters are kept in parallel. *)
Definition MFLI_slot_inv (b : MFLIBuffer.t) : Prop :=
  NoDup (MFLIBuffer._sample_nodes b)
  /\ length (MFLIBuffer._sample_nodes b) = length (MFLIBuffer._subscribed_parameters b).

Definition buffer_inv (b : buffer) : Prop :=
  match b with
  | SR830 s => SR830_slot_inv s
  | MFLI m => MFLI_slot_inv m
  end.

(** The slot that [B] would go to is held by [A]. *)
Definition occupies (labels : gmap nat string) (b : buffer) (A B : Param) : Prop :=
  match b with
  | SR830 s =>
      A ∈ SR830Buffer._subscribed_parameters s
      /\ ((SR830Buffer.in_ch1 A /\ SR830Buffer.in_ch1 B)
          \/ (SR830Buffer.in_ch2 A /\ SR830Buffer.in_ch2 B))
  | MFLI m =>
      exists i, MFLIBuffer._subscribed_parameters m !! i = Some A
                /\ MFLIBuffer._sample_nodes m !! i
                   = Some (MFLIBuffer._get_node_from_parameter labels B m)
  end.

(** The acquisition window of the buffer is closed. *)
Definition stopped (o : buffer) : bool :=
  match o with
  | SR830 s => negb (SR830Buffer.acquiring (SR830Buffer._device s))
  | MFLI m => negb (MFLIBuffer.daq_running (MFLIBuffer._daq m))
  end.

(** One buffer read out on its own: [stop()], [read()], then the flattened
    reading of every subscribed parameter. *)
Definition buffer_readout (flatten_array : pyval -> exn + pyval)
    (labels : gmap nat string) (o : buffer) : exn + list (Param * pyval) :=
  match stop o with
  | Raise e _ => inl e
  | Ok _ o1 =>
      match read labels o1 with
      | Raise e _ => inl e
      | Ok reading o2 =>
          readout_parameters flatten_array reading (subscribed_parameters o2) []
      end
  end.

Definition stop_read_calls (b : nat) : list (nat * buffer_method) :=
  [(b, CallStop); (b, CallRead)].

(** The world after [stop()] and [read()] were called on buffer [b], whose
    object is then [o1]. *)
Definition after_stop_read (b : nat) (o1 : buffer) (w : world) : world :=
  with_buffer_objects (fun bs => <[b := o1]> bs)
    (with_buffer_calls (fun l => l ++ stop_read_calls b) w).

(** ** Point-count resolution *)

Definition has_key (d : gmap string pyval) (k : string) : bool :=
  bool_decide (is_Some (d !! k)).

Definition all_three (d : gmap string pyval) : Prop :=
  is_Some (d !! "sampling_rate") /\ is_Some (d !! "burst_duration")
  /\ is_Some (d !! "num_points").

(** ** Classification and positioning *)

(** The (gate, parameter, channel) triples in the order the two nested
    loops visit them. *)
Definition items (gps : list (string * list (string * Param)))
    : list (string * string * Param) :=
  flat_map (fun '(gate, parameters) =>
              map (fun '(parameter, channel) => (gate, parameter, channel)) parameters)
           gps.

(** Whether the role text of a parameter contains [role]. *)
Definition role_in (gate parameter role : string) (w : world) : exn + bool :=
  match property_of gate parameter "type" w with
  | inl e => inl e
  | inr t => match find t role with
             | inl e => inl e
             | inr i => inr (0 <=? i)%Z
             end
  end.

(** The world after one call of [ramp_or_set_parameter]. *)
Definition ramped (channel : Param) (target ramp_rate : pyval)
    (ramp_time : option pyval) (setpoint_intervall : pyval) (w : world) : world :=
  with_values (fun v => <[p_id channel := target]> v)
    (with_ramp_calls
       (fun l => l ++ [{| rc_parameter := channel; rc_target := target;
                          rc_ramp_rate := ramp_rate; rc_ramp_time := ramp_time;
                          rc_setpoint_intervall := setpoint_intervall |}]) w).

(** The priority chain in the spec's words: [value], else [start], else the
    first of [setpoints]; the first key present wins, and with none of the
    three the lookup of ["setpoints"] fails. *)
Definition start_target (gate parameter : string) (w : world) : exn + pyval :=
  match property_of gate parameter "value" w with
  | inr v => inr v
  | inl _ =>
      match property_of gate parameter "start" w with
      | inr v => inr v
      | inl _ =>
          match property_of gate parameter "setpoints" w with
          | inr setpoints => subscript setpoints 0
          | inl e => inl e
          end
      end
  end.




Definition undeclared (gate parameter key : string) (w : world) : Prop :=
  match property_of gate parameter key w with inl _ => True | inr _ => False end.

Definition sweep_param (s : sweep) : Param :=
  match s with LinSweep p _ _ _ _ => p | CustomSweep p _ _ _ => p end.

(** The point count a [LinSweep] was built with. *)
Definition sweep_points (s : sweep) : option pyval :=
  match s with LinSweep _ _ _ n _ => Some n | CustomSweep _ _ _ _ => None end.

(** A projection of the derived lists, when they exist. *)
Definition part_of {A} (f : partitions -> A) (w : world) : option A :=
  f <$> parts w.

(** What the dynamic branch adds to the derived lists. *)
Definition dynamic_added (g k : string) (c : Param) (s : sweep)
    (p p' : partitions) : Prop :=
  dynamic_parameters p' = dynamic_parameters p ++ [(g, k)]
  /\ dynamic_channels p' = dynamic_channels p ++ [c]
  /\ dynamic_sweeps p' = dynamic_sweeps p ++ [s]
  /\ sweep_param s = c
  /\ gettable_parameters p' = gettable_parameters p.

Definition dynamic_kept (p p' : partitions) : Prop :=
  dynamic_parameters p' = dynamic_parameters p
  /\ dynamic_channels p' = dynamic_channels p
  /\ dynamic_sweeps p' = dynamic_sweeps p.

(** The sweep plan runs parallel to the dynamic partition: sweep [i] drives
    the channel of dynamic parameter [i]. *)
Definition plan_aligned (p : partitions) : Prop :=
  map sweep_param (dynamic_sweeps p) = dynamic_channels p
  /\ length (dynamic_channels p) = length (dynamic_parameters p).

(** What the loop of [initialize] maintains for a parameter tagged
    gettable: it stays out of the dynamic partition. *)
Definition gettable_inv (g k : string) (t : world) : Prop :=
  role_in g k "gettable" t = inr true
  /\ exists p, parts t = Some p /\ ((g, k) ∉ dynamic_parameters p) /\ plan_aligned p.

(** ** Hooks *)

Definition after_hook (h : hook) (args : list pyval) (kwargs : gmap string pyval)
    (w : world) : world :=
  final_state (hook_call h args kwargs w).

(** The keyword arguments a wrapper passes on: those the hook did not bind
    to a keyword-only parameter. *)
Definition strip (h : hook) (kwargs : gmap string pyval) : gmap string pyval :=
  filter (fun kv => kv.1 ∉ hook_keyword_only h) kwargs.

Definition forwarded_kwargs (kwargs : gmap string pyval) : gmap string pyval :=
  strip _insert_metadata_into_db
    (strip _add_data_to_metadata
       (strip _add_datetime_to_metadata_if_empty kwargs)).

(** The three hooks run one after the other, first the one installed last. *)
Definition after_hooks (args : list pyval) (kwargs : gmap string pyval) (w : world)
    : world :=
  let kw1 := strip _add_datetime_to_metadata_if_empty kwargs in
  let kw2 := strip _add_data_to_metadata kw1 in
  after_hook _insert_metadata_into_db args kw2
    (after_hook _add_data_to_metadata args kw1
       (after_hook _add_datetime_to_metadata_if_empty args kwargs w)).

(** A hook printed nothing, or one line. *)
Definition silent_or_logged (w w1 : world) : Prop :=
  stdout w1 = stdout w \/ exists line, stdout w1 = stdout w ++ [line].

Definition lifecycle_hooks : list hook :=
  [_add_datetime_to_metadata_if_empty; _add_data_to_metadata;
   _insert_metadata_into_db].

(** * Example configurations *)

Definition environment0 : environment :=
  {| now := PStr "2021-04-01 12:00:00";
     db_location := inr (PStr "experiments.db");
     new_measurement_data := inr (PStr "GenericData") |}.

(** A script on which [setup] has run with the given configuration and the
    channels have been mapped; nothing has been ramped or printed yet. *)
Definition laboratory
    (properties : gmap string (gmap string (gmap string pyval)))
    (gate_parameters : list (string * list (string * Param)))
    (buffered : bool) (buffer_settings : gmap string pyval)
    (buffer_objects : gmap nat buffer) : world :=
  {| properties := properties; gate_parameters := gate_parameters;
     buffered_num_points := None; buffer_settings := buffer_settings;
     settings := ∅; buffered := buffered; metadata := None; parts := None;
     values := ∅; labels := ∅; buffer_objects := buffer_objects;
     ramp_calls := []; buffer_calls := []; stdout := []; env := environment0 |}.

Definition channel (id : nat) (name : string) : Param :=
  {| p_id := id; name := name; qtools_buffer := None; root_qtools_buffer := None |}.

Definition topgate_voltage : Param := channel 1 "voltage".
Definition barrier_voltage : Param := channel 2 "voltage".
Definition sensor_current : Param := channel 3 "current".

(** A dynamic parameter given as a regular sweep. *)
Definition swept (role : string) : gmap string pyval :=
  {[ "type" := PStr role; "start" := PInt 0; "stop" := PInt 1;
     "num_points" := PInt 5; "delay" := PFloat (1 # 100) ]}.

(** ** Point-count resolution *)

Definition settings_num_points_and_rate : gmap string pyval :=
  {[ "num_points" := PInt 5; "sampling_rate" := PInt 10 ]}.

Definition settings_zero_points_and_pair : gmap string pyval :=
  {[ "num_points" := PInt 0; "sampling_rate" := PInt 10;
     "burst_duration" := PInt 2 ]}.

Definition settings_zero_points : gmap string pyval :=
  {[ "num_points" := PInt 0; "sampling_rate" := PInt 10 ]}.

Definition lab_of_settings (buffer_settings : gmap string pyval) : world :=
  laboratory ∅ [] true buffer_settings ∅.

(** ** A parameter tagged both dynamic and gettable *)

Definition lab_dynamic_gettable : world :=
  laboratory
    {[ "topgate" := {[ "voltage" := swept "dynamic gettable" ]};
       "sensor" := {[ "current" := {[ "type" := PStr "gettable" ]} ]} ]}
    [("topgate", [("voltage", topgate_voltage)]);
     ("sensor", [("current", sensor_current)])]
    false ∅ ∅.

(** ** Buffered sweeps *)

Definition settings_hundred_points : gmap string pyval :=
  {[ "num_points" := PInt 100 ]}.

(** Only [start] and [stop] are declared. *)
Definition lab_buffered_start_stop : world :=
  laboratory
    {[ "topgate" := {[ "voltage" :=
         {[ "type" := PStr "dynamic"; "start" := PInt 0; "stop" := PInt 1 ]} ]} ]}
    [("topgate", [("voltage", topgate_voltage)])]
    true settings_hundred_points ∅.

(** [start], [stop] and [delay] are declared, and a local [num_points]
    that buffered mode ignores. *)
Definition lab_buffered_sweep : world :=
  with_buffered_num_points (fun _ => Some (PInt 100))
    (laboratory
       {[ "topgate" := {[ "voltage" := swept "dynamic" ]} ]}
       [("topgate", [("voltage", topgate_voltage)])]
       true settings_hundred_points ∅).

(** ** Reset *)

Definition static_one : gmap string pyval :=
  {[ "type" := PStr "static"; "value" := PInt 1 ]}.


Definition lab_static_and_dynamic : world :=
  laboratory
    {[ "barrier" := {[ "voltage" := static_one ]};
       "topgate" := {[ "voltage" := swept "dynamic" ]} ]}
    [("barrier", [("voltage", barrier_voltage)]);
     ("topgate", [("voltage", topgate_voltage)])]
    false ∅ ∅.


(** ** Buffers *)

Definition lockin_X : Param := channel 10 "X".
Definition lockin_R : Param := channel 11 "R".

Definition sr830_device (acquiring io_fault : bool) : SR830Buffer.SR830 :=
  {| SR830Buffer.ch1_display := "X"; SR830Buffer.ch2_display := "Y";
     SR830Buffer.acquiring := acquiring; SR830Buffer.io_fault := io_fault;
     SR830Buffer.ch1_datatrace := PList [PFloat (1 # 2); PFloat (3 # 4)];
     SR830Buffer.ch2_datatrace := PList [] |}.

(** An SR830 buffer with [X] subscribed. *)
Definition sr830_with_X (acquiring io_fault : bool) : SR830Buffer.t :=
  {| SR830Buffer._device := sr830_device acquiring io_fault;
     SR830Buffer._trigger := None;
     SR830Buffer._subscribed_parameters := {[ lockin_X ]} |}.

(** Two parameter objects with the same label, hence the same sample node. *)
Definition demod_x : Param := channel 20 "x".
Definition demod_x' : Param := channel 21 "x".

Definition mfli_with_x : MFLIBuffer.t :=
  {| MFLIBuffer._daq :=
       {| MFLIBuffer.daq_nodes := [(0%Z, "x")]; MFLIBuffer.daq_running := false;
          MFLIBuffer.daq_data :=
            [((0%Z, "x"),
              [{| MFLIBuffer.value := PList [PFloat (1 # 2)];
                  MFLIBuffer.time := PList [PInt 0] |}])] |};
     MFLIBuffer._sample_nodes := [(0%Z, "x")];
     MFLIBuffer._subscribed_parameters := [demod_x];
     MFLIBuffer._trigger := None;
     MFLIBuffer._channel := 0 |}.

(** A script whose only buffer is the SR830 buffer [b], identified as [id]. *)
Definition lab_with_buffer (id : nat) (b : SR830Buffer.t) : world :=
  with_parts (fun _ => Some (with_buffers (fun _ => {[ id ]}) empty_partitions))
    (laboratory ∅ [] true ∅ {[ id := SR830 b ]}).

(** Unwraps single-element lists, as the spec describes [flatten_array]. *)
Definition unwrap_singletons (v : pyval) : exn + pyval :=
  match v with
  | PList l => inr (PList (map (fun x => match x with PList [y] => y | _ => x end) l))
  | _ => inl TypeError
  end.

(** ** Hooks *)

(** Metadata without a [measurement] slot. *)
Definition lab_without_measurement : world :=
  with_metadata
    (fun _ => Some {| measurement := None; db_fault := None; db_saves := 0 |})
    (laboratory ∅ [] false ∅ ∅).

(** A run routine that returns the keyword arguments it received. *)
Definition echo_kwargs : routine :=
  fun args kwargs => ret (PList (map (fun kv => PStr kv.1) (map_to_list kwargs))).

Definition kwargs_with_switch : gmap string pyval :=
  {[ "add_data_to_metadata" := PBool false; "timestamps" := PBool true ]}.

(** ** Vocabulary of [reset] and of the hooks *)




(** The three hooks, by name. *)
Inductive lifecycle_hook : Type := AddDatetime | AddData | InsertMetadata.

Definition hook_of (l : lifecycle_hook) : hook :=
  match l with
  | AddDatetime => _add_datetime_to_metadata_if_empty
  | AddData => _add_data_to_metadata
  | InsertMetadata => _insert_metadata_into_db
  end.

(** The keyword argument that switches the hook off. *)
Definition hook_switch (l : lifecycle_hook) : string :=
  match l with
  | AddDatetime => "add_datetime_to_metadata"
  | AddData => "add_data_to_metadata"
  | InsertMetadata => "insert_metadata_into_db"
  end.

(** How the line a hook prints for a failure begins. *)
Definition hook_log_prefix (l : lifecycle_hook) : string :=
  match l with
  | AddDatetime => "Datetime could not be added to metadata: "
  | AddData => "Data could not be added to metadata: "
  | InsertMetadata => "Metadata could not inserted into database: "
  end.

(** What a hook fails on, if anything, in the order in which its body
    reaches for it: the attribute [metadata] of the instance and the slot
    [measurement] of the metadata; for the data hook also the configured
    database location, the creation of the data record and the [append]
    on what [measurement.data] holds; for the database hook the fault of
    [save_to_db]. *)
Definition hook_failure (l : lifecycle_hook) (w : world) : option exn :=
  match metadata w with
  | None => Some (AttributeError "metadata")
  | Some m =>
      match l with
      | InsertMetadata => db_fault m
      | AddDatetime =>
          match measurement m with
          | None => Some (AttributeError "measurement")
          | Some _ => None
          end
      | AddData =>
          match measurement m with
          | None => Some (AttributeError "measurement")
          | Some r =>
              match db_location (env w), new_measurement_data (env w) with
              | inl e, _ => Some e
              | inr _, inl e => Some e
              | inr _, inr _ =>
                  match (if truthy (data r) then data r else PList []) with
                  | PList _ => None
                  | _ => Some (AttributeError "append")
                  end
              end
          end
      end
  end.

(** What a hook prints: one line naming the failure when it is switched on
    and fails, nothing otherwise. *)
Definition hook_log (l : lifecycle_hook) (kwargs : gmap string pyval) (w : world)
    : list string :=
  if truthy (default (PBool true) (kwargs !! hook_switch l)) then
    match hook_failure l w with
    | Some e => [(hook_log_prefix l ++ str_exn e)%string]
    | None => []
    end
  else [].

(** * The rest of the buffer interface *)

(** The exceptions that the methods below raise besides those of [exn]:
    [list.remove] raises [ValueError], a division by zero raises
    [ZeroDivisionError], [add_gate_parameter] raises [NameError]. *)
Inductive pyexc : Type :=
  | Builtin (e : exn)
  | NameError (msg : string)
  | ValueError (msg : string)
  | ZeroDivisionError.

(** A computation that may raise any of them; the state survives a raise
    as before. *)
Inductive result (S A : Type) : Type :=
  | Return (a : A) (s : S)
  | Throw (e : pyexc) (s : S).
Arguments Return {S A} a s.
Arguments Throw {S A} e s.

Definition R (S A : Type) : Type := S -> result S A.

Definition state_of {S A} (o : result S A) : S :=
  match o with Return _ s => s | Throw _ s => s end.

Definition thrown {S A} (o : result S A) : option pyexc :=
  match o with Return _ _ => None | Throw e _ => Some e end.

Definition retR {S A} (a : A) : R S A := fun s => Return a s.

Definition bindR {S A B} (m : R S A) (k : A -> R S B) : R S B :=
  fun s => match m s with
           | Return a s' => k a s'
           | Throw e s' => Throw e s'
           end.

Definition throw {S A} (e : pyexc) : R S A := fun s => Throw e s.

(** A computation of the first monad, run in the second. *)
Definition lift {S A} (m : M S A) : R S A :=
  fun s => match m s with
           | Ok a s' => Return a s'
           | Raise e s' => Throw (Builtin e) s'
           end.

Notation "x <~ c1 ;; c2" := (bindR c1 (fun x => c2))
  (at level 100, c1 at next level, right associativity) : py_scope.

Fixpoint forR {S A} (xs : list A) (body : A -> R S unit) : R S unit :=
  match xs with
  | [] => retR tt
  | x :: xs' => _ <~ body x ;; forR xs' body
  end.

(** [l.remove(x)]: the list without the first occurrence of [x], or
    nothing when [x] does not occur ([ValueError] in Python). *)
Fixpoint list_remove {A} `{EqDecision A} (x : A) (l : list A) : option (list A) :=
  match l with
  | [] => None
  | y :: l' => if decide (x = y) then Some l' else cons y <$> list_remove x l'
  end.

(** [len(d) == 0], the truth value of a dictionary negated. *)
Definition is_empty_dict {V} (d : gmap string V) : bool := (size d =? 0)%nat.

(** [v == n] for an integer literal [n]. *)
Definition py_eq_int (v : pyval) (n : Z) : bool :=
  match v with
  | PInt m => (m =? n)%Z
  | PBool b => ((if b then 1 else 0) =? n)%Z
  | PFloat q => Qeq_bool q (inject_Z n)
  | _ => false
  end.

Module SR830More.
Import SR830Buffer.

(** [self._subscribed_parameters.remove(parameter)]: [set.remove] raises
    [KeyError] when the element is missing. *)
Definition remove (parameter : Param) : M t unit :=
  fun b =>
    if bool_decide (parameter ∈ _subscribed_parameters b)
    then Ok tt (with_subscribed (fun s => s ∖ {[parameter]}) b)
    else Raise (KeyError (name parameter)) b.

(** The body of the loop of [unsubscribe]. *)
Definition unsubscribe_one (parameter : Param) : M t unit :=
  let name := name parameter in
  if bool_decide (name ∈ ["X"; "R"; "X Noise"; "aux_in1"; "aux_in2"]) then
    remove parameter
  else if bool_decide (name ∈ ["Y"; "Phase"; "Y Noise"; "aux_in3"; "aux_in4"]) then
    remove parameter
  else
    raise (PyException ("Parameter " ++ name ++ " can not be buffered.")).

Definition unsubscribe (parameters : list Param) : M t unit :=
  for_ parameters unsubscribe_one.

(** What can be assigned to [buffer.trigger]: [None] is the absence of a
    source; a parameter is an instance of [SR830Buffer.ExternalTrigger] or
    of another class. *)
Inductive trigger_source : Type :=
  | ExternalTrigger (p : Param)
  | CustomTrigger (p : Param).

(** The buffer object together with the two parameters of the instrument
    that [setup_buffer] and the [trigger] setter write: the sample rate
    [buffer_SR] and the trigger mode [buffer_trig_mode].  The driver is an
    external collaborator; a write stores the value. *)
Record state : Type := {
  object : t;
  buffer_SR : pyval;
  buffer_trig_mode : string
}.

Definition set_buffer_SR (v : pyval) (s : state) : state :=
  {| object := object s; buffer_SR := v; buffer_trig_mode := buffer_trig_mode s |}.

Definition set_buffer_trig_mode (v : string) (s : state) : state :=
  {| object := object s; buffer_SR := buffer_SR s; buffer_trig_mode := v |}.

Definition set__trigger (p : option Param) (s : state) : state :=
  {| object := {| _device := _device (object s); _trigger := p;
                  _subscribed_parameters := _subscribed_parameters (object s) |};
     buffer_SR := buffer_SR s; buffer_trig_mode := buffer_trig_mode s |}.

(** The [trigger] property. *)
Definition trigger (s : state) : option Param := _trigger (object s).

Definition custom_trigger_message : string :=
  "SR830 does not support setting custom trigger inputs. Use SR830Buffer.ExternalTrigger and the input on the back of the unit.".

(** The setter of [trigger]. *)
Definition set_trigger (parameter : option trigger_source) : M state unit :=
  match parameter with
  | None =>
      modify (set_buffer_SR (PInt 512)) ;;
      modify (set_buffer_trig_mode "Off")
  | Some (ExternalTrigger p) =>
      modify (set_buffer_SR (PStr "Trigger")) ;;
      modify (set_buffer_trig_mode "On") ;;
      modify (set__trigger (Some p))
  | Some (CustomTrigger _) =>
      raise (BufferException custom_trigger_message)
  end.

(** [setup_buffer(settings)].  The dictionary is the caller's object:
    [setdefault] writes into it unless it was empty or [None], in which
    case a fresh one takes its place.  The result is the caller's
    dictionary as the call leaves it. *)
Definition setup_buffer (settings : option (gmap string pyval))
    : M state (option (gmap string pyval)) :=
  let fresh := match settings with
               | None => true
               | Some d => is_empty_dict d
               end in
  let d := if fresh then ∅ else default ∅ settings in
  let sample_rate := default (PInt 512) (d !! "sample_rate") in
  let d := match d !! "sample_rate" with
           | Some _ => d
           | None => <["sample_rate" := PInt 512]> d
           end in
  modify (set_buffer_SR sample_rate) ;;
  modify (set_buffer_trig_mode "OFF") ;;
  ret (if fresh then settings else Some d).

(** One call made on the buffer from outside. *)
Inductive call : Type :=
  | Subscribe (parameters : list Param)
  | Unsubscribe (parameters : list Param).

Definition perform (c : call) : M t unit :=
  match c with
  | Subscribe ps => subscribe ps
  | Unsubscribe ps => unsubscribe ps
  end.

(** A session: the calls one after the other, a caller that goes on after
    an exception. *)
Fixpoint session (calls : list call) (b : t) : t :=
  match calls with
  | [] => b
  | c :: calls' => session calls' (final_state (perform c b))
  end.

End SR830More.

Module MFLIMore.
Import MFLIBuffer.

Definition set_sample_nodes (l : list node) (b : t) : t :=
  {| _daq := _daq b; _sample_nodes := l;
     _subscribed_parameters := _subscribed_parameters b;
     _trigger := _trigger b; _channel := _channel b |}.

Definition set_subscribed_parameters (l : list Param) (b : t) : t :=
  {| _daq := _daq b; _sample_nodes := _sample_nodes b;
     _subscribed_parameters := l;
     _trigger := _trigger b; _channel := _channel b |}.

Definition set__trigger (p : option Param) (b : t) : t :=
  {| _daq := _daq b; _sample_nodes := _sample_nodes b;
     _subscribed_parameters := _subscribed_parameters b;
     _trigger := p; _channel := _channel b |}.

Definition set__channel (c : Z) (b : t) : t :=
  {| _daq := _daq b; _sample_nodes := _sample_nodes b;
     _subscribed_parameters := _subscribed_parameters b;
     _trigger := _trigger b; _channel := c |}.

(** [self._daq.unsubscribe(node)]: the module no longer acquires the node. *)
Definition daq_unsubscribe (n : node) (d : DAQ) : DAQ :=
  {| daq_nodes := filter (fun m => m <> n) (daq_nodes d);
     daq_running := daq_running d; daq_data := daq_data d |}.

Definition remove_message : string := "list.remove(x): x not in list".

(** The body of the loop of [unsubscribe]. *)
Definition unsubscribe_one (labels : gmap nat string) (parameter : Param) : R t unit :=
  node <~ lift (gets (_get_node_from_parameter labels parameter)) ;;
  sample_nodes <~ lift (gets _sample_nodes) ;;
  if bool_decide (node ∈ sample_nodes) then
    _ <~ (match list_remove node sample_nodes with
          | Some l => lift (modify (set_sample_nodes l))
          | None => throw (ValueError remove_message)
          end) ;;
    subscribed <~ lift (gets _subscribed_parameters) ;;
    _ <~ (match list_remove parameter subscribed with
          | Some l => lift (modify (set_subscribed_parameters l))
          | None => throw (ValueError remove_message)
          end) ;;
    lift (modify (with_daq (daq_unsubscribe node)))
  else retR tt.

Definition unsubscribe (labels : gmap nat string) (parameters : list Param) : R t unit :=
  forR parameters (unsubscribe_one labels).

(** The buffer object together with the settings of the acquisition module
    and of the instrument that [setup_buffer] and the [trigger] setter
    write.  Both are external collaborators; a write stores the value.
    [demods_enabled] lists the demodulators switched on, [trigger_levels]
    is the level of the two trigger inputs. *)
Record state : Type := {
  object : t;
  daq_device : bool;
  demods_enabled : list Z;
  daq_type : pyval;
  daq_triggernode : option string;
  grid_mode : option Z;
  daq_level : option pyval;
  trigger_levels : option pyval;
  daq_count : option pyval;
  daq_duration : option pyval;
  grid_cols : option pyval
}.

Definition with_object (f : t -> t) (s : state) : state :=
  {| object := f (object s); daq_device := daq_device s;
     demods_enabled := demods_enabled s; daq_type := daq_type s;
     daq_triggernode := daq_triggernode s; grid_mode := grid_mode s;
     daq_level := daq_level s; trigger_levels := trigger_levels s;
     daq_count := daq_count s; daq_duration := daq_duration s;
     grid_cols := grid_cols s |}.

Definition set_daq_device (s : state) : state :=
  {| object := object s; daq_device := true;
     demods_enabled := demods_enabled s; daq_type := daq_type s;
     daq_triggernode := daq_triggernode s; grid_mode := grid_mode s;
     daq_level := daq_level s; trigger_levels := trigger_levels s;
     daq_count := daq_count s; daq_duration := daq_duration s;
     grid_cols := grid_cols s |}.

Definition enable_demod (c : Z) (s : state) : state :=
  {| object := object s; daq_device := daq_device s;
     demods_enabled := if bool_decide (c ∈ demods_enabled s) then demods_enabled s
                       else demods_enabled s ++ [c];
     daq_type := daq_type s;
     daq_triggernode := daq_triggernode s; grid_mode := grid_mode s;
     daq_level := daq_level s; trigger_levels := trigger_levels s;
     daq_count := daq_count s; daq_duration := daq_duration s;
     grid_cols := grid_cols s |}.

Definition set_daq_type (v : pyval) (s : state) : state :=
  {| object := object s; daq_device := daq_device s;
     demods_enabled := demods_enabled s; daq_type := v;
     daq_triggernode := daq_triggernode s; grid_mode := grid_mode s;
     daq_level := daq_level s; trigger_levels := trigger_levels s;
     daq_count := daq_count s; daq_duration := daq_duration s;
     grid_cols := grid_cols s |}.

Definition set_daq_triggernode (v : string) (s : state) : state :=
  {| object := object s; daq_device := daq_device s;
     demods_enabled := demods_enabled s; daq_type := daq_type s;
     daq_triggernode := Some v; grid_mode := grid_mode s;
     daq_level := daq_level s; trigger_levels := trigger_levels s;
     daq_count := daq_count s; daq_duration := daq_duration s;
     grid_cols := grid_cols s |}.

Definition set_grid_mode (v : Z) (s : state) : state :=
  {| object := object s; daq_device := daq_device s;
     demods_enabled := demods_enabled s; daq_type := daq_type s;
     daq_triggernode := daq_triggernode s; grid_mode := Some v;
     daq_level := daq_level s; trigger_levels := trigger_levels s;
     daq_count := daq_count s; daq_duration := daq_duration s;
     grid_cols := grid_cols s |}.

Definition set_levels (v : pyval) (s : state) : state :=
  {| object := object s; daq_device := daq_device s;
     demods_enabled := demods_enabled s; daq_type := daq_type s;
     daq_triggernode := daq_triggernode s; grid_mode := grid_mode s;
     daq_level := Some v; trigger_levels := Some v;
     daq_count := daq_count s; daq_duration := daq_duration s;
     grid_cols := grid_cols s |}.

Definition set_grid (count duration cols : pyval) (s : state) : state :=
  {| object := object s; daq_device := daq_device s;
     demods_enabled := demods_enabled s; daq_type := daq_type s;
     daq_triggernode := daq_triggernode s; grid_mode := grid_mode s;
     daq_level := daq_level s; trigger_levels := trigger_levels s;
     daq_count := Some count; daq_duration := Some duration;
     grid_cols := Some cols |}.

(** [int(np.ceil(a / b))], on the rationals that stand for the numbers of
    Python: the ceiling of the exact quotient, which is what the source
    computes on integers of moderate size; on floats the source rounds
    the quotient first. *)
Definition ceil_quotient (a b : pyval) : pyexc + pyval :=
  match as_number a, as_number b with
  | inr x, inr y =>
      if Qeq_bool y 0 then inl ZeroDivisionError
      else inr (PInt (Qceiling (x / y)))
  | inl e, _ => inl (Builtin e)
  | _, inl e => inl (Builtin e)
  end.

Definition evalR {S A} (r : pyexc + A) : R S A :=
  match r with inl e => throw e | inr a => retR a end.

(** [setup_buffer(settings)], with the caller's dictionary as the call
    leaves it for a result, as for the SR830.  [self._channel] holds an
    integer; a ["channel"] that is none cannot index [device.demods]. *)
Definition setup_buffer (settings : option (gmap string pyval))
    : R state (option (gmap string pyval)) :=
  let fresh := match settings with
               | None => true
               | Some d => is_empty_dict d
               end in
  let d := if fresh then ∅ else default ∅ settings in
  _ <~ lift (modify set_daq_device) ;;
  _ <~ (match d !! "channel" with
        | Some (PInt c) => lift (modify (with_object (set__channel c)))
        | Some _ => throw (Builtin TypeError)
        | None => retR tt
        end) ;;
  channel <~ lift (gets (fun s => _channel (object s))) ;;
  _ <~ lift (modify (enable_demod channel)) ;;
  let trigger_type := default (PInt 0) (d !! "trigger_type") in
  let d := match d !! "trigger_type" with
           | Some _ => d
           | None => <["trigger_type" := PInt 0]> d
           end in
  let out := if fresh then settings else Some d in
  _ <~ lift (modify (set_daq_type trigger_type)) ;;
  _ <~ lift (modify (set_grid_mode 2)) ;;
  _ <~ (match d !! "trigger_threshold" with
        | Some level => lift (modify (set_levels level))
        | None => retR tt
        end) ;;
  match d !! "sample_rate", d !! "burst_duration", d !! "duration" with
  | Some sample_rate, Some burst_duration, Some duration =>
      num_cols <~ lift (eval (ceil_product sample_rate burst_duration)) ;;
      num_bursts <~ evalR (ceil_quotient duration burst_duration) ;;
      _ <~ lift (modify (set_grid num_bursts burst_duration num_cols)) ;;
      retR out
  | _, _, _ => retR out
  end.

(** The [trigger] property: the getter returns [super().trigger], the
    abstract property of [Buffer], whose body is a docstring. *)
Definition trigger (s : state) : option Param := None.

(** The setter of [trigger]. *)
Definition set_trigger (parameter : Param) : M state unit :=
  (if String.eqb (name parameter) "demod0_aux_in_1" then
     modify (set_daq_triggernode "/dev4039/demods/0/sample.AuxIn0") ;;
     type <- gets daq_type ;;
     if negb (py_eq_int type 1 || py_eq_int type 3)
     then modify (set_daq_type (PInt 1))
     else ret tt
   else if String.eqb (name parameter) "demod0_trig_in" then
     modify (set_daq_triggernode "/dev4039/demods/0/sample.TrigIn1") ;;
     modify (set_daq_type (PInt 6))
   else ret tt) ;;
  modify (with_object (set__trigger (Some parameter))).

End MFLIMore.

(** * [MeasurementScript.add_gate_parameter] and [MeasurementScript.setup] *)

(** A Python dictionary whose order of insertion matters, as a list of
    pairs without duplicate keys: [d[k] = v] replaces the value of a key
    that exists in place and appends a new key. *)
Fixpoint dict_set {V} (k : string) (v : V) (d : list (string * V)) : list (string * V) :=
  match d with
  | [] => [(k, v)]
  | (k', v') :: d' =>
      if String.eqb k k' then (k, v) :: d' else (k', v') :: dict_set k v d'
  end.

Fixpoint dict_get {V} (k : string) (d : list (string * V)) : option V :=
  match d with
  | [] => None
  | (k', v') :: d' => if String.eqb k k' then Some v' else dict_get k d'
  end.

(** The double quote, for the message of [NameError]. *)
Definition dquote : string := String (Ascii.ascii_of_nat 34) EmptyString.

(** [self._set_buffered_num_points()] as a function of the two attributes
    it touches: run on an instance with the buffer settings [d] and the
    point count [current], it raises or leaves a point count. *)
Definition resolve_num_points (d : gmap string pyval) (current : option pyval)
    : exn + option pyval :=
  match _set_buffered_num_points
          (with_buffered_num_points (fun _ => current) (laboratory ∅ [] false d ∅))
  with
  | Ok _ w => inr (buffered_num_points w)
  | Raise e _ => inl e
  end.

Module Script.

Definition PARAMETER_NAMES : list string :=
  ["voltage"; "current"; "current_x_component"; "current_y_component";
   "current_compliance"; "amplitude"; "frequency"; "output_enabled";
   "time_constant"; "phase"; "count"; "aux_voltage_1"; "aux_voltage_2"].

(** A value of [self.gate_parameters]: the dictionary of a gate, from
    parameter name to channel ([None] until a channel is mapped), or a
    parameter registered without a gate. *)
Inductive entry : Type :=
  | GateDict (parameters : list (string * option Param))
  | Direct (parameter : option Param).

Definition gate_store : Type := list (string * entry).

Definition name_error (parameter_name : string) : pyexc :=
  NameError ("parameter_name " ++ dquote ++ parameter_name ++ dquote
             ++ " not in MeasurementScript.PARAMETER_NAMES.").

(** The message is not an f-string in the source: the braces are printed. *)
Definition not_a_dictionary : pyexc :=
  Builtin (PyException "Gate {gate_name} is not a dictionary.").

(** [add_gate_parameter(parameter_name, gate_name, parameter)] on
    [self.gate_parameters]; nothing else is read or written.  When it
    raises the dictionary is as before. *)
Definition add_gate_parameter (parameter_name : string) (gate_name : option string)
    (parameter : option Param) (gate_parameters : gate_store) : pyexc + gate_store :=
  if negb (bool_decide (parameter_name ∈ PARAMETER_NAMES)) then
    inl (name_error parameter_name)
  else
    match gate_name with
    | Some gate_name =>
        if String.eqb gate_name "" then
          inr (dict_set parameter_name (Direct parameter) gate_parameters)
        else
          let gate := default (GateDict []) (dict_get gate_name gate_parameters) in
          match gate with
          | GateDict d =>
              inr (dict_set gate_name (GateDict (dict_set parameter_name parameter d))
                     gate_parameters)
          | Direct _ => inl not_a_dictionary
          end
    | None => inr (dict_set parameter_name (Direct parameter) gate_parameters)
    end.

(** A dictionary attribute of the instance refers to an object.  The
    default value of the argument [buffer_settings] of [setup] is one
    dictionary object, created when the function is defined and shared by
    all calls and all instances; every other dictionary is taken to be
    referred to by one instance only. *)
Inductive dict_ref : Type :=
  | TheDefault
  | Own (d : gmap string pyval).

(** The attributes of an instance that [setup] reads or writes.  An
    attribute that [__init__] does not create is [None] until it is
    assigned.  [stdout] is what the instance has printed. *)
Record script : Type := {
  properties : gmap string (list (string * gmap string pyval));
  gate_parameters : gate_store;
  buffer_settings : option dict_ref;
  settings : option (gmap string pyval);
  buffered : option bool;
  buffered_num_points : option pyval;
  metadata : option Metadata;
  stdout : list string
}.

(** The instance and the shared default dictionary. *)
Record heap : Type := {
  default_buffer_settings : gmap string pyval;
  this : script
}.

(** [MeasurementScript.__init__] *)
Definition __init__ : script :=
  {| properties := ∅; gate_parameters := []; buffer_settings := None;
     settings := None; buffered := None; buffered_num_points := None;
     metadata := None; stdout := [] |}.

Definition with_this (f : script -> script) (h : heap) : heap :=
  {| default_buffer_settings := default_buffer_settings h; this := f (this h) |}.

Definition set_properties (v : gmap string (list (string * gmap string pyval)))
    (s : script) : script :=
  {| properties := v; gate_parameters := gate_parameters s;
     buffer_settings := buffer_settings s; settings := settings s;
     buffered := buffered s; buffered_num_points := buffered_num_points s;
     metadata := metadata s; stdout := stdout s |}.

Definition set_gate_parameters (v : gate_store) (s : script) : script :=
  {| properties := properties s; gate_parameters := v;
     buffer_settings := buffer_settings s; settings := settings s;
     buffered := buffered s; buffered_num_points := buffered_num_points s;
     metadata := metadata s; stdout := stdout s |}.

Definition set_buffer_settings (v : option dict_ref) (s : script) : script :=
  {| properties := properties s; gate_parameters := gate_parameters s;
     buffer_settings := v; settings := settings s;
     buffered := buffered s; buffered_num_points := buffered_num_points s;
     metadata := metadata s; stdout := stdout s |}.

Definition set_settings (v : option (gmap string pyval)) (s : script) : script :=
  {| properties := properties s; gate_parameters := gate_parameters s;
     buffer_settings := buffer_settings s; settings := v;
     buffered := buffered s; buffered_num_points := buffered_num_points s;
     metadata := metadata s; stdout := stdout s |}.

Definition set_buffered (v : option bool) (s : script) : script :=
  {| properties := properties s; gate_parameters := gate_parameters s;
     buffer_settings := buffer_settings s; settings := settings s;
     buffered := v; buffered_num_points := buffered_num_points s;
     metadata := metadata s; stdout := stdout s |}.

Definition set_buffered_num_points (v : option pyval) (s : script) : script :=
  {| properties := properties s; gate_parameters := gate_parameters s;
     buffer_settings := buffer_settings s; settings := settings s;
     buffered := buffered s; buffered_num_points := v;
     metadata := metadata s; stdout := stdout s |}.

Definition set_metadata (v : option Metadata) (s : script) : script :=
  {| properties := properties s; gate_parameters := gate_parameters s;
     buffer_settings := buffer_settings s; settings := settings s;
     buffered := buffered s; buffered_num_points := buffered_num_points s;
     metadata := v; stdout := stdout s |}.

Definition set_stdout (v : list string) (s : script) : script :=
  {| properties := properties s; gate_parameters := gate_parameters s;
     buffer_settings := buffer_settings s; settings := settings s;
     buffered := buffered s; buffered_num_points := buffered_num_points s;
     metadata := metadata s; stdout := v |}.

(** The dictionary an attribute refers to. *)
Definition deref (h : heap) (r : dict_ref) : gmap string pyval :=
  match r with
  | TheDefault => default_buffer_settings h
  | Own d => d
  end.

(** [self.buffer_settings], when the attribute exists. *)
Definition the_buffer_settings (h : heap) : option (gmap string pyval) :=
  deref h <$> buffer_settings (this h).

(** [r.update(new)] on the object behind [r]. *)
Definition update_ref (r : dict_ref) (new : gmap string pyval) (h : heap) : heap :=
  match r with
  | TheDefault =>
      {| default_buffer_settings := new ∪ default_buffer_settings h; this := this h |}
  | Own d => with_this (set_buffer_settings (Some (Own (new ∪ d)))) h
  end.

(** [self._set_buffered_num_points()] *)
Definition _set_buffered_num_points : R heap unit :=
  fun h =>
    match the_buffer_settings h with
    | None => Throw (Builtin (AttributeError "buffer_settings")) h
    | Some d =>
        match resolve_num_points d (buffered_num_points (this h)) with
        | inr n => Return tt (with_this (set_buffered_num_points n) h)
        | inl e => Throw (Builtin e) h
        end
    end.

Definition print (line : string) : R heap unit :=
  lift (modify (with_this (fun s => set_stdout (stdout s ++ [line]) s))).

(** The argument [buffer_settings] of a call: the dictionary passed, or the
    shared default object when the argument is left out. *)
Definition argument_ref (argument : option (gmap string pyval)) : dict_ref :=
  match argument with
  | Some d => Own d
  | None => TheDefault
  end.

(** [try: self.buffer_settings.update(buffer_settings)
     except: self.buffer_settings = buffer_settings]:
    the update fails when the attribute does not exist yet. *)
Definition update_buffer_settings (argument : option (gmap string pyval)) : R heap unit :=
  lift (modify (fun h =>
    match buffer_settings (this h) with
    | Some r => update_ref r (deref h (argument_ref argument)) h
    | None => with_this (set_buffer_settings (Some (argument_ref argument))) h
    end)).

(** [try: self.settings.update(settings) except: self.settings = settings] *)
Definition update_settings (new : gmap string pyval) : R heap unit :=
  lift (modify (with_this (fun s =>
    match settings s with
    | Some old => set_settings (Some (new ∪ old)) s
    | None => set_settings (Some new) s
    end))).

(** One of the two blocks of [setup] that record the script and the
    parameters in the metadata.  A block writes to slots of the metadata
    object that the model does not carry, and catches every exception: it
    prints one line or none.  Which one depends on collaborators outside
    the sources ([inspect.getsource], the domain classes, [json.dumps]);
    the line, if any, is an argument. *)
Definition metadata_block (enabled : bool) (line : option string) : R heap unit :=
  if enabled then
    match line with
    | Some l => print l
    | None => retR tt
    end
  else retR tt.

(** [self.add_gate_parameter(parameter, gate)] *)
Definition register (parameter gate : string) : R heap unit :=
  fun h =>
    match add_gate_parameter parameter (Some gate) None (gate_parameters (this h)) with
    | inl e => Throw e h
    | inr g => Return tt (with_this (set_gate_parameters g) h)
    end.

(** [setup(parameters, metadata, add_script_to_metadata=...,
    add_parameters_to_metadata=..., buffer_settings=..., **settings)];
    [parameters] and the dictionary of each gate are in the order of
    insertion. *)
Definition setup (parameters : list (string * list (string * gmap string pyval)))
    (metadata_ : Metadata)
    (add_script_to_metadata add_parameters_to_metadata : bool)
    (buffer_settings_ : option (gmap string pyval))
    (settings_ : gmap string pyval)
    (script_line parameters_line : option string) : R heap unit :=
  _ <~ lift (modify (with_this (set_metadata (Some metadata_)))) ;;
  _ <~ lift (modify (with_this (set_buffered (Some false)))) ;;
  _ <~ update_buffer_settings buffer_settings_ ;;
  _ <~ _set_buffered_num_points ;;
  _ <~ update_settings settings_ ;;
  _ <~ metadata_block add_script_to_metadata script_line ;;
  _ <~ metadata_block add_parameters_to_metadata parameters_line ;;
  forR parameters (fun '(gate, vals) =>
    _ <~ lift (modify (with_this (fun s =>
           set_properties (<[gate := vals]> (properties s)) s))) ;;
    forR vals (fun '(parameter, _) => register parameter gate)).

(** What [setup] leaves in [self.gate_parameters] for its argument: one
    dictionary per gate that has parameters, every parameter without a
    channel. *)
Definition registered (parameters : list (string * list (string * gmap string pyval)))
    : gate_store :=
  omap (fun '(gate, vals) =>
          match vals with
          | [] => None
          | _ => Some (gate, GateDict (map (fun kv => (kv.1, None)) vals))
          end) parameters.

(** The argument is a dictionary of dictionaries: no key occurs twice, and
    every name is a gate name the loop can register under. *)
Definition well_formed (parameters : list (string * list (string * gmap string pyval)))
    : Prop :=
  NoDup (map fst parameters)
  /\ Forall (fun gv => gv.1 <> "" /\ NoDup (map fst gv.2)) parameters.

End Script.

(** The buffer settings of the instance after the first lines of [setup]:
    the argument merged over what the attribute held, or the argument
    alone when the attribute did not exist. *)
Definition merged_buffer_settings (argument : option (gmap string pyval))
    (h : Script.heap) : gmap string pyval :=
  match Script.buffer_settings (Script.this h) with
  | Some r => Script.deref h (Script.argument_ref argument) ∪ Script.deref h r
  | None => Script.deref h (Script.argument_ref argument)
  end.

(** Every parameter name of the argument is a known one. *)
Definition known_names (parameters : list (string * list (string * gmap string pyval)))
    : Prop :=
  Forall (fun gv => Forall (fun kv => kv.1 ∈ Script.PARAMETER_NAMES) gv.2) parameters.

(** ** Example scripts *)

Definition metadata0 : Metadata :=
  {| measurement := None; db_fault := None; db_saves := 0 |}.

(** A new instance, with the shared default dictionary as given. *)
Definition new_script (default : gmap string pyval) : Script.heap :=
  {| Script.default_buffer_settings := default; Script.this := Script.__init__ |}.

(** * Vocabulary of the further properties of [initialize] *)

(** Whether the role text of an item of the configuration contains [role];
    a role text that cannot be read counts as not containing it. *)
Definition tagged (w : world) (role : string) (i : string * string * Param) : bool :=
  match role_in i.1.1 i.1.2 role w with
  | inr b => b
  | inl _ => false
  end.

Definition item_key (i : string * string * Param) : string * string := (i.1.1, i.1.2).

Definition item_channel (i : string * string * Param) : Param := i.2.

(** The items [initialize] sweeps: tagged dynamic and not gettable. *)
Definition swept_item (w : world) (i : string * string * Param) : bool :=
  tagged w "dynamic" i && negb (tagged w "gettable" i).

(** ** A buffered lock-in *)

(** Two channels of a lock-in whose instrument has the buffer [7]. *)
Definition buffered_X : Param :=
  {| p_id := 30; name := "X"; qtools_buffer := Some 7%nat;
     root_qtools_buffer := Some 7%nat |}.

Definition buffered_Y : Param :=
  {| p_id := 31; name := "Y"; qtools_buffer := Some 7%nat;
     root_qtools_buffer := Some 7%nat |}.

(** A buffered script that reads both, the buffer not yet subscribed to. *)
Definition lab_buffered_lockin : world :=
  laboratory
    {[ "lockin" := {[ "current_x_component" := {[ "type" := PStr "gettable" ]};
                      "current_y_component" := {[ "type" := PStr "gettable" ]} ]} ]}
    [("lockin", [("current_x_component", buffered_X);
                 ("current_y_component", buffered_Y)])]
    true ∅
    {[ 7%nat := SR830 {| SR830Buffer._device := sr830_device false false;
                         SR830Buffer._trigger := None;
                         SR830Buffer._subscribed_parameters := ∅ |} ]}.

(** The database side of the metadata object: the fault [save_to_db]
    would raise, and the number of saves made so far. *)
Definition database_view (w : world) : option (option exn * nat) :=
  (fun m => (db_fault m, db_saves m)) <$> metadata w.

(** [cls.run] once [instances] objects of the class have been created:
    [__new__] rewraps the class attribute at every instantiation. *)
Definition run_after (instances : nat) (run : routine) : routine :=
  Nat.iter instances __new__ run.

Definition kwargs_no_insert : gmap string pyval :=
  {[ "insert_metadata_into_db" := PBool false; "timestamps" := PBool true ]}.

(** An unbuffered parameter that declares a regular sweep without its
    [delay], and setpoints beside it. *)
Definition lab_setpoints : world :=
  with_parts (fun _ => Some empty_partitions)
    (laboratory
       {[ "topgate" := {[ "voltage" :=
            {[ "type" := PStr "dynamic"; "start" := PInt 0; "stop" := PInt 1;
               "num_points" := PInt 5;
               "setpoints" := PList [PInt 0; PInt 2; PInt 4] ]} ]} ]}
       [("topgate", [("voltage", topgate_voltage)])]
       false ∅ ∅).

(** * Properties *)

(** ** Loops and frames *)

Section Frames.
Context {S X : Type} (f : S -> X).

Lemma preserves_ret {A} (a : A) : preserves f (ret a).
Proof. by intros s. Qed.

Lemma preserves_raise {A} e : preserves f (@raise S A e).
Proof. by intros s. Qed.

Lemma preserves_eval {A} (r : exn + A) : preserves f (eval r).
Proof. destruct r; [apply preserves_raise|apply preserves_ret]. Qed.

Lemma preserves_gets {A} (g : S -> A) : preserves f (gets g).
Proof. by intros s. Qed.

Lemma preserves_modify (g : S -> S) :
  (forall s, f (g s) = f s) -> preserves f (modify g).
Proof. intros Hg s. apply Hg. Qed.

Lemma preserves_bind {A B} (m : M S A) (k : A -> M S B) :
  preserves f m -> (forall a, preserves f (k a)) -> preserves f (bind m k).
Proof.
  intros Hm Hk s. unfold bind. specialize (Hm s).
  destruct (m s) as [a s'|e s']; simpl in *; [|done].
  by rewrite Hk.
Qed.

Lemma preserves_try {A} c (m : M S A) h :
  preserves f m -> (forall e, preserves f (h e)) -> preserves f (try_except c m h).
Proof.
  intros Hm Hh s. unfold try_except. specialize (Hm s).
  destruct (m s) as [a s'|e s']; simpl in *; [done|].
  destruct (c e); simpl; [|done]. by rewrite Hh.
Qed.

Lemma preserves_for {A} (xs : list A) (body : A -> M S unit) :
  (forall x, preserves f (body x)) -> preserves f (for_ xs body).
Proof.
  intros Hb. induction xs as [|x xs IH]; simpl.
  - apply preserves_ret.
  - apply preserves_bind; [apply Hb|intros _; exact IH].
Qed.
End Frames.

Lemma for_app {S A} (xs ys : list A) (body : A -> M S unit) s :
  for_ (xs ++ ys) body s = (for_ xs body ;; for_ ys body) s.
Proof.
  revert s. induction xs as [|x xs IH]; intros s; simpl; [done|].
  unfold bind in *. destruct (body x s) as [[] s'|e s']; [apply IH|done].
Qed.

Lemma for_nested {S} (gps : list (string * list (string * Param)))
    (body : string -> string -> Param -> M S unit) s :
  for_ gps (fun '(gate, parameters) =>
              for_ parameters (fun '(parameter, channel) => body gate parameter channel)) s
  = for_ (items gps) (fun '(gate, parameter, channel) => body gate parameter channel) s.
Proof.
  revert s. induction gps as [|[g ps] gps IH]; intros s; [done|].
  simpl. rewrite for_app. unfold bind.
  assert (Hin : forall s, for_ ps (fun '(parameter, channel) => body g parameter channel) s
          = for_ (map (fun '(parameter, channel) => (g, parameter, channel)) ps)
              (fun '(gate, parameter, channel) => body gate parameter channel) s).
  { clear. induction ps as [|[k c] ps IH]; intros s; [done|]. simpl. unfold bind.
    destruct (body g k c s); [apply IH|done]. }
  rewrite Hin. destruct (for_ _ _ s) as [[] s'|e s']; [apply IH|done].
Qed.

(** A loop that returns normally ran its body normally on every element,
    threading the state. *)
Lemma for_Ok_inv {S A} (Inv : S -> Prop) (xs : list A) (body : A -> M S unit) s s' :
  for_ xs body s = Ok tt s' ->
  (forall x s1 s2, x ∈ xs -> body x s1 = Ok tt s2 -> Inv s1 -> Inv s2) ->
  Inv s -> Inv s'.
Proof.
  revert s. induction xs as [|x xs IH]; intros s Hrun Hstep Hs; simpl in Hrun.
  - by injection Hrun as <-.
  - unfold bind in Hrun. destruct (body x s) as [[] s1|e s1] eqn:Hx; [|done].
    eapply IH; [exact Hrun| |].
    + intros y s2 s3 Hy. apply Hstep. by right.
    + eapply Hstep; [by left|exact Hx|exact Hs].
Qed.

Lemma for_Ok_elem {S A} (Inv Post : S -> Prop) (xs : list A) (body : A -> M S unit)
    x s s' :
  for_ xs body s = Ok tt s' -> x ∈ xs ->
  (forall y s1 s2, y ∈ xs -> body y s1 = Ok tt s2 -> Inv s1 -> Inv s2) ->
  (forall s1 s2, body x s1 = Ok tt s2 -> Inv s1 -> Post s2) ->
  (forall y s1 s2, y ∈ xs -> body y s1 = Ok tt s2 -> Inv s1 -> Post s1 -> Post s2) ->
  Inv s -> Post s'.
Proof.
  revert s. induction xs as [|y xs IH]; intros s Hrun Hx Hinv Hest Hstab Hs.
  - by apply elem_of_nil in Hx.
  - simpl in Hrun. unfold bind in Hrun.
    destruct (body y s) as [[] s1|e s1] eqn:Hy; [|done].
    assert (Hs1 : Inv s1) by (eapply Hinv; [by left|exact Hy|exact Hs]).
    apply elem_of_cons in Hx as [->|Hx].
    + assert (Hp1 : Post s1) by (eapply Hest; [exact Hy|exact Hs]).
      assert (Hboth : Inv s' /\ Post s'); [|by destruct Hboth].
      eapply (for_Ok_inv (fun t => Inv t /\ Post t)); [exact Hrun| |by split].
      intros z s2 s3 Hz Hzrun [Hi Hp]. split.
      * eapply Hinv; [by right|exact Hzrun|exact Hi].
      * eapply Hstab; [by right|exact Hzrun|exact Hi|exact Hp].
    + eapply IH; [exact Hrun|exact Hx| |exact Hest| |exact Hs1].
      * intros z s2 s3 Hz. apply Hinv. by right.
      * intros z s2 s3 Hz. apply Hstab. by right.
Qed.

Lemma for_final_inv {S A} (Inv : S -> Prop) (xs : list A) (body : A -> M S unit) s :
  (forall x s1, x ∈ xs -> Inv s1 -> Inv (final_state (body x s1))) ->
  Inv s -> Inv (final_state (for_ xs body s)).
Proof.
  revert s. induction xs as [|x xs IH]; intros s Hstep Hs; [done|].
  simpl. unfold bind.
  pose proof (Hstep x s (ltac:(by left)) Hs) as Hx.
  destruct (body x s) as [[] s1|e s1]; simpl in *; [|done].
  apply IH; [|done]. intros y s2 Hy. apply Hstep. by right.
Qed.

Lemma bind_Ok {S A B} (m : M S A) (k : A -> M S B) s b s' :
  bind m k s = Ok b s' -> exists a s1, m s = Ok a s1 /\ k a s1 = Ok b s'.
Proof. unfold bind. destruct (m s) as [a s1|e s1]; [|done]. by exists a, s1. Qed.

Lemma Forall2_impl_elem {A B} (P Q : A -> B -> Prop) l k :
  Forall2 P l k -> (forall x y, x ∈ l -> P x y -> Q x y) -> Forall2 Q l k.
Proof.
  induction 1 as [|x y l k Hxy Hlk IH]; intros Himp; constructor.
  - apply Himp; [by left|done].
  - apply IH. intros x' y' Hx'. apply Himp. by right.
Qed.

(** ** Buffers: subscription *)

Module SR830Facts.
  Import SR830Buffer.

Lemma sr830_channels_disjoint p : in_ch1 p -> in_ch2 p -> False.
Proof.
  unfold in_ch1, in_ch2. generalize (name p). intros n Hn1 Hn2.
  assert (Hd : Forall (fun n => n ∉ ch2_names) ch1_names) by (apply (bool_decide_unpack _); vm_compute; exact I).
  rewrite Forall_forall in Hd. exact (Hd n Hn1 Hn2).
Qed.

Lemma sr830_subscribe_one_ch1 p b :
  in_ch1 p ->
  subscribe_one p b =
    Ok tt (with_subscribed (fun s => (s ∖ filter in_ch1 s) ∪ {[p]})
             (with_device (set_ch1_display (name p)) b)).
Proof.
  intros H. unfold subscribe_one. rewrite bool_decide_eq_true_2 by exact H.
  reflexivity.
Qed.

Lemma sr830_subscribe_one_ch2 p b :
  in_ch2 p ->
  subscribe_one p b =
    Ok tt (with_subscribed (fun s => (s ∖ filter in_ch2 s) ∪ {[p]})
             (with_device (set_ch2_display (name p)) b)).
Proof.
  intros H. unfold subscribe_one.
  rewrite bool_decide_eq_false_2 by (intros H1; exact (sr830_channels_disjoint p H1 H)).
  rewrite bool_decide_eq_true_2 by exact H.
  reflexivity.
Qed.

Lemma sr830_subscribe_one_other p b :
  ~ in_ch1 p -> ~ in_ch2 p ->
  subscribe_one p b = Raise (PyException ("Parameter " ++ name p ++ " can not be buffered.")) b.
Proof.
  intros H1 H2. unfold subscribe_one.
  rewrite !bool_decide_eq_false_2 by assumption. reflexivity.
Qed.

Lemma sr830_filter_after_ch1 p (s : gset Param) :
  in_ch1 p -> filter in_ch1 ((s ∖ filter in_ch1 s) ∪ {[p]}) = {[p]}.
Proof.
  intros Hp. apply set_eq. intros x. rewrite elem_of_filter, elem_of_union, elem_of_difference, elem_of_filter, elem_of_singleton.
  split; [intros [Hx [[? Hn]| ->]]; [tauto|done]|intros ->; auto].
Qed.

Lemma sr830_filter_other_ch1 p (s : gset Param) :
  in_ch1 p -> filter in_ch2 ((s ∖ filter in_ch1 s) ∪ {[p]}) = filter in_ch2 s.
Proof.
  intros Hp. apply set_eq. intros x.
  rewrite !elem_of_filter, elem_of_union, elem_of_difference, elem_of_filter, elem_of_singleton.
  split.
  - intros [Hx [[? _]| ->]]; [done|]. destruct (sr830_channels_disjoint p Hp Hx).
  - intros [Hx Hs]. split; [done|]. left. split; [done|].
    intros [Hx1 _]. exact (sr830_channels_disjoint x Hx1 Hx).
Qed.

Lemma sr830_filter_after_ch2 p (s : gset Param) :
  in_ch2 p -> filter in_ch2 ((s ∖ filter in_ch2 s) ∪ {[p]}) = {[p]}.
Proof.
  intros Hp. apply set_eq. intros x. rewrite elem_of_filter, elem_of_union, elem_of_difference, elem_of_filter, elem_of_singleton.
  split; [intros [Hx [[? Hn]| ->]]; [tauto|done]|intros ->; auto].
Qed.

Lemma sr830_filter_other_ch2 p (s : gset Param) :
  in_ch2 p -> filter in_ch1 ((s ∖ filter in_ch2 s) ∪ {[p]}) = filter in_ch1 s.
Proof.
  intros Hp. apply set_eq. intros x.
  rewrite !elem_of_filter, elem_of_union, elem_of_difference, elem_of_filter, elem_of_singleton.
  split.
  - intros [Hx [[? _]| ->]]; [done|]. destruct (sr830_channels_disjoint p Hx Hp).
  - intros [Hx Hs]. split; [done|]. left. split; [done|].
    intros [Hx1 _]. exact (sr830_channels_disjoint x Hx Hx1).
Qed.

Lemma sr830_subscribe_one_inv p b :
  SR830_slot_inv b -> SR830_slot_inv (final_state (subscribe_one p b)).
Proof.
  intros (Hall & H1 & H2).
  destruct (decide (in_ch1 p)) as [Hp|Hp]; [|destruct (decide (in_ch2 p)) as [Hq|Hq]].
  - rewrite sr830_subscribe_one_ch1 by done. unfold SR830_slot_inv. simpl.
    rewrite sr830_filter_after_ch1, sr830_filter_other_ch1 by done.
    rewrite size_singleton. split_and!; [|lia|done].
    intros x. rewrite elem_of_union, elem_of_difference, elem_of_singleton.
    intros [[Hx _]| ->]; [by apply Hall|by left].
  - rewrite sr830_subscribe_one_ch2 by done. unfold SR830_slot_inv. simpl.
    rewrite sr830_filter_after_ch2, sr830_filter_other_ch2 by done.
    rewrite size_singleton. split_and!; [|done|lia].
    intros x. rewrite elem_of_union, elem_of_difference, elem_of_singleton.
    intros [[Hx _]| ->]; [by apply Hall|by right].
  - rewrite sr830_subscribe_one_other by done. simpl. by split_and!.
Qed.

Lemma sr830_subscribe_inv ps : forall b,
  SR830_slot_inv b -> SR830_slot_inv (final_state (subscribe ps b)).
Proof.
  induction ps as [|p ps IH]; intros b Hb; [done|].
  unfold subscribe in *. simpl. unfold bind.
  pose proof (sr830_subscribe_one_inv p b Hb) as Hp.
  destruct (subscribe_one p b) as [[] b1|e b1]; simpl in *; [by apply IH|done].
Qed.

Lemma sr830_subscribe_evicts A B b :
  A ∈ _subscribed_parameters b -> A <> B ->
  (in_ch1 A /\ in_ch1 B) \/ (in_ch2 A /\ in_ch2 B) ->
  exists b', subscribe [B] b = Ok tt b'
    /\ is_subscribed A b' = false /\ is_subscribed B b' = true.
Proof.
  intros HA Hne [[HA1 HB1]|[HA2 HB2]]; unfold subscribe; simpl; unfold bind.
  - rewrite sr830_subscribe_one_ch1 by done. eexists; split; [reflexivity|].
    unfold is_subscribed; simpl. split.
    + apply bool_decide_eq_false_2.
      rewrite elem_of_union, elem_of_difference, elem_of_filter, elem_of_singleton.
      tauto.
    + apply bool_decide_eq_true_2. apply elem_of_union_r, elem_of_singleton_2. done.
  - rewrite sr830_subscribe_one_ch2 by done. eexists; split; [reflexivity|].
    unfold is_subscribed; simpl. split.
    + apply bool_decide_eq_false_2.
      rewrite elem_of_union, elem_of_difference, elem_of_filter, elem_of_singleton.
      tauto.
    + apply bool_decide_eq_true_2. apply elem_of_union_r, elem_of_singleton_2. done.
Qed.

Lemma sr830_read_loop_acquiring ps ch data b :
  acquiring (_device b) = true \/ io_fault (_device b) = true ->
  ps <> [] -> Forall (fun p => in_ch1 p \/ in_ch2 p) ps ->
  read_loop ps ch data b = Raise VisaIOError b.
Proof.
  intros Hacq Hne Hall. destruct ps as [|p ps]; [done|].
  apply Forall_cons in Hall as [Hp _]. simpl.
  assert (Hget : forall c, datatrace_get c (_device b) = inl VisaIOError).
  { intros c. unfold datatrace_get. destruct Hacq as [-> | ->]; [done|].
    by rewrite orb_true_r. }
  destruct Hp as [Hp|Hp].
  - rewrite bool_decide_eq_true_2 by exact Hp. unfold bind, gets. by rewrite Hget.
  - destruct (bool_decide (name p ∈ ch1_names)); [|rewrite bool_decide_eq_true_2 by exact Hp];
      unfold bind, gets; by rewrite Hget.
Qed.

Lemma sr830_read_loop_keys ps : forall ch data b d b',
  Forall (fun p => in_ch1 p \/ in_ch2 p) ps ->
  read_loop ps ch data b = Ok d b' ->
  b' = b /\ forall k, is_Some (d !! k) ->
            is_Some (data !! k) \/ k ∈ ch1_names \/ k ∈ ch2_names.
Proof.
  induction ps as [|p ps IH]; intros ch data b d b' Hall Hrun; simpl in Hrun.
  - injection Hrun as <- <-. auto.
  - apply Forall_cons in Hall as [Hp Hall].
    set (ch' := if bool_decide (name p ∈ ch1_names) then Some "ch1"
                else if bool_decide (name p ∈ ch2_names) then Some "ch2" else ch) in *.
    destruct ch' as [c|]; [|done].
    unfold bind, gets in Hrun.
    destruct (datatrace_get c (_device b)) as [e|v]; [done|]. simpl in Hrun.
    apply IH in Hrun as [-> Hk]; [|done]. split; [done|].
    intros k Hsome. destruct (Hk k Hsome) as [Hin|?]; [|by right].
    rewrite lookup_insert in Hin. case_decide as Hkey; [|by left].
    subst k. right. exact Hp.
Qed.

Lemma sr830_timestamps_not_a_channel :
  ("timestamps" ∉ ch1_names) /\ ("timestamps" ∉ ch2_names).
Proof. split; apply (bool_decide_unpack _); vm_compute; exact I. Qed.

Lemma sr830_read_no_timestamps b d b' :
  SR830_slot_inv b -> read b = Ok d b' -> d !! "timestamps" = None.
Proof.
  intros (Hall & _) Hrun. unfold read, try_except, bind, gets in Hrun.
  destruct (read_loop _ None ∅ b) as [d0 b0|e b0] eqn:Hloop.
  - injection Hrun as <- <-. apply sr830_read_loop_keys in Hloop as [_ Hk].
    + destruct (d0 !! "timestamps") eqn:Hts; [|done].
      destruct (Hk "timestamps" (ltac:(by rewrite Hts))) as [Hin|[Hin|Hin]].
      * rewrite lookup_empty in Hin. by destruct Hin.
      * by destruct (proj1 sr830_timestamps_not_a_channel).
      * by destruct (proj2 sr830_timestamps_not_a_channel).
    + apply Forall_forall. intros p Hp. apply Hall. by apply elem_of_elements.
  - destruct (is_VisaIOError e); done.
Qed.

Lemma sr830_read_before_stop b :
  SR830_slot_inv b -> _subscribed_parameters b <> ∅ ->
  acquiring (_device b) = true ->
  read b = Raise (BufferException read_error_message) b.
Proof.
  intros (Hall & _) Hne Hacq. unfold read, try_except, bind, gets.
  rewrite sr830_read_loop_acquiring; [done|by left| |].
  - intros Hnil. apply elements_empty_inv in Hnil. apply Hne. by apply leibniz_equiv.
  - apply Forall_forall. intros p Hp. apply Hall. by apply elem_of_elements.
Qed.

End SR830Facts.

Module MFLIFacts.
  Import MFLIBuffer.

Lemma mfli_subscribe_one_occupied labels p b :
  _get_node_from_parameter labels p b ∈ _sample_nodes b ->
  subscribe_one labels p b = Ok tt b.
Proof.
  intros Hin. unfold subscribe_one, bind, gets.
  rewrite bool_decide_eq_false_2; [done|]. by intros Hn.
Qed.

Lemma mfli_subscribe_one_free labels p b :
  _get_node_from_parameter labels p b ∉ _sample_nodes b ->
  subscribe_one labels p b =
    Ok tt (with_daq (daq_subscribe (_get_node_from_parameter labels p b))
             (append_subscription p (_get_node_from_parameter labels p b) b)).
Proof.
  intros Hin. unfold subscribe_one, bind, gets.
  by rewrite bool_decide_eq_true_2.
Qed.

Lemma mfli_subscribe_one_inv labels p b :
  MFLI_slot_inv b -> MFLI_slot_inv (final_state (subscribe_one labels p b)).
Proof.
  intros [Hnd Hlen].
  destruct (decide (_get_node_from_parameter labels p b ∈ _sample_nodes b)) as [Hin|Hin].
  - rewrite mfli_subscribe_one_occupied by done. by split.
  - rewrite mfli_subscribe_one_free by done. split; simpl.
    + apply NoDup_app. split_and!; [done| |apply NoDup_singleton].
      intros x Hx Hx'. apply list_elem_of_singleton in Hx'. by subst x.
    + rewrite !length_app. simpl. lia.
Qed.

Lemma mfli_subscribe_inv labels ps : forall b,
  MFLI_slot_inv b -> MFLI_slot_inv (final_state (subscribe labels ps b)).
Proof.
  induction ps as [|p ps IH]; intros b Hb; [done|].
  unfold subscribe in *. simpl. unfold bind.
  pose proof (mfli_subscribe_one_inv labels p b Hb) as Hp.
  destruct (subscribe_one labels p b) as [[] b1|e b1]; simpl in *; [by apply IH|done].
Qed.

Lemma mfli_read_loop_timestamps labels data ps : forall res d b b',
  read_loop labels data ps res b = Ok d b' ->
  (is_Some (res !! "timestamps") \/ ps <> []) -> is_Some (d !! "timestamps").
Proof.
  induction ps as [|p ps IH]; intros res d b b' Hrun Hpre; simpl in Hrun.
  - injection Hrun as <- <-. by destruct Hpre.
  - unfold bind, gets in Hrun.
    destruct (next_key data _) as [e|bursts]; [done|]. simpl in Hrun.
    destruct (first_burst bursts) as [e|b0]; [done|]. simpl in Hrun.
    apply IH in Hrun; [done|]. left.
    destruct (<[name p:=value b0]> res !! "timestamps") eqn:Hts.
    + rewrite Hts. done.
    + rewrite lookup_insert_eq. done.
Qed.

Lemma mfli_read_timestamps labels b d b' :
  read labels b = Ok d b' -> _subscribed_parameters b <> [] ->
  is_Some (d !! "timestamps").
Proof.
  intros Hrun Hne. unfold read, bind, read_raw, gets in Hrun.
  eapply mfli_read_loop_timestamps; [exact Hrun|by right].
Qed.

Lemma mfli_read_loop_keeps_timestamps labels data ps : forall res d b b' t,
  read_loop labels data ps res b = Ok d b' ->
  Forall (fun q => name q <> "timestamps") ps ->
  res !! "timestamps" = Some t -> d !! "timestamps" = Some t.
Proof.
  induction ps as [|p ps IH]; intros res d b b' t Hrun Hall Hts; simpl in Hrun.
  - by injection Hrun as <- <-.
  - apply Forall_cons in Hall as [Hp Hall]. unfold bind, gets in Hrun.
    destruct (next_key data _) as [e|bursts]; [done|]. simpl in Hrun.
    destruct (first_burst bursts) as [e|b0]; [done|]. simpl in Hrun.
    eapply IH; [exact Hrun|done|].
    rewrite lookup_insert_ne by done. rewrite Hts.
    by rewrite lookup_insert_ne.
Qed.

Lemma mfli_read_timestamps_first labels b d b' p ps :
  read labels b = Ok d b' -> _subscribed_parameters b = p :: ps ->
  Forall (fun q => name q <> "timestamps") (p :: ps) ->
  exists bursts b0,
    next_key (daq_data (_daq b)) (_get_node_from_parameter labels p b) = inr bursts
    /\ first_burst bursts = inr b0
    /\ d !! "timestamps" = Some (time b0).
Proof.
  intros Hrun Hps Hall. unfold read, bind, read_raw, gets in Hrun.
  rewrite Hps in Hrun. simpl in Hrun. unfold bind, gets in Hrun.
  apply Forall_cons in Hall as [Hp Hall].
  destruct (next_key _ _) as [e|bursts]; [done|]. simpl in Hrun.
  destruct (first_burst bursts) as [e|b0] eqn:Hb0; [done|]. simpl in Hrun.
  exists bursts, b0. split_and!; [done..|].
  eapply mfli_read_loop_keeps_timestamps; [exact Hrun|done|].
  rewrite lookup_insert_ne by done. rewrite lookup_empty.
  by rewrite lookup_insert_eq.
Qed.

End MFLIFacts.

(** C4, amended.  Subscribing keeps the slot invariant of a buffer, whatever
    the list of parameters.  Subscribing [B] to a slot held by another
    parameter [A] returns without error.  On an SR830 the last write wins:
    afterwards [A] is not subscribed and [B] is.  On an MFLI the slot is the
    sample node and the first write wins: the buffer is unchanged, [A] stays
    subscribed. *)
Theorem subscribe_occupied_slot labels (b : buffer) (A B : Param) :
  buffer_inv b -> occupies labels b A B -> A <> B ->
  (forall ps, buffer_inv (final_state (subscribe labels ps b)))
  /\ exists b', subscribe labels [B] b = Ok tt b'
       /\ match b with
          | SR830 _ => is_subscribed A b' = false /\ is_subscribed B b' = true
          | MFLI _ => b' = b /\ is_subscribed A b' = true
          end.
Proof.
  intros Hinv Hocc Hne. split.
  - intros ps. destruct b as [s|m]; simpl in *.
    + pose proof (SR830Facts.sr830_subscribe_inv ps s Hinv) as Hs.
      destruct (SR830Buffer.subscribe ps s); exact Hs.
    + pose proof (MFLIFacts.mfli_subscribe_inv labels ps m Hinv) as Hm.
      destruct (MFLIBuffer.subscribe labels ps m); exact Hm.
  - destruct b as [s|m]; simpl in *.
    + destruct Hocc as [HA Hslot].
      destruct (SR830Facts.sr830_subscribe_evicts A B s HA Hne Hslot) as (s' & -> & HA' & HB').
      by exists (SR830 s').
    + destruct Hocc as (i & HA & Hnode). exists (MFLI m).
      unfold MFLIBuffer.subscribe. simpl. unfold bind.
      rewrite MFLIFacts.mfli_subscribe_one_occupied by (by eapply list_elem_of_lookup_2).
      split_and!; [done..|].
      unfold MFLIBuffer.is_subscribed. apply bool_decide_eq_true_2.
      by eapply list_elem_of_lookup_2.
Qed.

(** On an MFLI, the parameter that came first keeps the node. *)
Lemma mfli_subscribe_keeps_first :
  demod_x <> demod_x'
  /\ occupies ∅ (MFLI mfli_with_x) demod_x demod_x'
  /\ subscribe ∅ [demod_x'] (MFLI mfli_with_x) = Ok tt (MFLI mfli_with_x)
  /\ is_subscribed demod_x (MFLI mfli_with_x) = true
  /\ is_subscribed demod_x' (MFLI mfli_with_x) = false.
Proof.
  split; [discriminate|]. split; [by exists 0%nat|]. by vm_compute.
Qed.

Lemma subscribe_occupied_slot_witness :
  exists b', subscribe ∅ [lockin_R] (SR830 (sr830_with_X false false)) = Ok tt b'
    /\ is_subscribed lockin_X b' = false /\ is_subscribed lockin_R b' = true.
Proof.
  apply (fun H1 H2 H3 =>
           proj2 (subscribe_occupied_slot ∅ (SR830 (sr830_with_X false false))
                    lockin_X lockin_R H1 H2 H3)).
  - split; [|split].
    + intros p Hp. simpl in Hp. apply elem_of_singleton in Hp as ->.
      left. vm_compute. left.
    + vm_compute. lia.
    + vm_compute. lia.
  - split; [simpl; by apply elem_of_singleton|]. left. split.
    + vm_compute. left.
    + vm_compute. right. left.
  - discriminate.
Defined.

(** C5.  A stopped SR830 buffer with [X] subscribed: [read()] returns the
    trace of [X] and no ["timestamps"] entry. *)
Theorem sr830_read_lacks_timestamps :
  let b := SR830 (sr830_with_X false false) in
  stopped b = true
  /\ is_subscribed lockin_X b = true
  /\ (fun d : gmap string pyval => (d !! "X", d !! "timestamps"))
       <$> returned (read ∅ b)
     = Some (Some (PList [PFloat (1 # 2); PFloat (3 # 4)]), None).
Proof. vm_compute. by split_and!. Qed.

(** ** Point-count resolution *)

Lemma forallb_three d :
  forallb (fun k => bool_decide (is_Some (d !! k)))
    ["sampling_rate"; "burst_duration"; "num_points"] = true <-> all_three d.
Proof.
  unfold all_three. simpl. rewrite !andb_true_iff, !bool_decide_eq_true. tauto.
Qed.

Lemma set_points_all_three w :
  all_three (buffer_settings w) ->
  _set_buffered_num_points w = Raise (PyException overdefined_message) w.
Proof.
  intros H. apply forallb_three in H.
  unfold _set_buffered_num_points, bind, gets. by rewrite H.
Qed.

Lemma set_points_truthy w n :
  ~ all_three (buffer_settings w) ->
  buffer_settings w !! "num_points" = Some n -> truthy n = true ->
  _set_buffered_num_points w = Ok tt (with_buffered_num_points (fun _ => Some n) w).
Proof.
  intros H3 Hn Ht. unfold _set_buffered_num_points, bind, gets.
  destruct (forallb _ ["sampling_rate"; "burst_duration"; "num_points"]) eqn:E3.
  { by apply forallb_three in E3. }
  rewrite Hn. simpl. rewrite Ht. unfold getitem. by rewrite Hn.
Qed.

Lemma ceil_product_error a b e : ceil_product a b = inl e -> e = TypeError.
Proof.
  unfold ceil_product, as_number. destruct a, b; simpl; congruence.
Qed.

(** Any other outcome: a [TypeError] from the product, or a normal return
    that wrote at most [buffered_num_points]. *)
Lemma set_points_otherwise w :
  ~ all_three (buffer_settings w) ->
  _set_buffered_num_points w = Raise TypeError w
  \/ _set_buffered_num_points w = Ok tt w
  \/ exists n, _set_buffered_num_points w
               = Ok tt (with_buffered_num_points (fun _ => Some n) w).
Proof.
  intros H3. unfold all_three in H3.
  unfold _set_buffered_num_points, bind, gets, getitem. cbn [forallb].
  destruct (buffer_settings w !! "num_points") as [n|];
    destruct (buffer_settings w !! "sampling_rate") as [sr|];
    destruct (buffer_settings w !! "burst_duration") as [bd|]; cbn;
    try (exfalso; apply H3; by split_and!);
    try destruct (truthy n); cbn;
    try (right; right; by eexists);
    try (by right; left).
  all: destruct (ceil_product sr bd) as [e|m] eqn:Hc; cbn;
    [apply ceil_product_error in Hc as ->; by left|right; right; by eexists].
Qed.

(** C2, amended.  The resolution raises the overdetermination error exactly
    when all three keys [sampling_rate], [burst_duration] and [num_points]
    are present, and it raises on the untouched state: nothing was ramped
    and no channel value changed.  Short of all three keys, a truthy
    [num_points] is accepted and becomes the buffered point count, also
    next to a lone [sampling_rate] or [burst_duration]. *)
Theorem overdefined_exactly_with_all_three w :
  (all_three (buffer_settings w)
   <-> _set_buffered_num_points w = Raise (PyException overdefined_message) w)
  /\ ramp_calls (final_state (_set_buffered_num_points w)) = ramp_calls w
  /\ values (final_state (_set_buffered_num_points w)) = values w
  /\ (~ all_three (buffer_settings w) ->
      forall n, buffer_settings w !! "num_points" = Some n -> truthy n = true ->
      _set_buffered_num_points w
      = Ok tt (with_buffered_num_points (fun _ => Some n) w)).
Proof.
  destruct (decide (all_three (buffer_settings w))) as [H3|H3].
  - rewrite (set_points_all_three w H3). by split_and!.
  - split_and!.
    + split; [done|]. intros Hr.
      destruct (set_points_otherwise w H3) as [Ho|[Ho|[n Ho]]]; congruence.
    + destruct (set_points_otherwise w H3) as [Ho|[Ho|[n Ho]]]; by rewrite Ho.
    + destruct (set_points_otherwise w H3) as [Ho|[Ho|[n Ho]]]; by rewrite Ho.
    + intros _ n Hn Ht. by apply set_points_truthy.
Qed.

(** With ["num_points": 5] and ["sampling_rate": 10] the resolution does not
    raise: the buffered point count becomes 5. *)
Lemma num_points_with_sampling_rate_accepted :
  _set_buffered_num_points (lab_of_settings settings_num_points_and_rate)
  = Ok tt (with_buffered_num_points (fun _ => Some (PInt 5))
             (lab_of_settings settings_num_points_and_rate)).
Proof. vm_compute. reflexivity. Qed.

Lemma overdefined_witness :
  _set_buffered_num_points (lab_of_settings settings_zero_points_and_pair)
  = Raise (PyException overdefined_message)
      (lab_of_settings settings_zero_points_and_pair).
Proof.
  apply (proj1 (overdefined_exactly_with_all_three (lab_of_settings settings_zero_points_and_pair))).
  unfold all_three. vm_compute. split_and!; by eexists.
Defined.

(** C10, amended.  A [num_points] entry with a falsy value never sets the
    buffered point count.  When [sampling_rate] and [burst_duration] are
    present as well, all three keys are present and the resolution raises
    the overdetermination error instead of falling through to the pair;
    otherwise it returns and leaves the point count as it was. *)
Theorem falsy_num_points w v :
  buffer_settings w !! "num_points" = Some v -> truthy v = false ->
  _set_buffered_num_points w =
    (if has_key (buffer_settings w) "sampling_rate"
        && has_key (buffer_settings w) "burst_duration"
     then Raise (PyException overdefined_message) w
     else Ok tt w).
Proof.
  intros Hv Hf. unfold _set_buffered_num_points, bind, gets, has_key, getitem.
  cbn [forallb]. rewrite Hv. cbn. rewrite Hf.
  destruct (buffer_settings w !! "sampling_rate");
    destruct (buffer_settings w !! "burst_duration"); reflexivity.
Qed.

(** A zero [num_points] next to the pair: the resolution raises, where the
    pair alone would give the count 20. *)
Lemma zero_num_points_with_pair_raises :
  _set_buffered_num_points (lab_of_settings settings_zero_points_and_pair)
  = Raise (PyException overdefined_message)
      (lab_of_settings settings_zero_points_and_pair)
  /\ buffered_num_points
       (final_state
          (_set_buffered_num_points
             (lab_of_settings (delete "num_points" settings_zero_points_and_pair))))
     = Some (PInt 20).
Proof. split; vm_compute; reflexivity. Qed.

Lemma falsy_num_points_witness :
  _set_buffered_num_points (lab_of_settings settings_zero_points)
  = Ok tt (lab_of_settings settings_zero_points).
Proof.
  apply (falsy_num_points (lab_of_settings settings_zero_points) (PInt 0));
    vm_compute; reflexivity.
Defined.

(** ** Equations of the primitives *)

Lemma prop_eq g k key w :
  prop g k key w = match property_of g k key w with
                   | inr v => Ok v w
                   | inl e => Raise e w
                   end.
Proof. unfold prop. by destruct (property_of g k key w). Qed.

Lemma has_role_eq g k r w :
  has_role g k r w = match role_in g k r w with
                     | inr b => Ok b w
                     | inl e => Raise e w
                     end.
Proof.
  unfold has_role, role_in, bind. rewrite prop_eq.
  destruct (property_of g k "type" w) as [e|t]; [done|].
  by destruct (find t r).
Qed.

Lemma property_of_KeyError g k key w e :
  property_of g k key w = inl e -> is_KeyError e = true.
Proof.
  unfold property_of, getitem.
  destruct (properties w !! g) as [d|]; [|by intros [= <-]].
  destruct (d !! k) as [p|]; [|by intros [= <-]].
  destruct (p !! key); [done|by intros [= <-]].
Qed.

Lemma try_prop_ramp g k key c rr rt si (h : exn -> M world unit) w :
  try_except is_KeyError
    (v <- prop g k key ;; ramp_or_set_parameter c v rr rt si) h w
  = match property_of g k key w with
    | inr v => Ok tt (ramped c v rr rt si w)
    | inl e => h e w
    end.
Proof.
  unfold try_except, bind. rewrite prop_eq.
  destruct (property_of g k key w) as [e|v] eqn:Hp; [|reflexivity].
  by rewrite (property_of_KeyError _ _ _ _ _ Hp).
Qed.

Lemma ramp_to_start_eq rr rt si g k c w :
  ramp_to_start rr rt si g k c w =
    match start_target g k w with
    | inr v => Ok tt (ramped c v rr rt si w)
    | inl e => Raise e w
    end.
Proof.
  unfold ramp_to_start, start_target. rewrite try_prop_ramp.
  destruct (property_of g k "value" w) as [e1|v1]; [|reflexivity].
  rewrite try_prop_ramp.
  destruct (property_of g k "start" w) as [e2|v2]; [|reflexivity].
  unfold bind. rewrite prop_eq.
  destruct (property_of g k "setpoints" w) as [e3|sp]; [reflexivity|]. cbn.
  destruct (subscript sp 0); reflexivity.
Qed.


Lemma update_parts_Ok f w w' :
  update_parts f w = Ok tt w' ->
  exists p, parts w = Some p /\ w' = with_parts (fun _ => Some (f p)) w.
Proof.
  unfold update_parts. destruct (parts w) as [p|]; [|done].
  intros [= <-]. by exists p.
Qed.

Lemma has_role_Ok g k r w b w' :
  has_role g k r w = Ok b w' -> w' = w /\ role_in g k r w = inr b.
Proof.
  rewrite has_role_eq. destruct (role_in g k r w); [done|]. by intros [= <- <-].
Qed.

(** ** Frames of the script *)

Lemma preserves_pure {X A} (f : world -> X) (m : M world A) :
  pure_ m -> preserves f m.
Proof. intros Hm w. by rewrite Hm. Qed.

Lemma prop_pure g k key : pure_ (prop g k key).
Proof. intros w. rewrite prop_eq. by destruct (property_of g k key w). Qed.

Lemma has_role_pure g k r : pure_ (has_role g k r).
Proof. intros w. rewrite has_role_eq. by destruct (role_in g k r w). Qed.

Lemma get_parts_pure {A} (f : partitions -> A) : pure_ (get_parts f).
Proof. intros w. unfold get_parts. by destruct (parts w). Qed.

Lemma get_buffered_num_points_pure : pure_ get_buffered_num_points.
Proof. intros w. unfold get_buffered_num_points. by destruct (buffered_num_points w). Qed.

Lemma setting_pure key d : pure_ (setting key d).
Proof. by intros w. Qed.

Lemma CustomSweep_init_pure c sp d : pure_ (@CustomSweep_init world c sp d).
Proof. intros w. unfold CustomSweep_init, bind. by destruct (len sp). Qed.

Lemma preserves_ramp {X} (f : world -> X) c v rr rt si :
  (forall g w, f (with_values g w) = f w) ->
  (forall g w, f (with_ramp_calls g w) = f w) ->
  preserves f (ramp_or_set_parameter c v rr rt si).
Proof. intros Hv Hr w. simpl. by rewrite Hv, Hr. Qed.

Lemma preserves_update_parts {X} (f : world -> X) g :
  (forall p w, parts w = Some p -> f (with_parts (fun _ => Some (g p)) w) = f w) ->
  preserves f (update_parts g).
Proof.
  intros Hf w. unfold update_parts.
  destruct (parts w) as [p|] eqn:Hp; [|done]. simpl. by apply Hf.
Qed.

Lemma preserves_setdefault {X} (f : world -> X) g k key d :
  (forall h w, f (with_properties h w) = f w) ->
  preserves f (setdefault g k key d).
Proof.
  intros Hf w. unfold setdefault.
  destruct (properties w !! g) as [dg|]; [|done].
  destruct (dg !! k) as [p|]; [|done].
  destruct (p !! key); [done|]. simpl. apply Hf.
Qed.

Lemma preserves_call_buffer {X A} (f : world -> X) b meth (m : M buffer A) :
  (forall g w, f (with_buffer_calls g w) = f w) ->
  (forall g w, f (with_buffer_objects g w) = f w) ->
  preserves f (call_buffer b meth m).
Proof.
  intros Hc Ho w. unfold call_buffer.
  destruct (buffer_objects w !! b) as [o|]; [|done].
  destruct (m o); simpl; by rewrite Ho, Hc.
Qed.

(** [setdefault(.., "delay", ..)] leaves every other entry as declared. *)
Lemma setdefault_property_of g k d g' k' key w :
  key <> "delay" ->
  property_of g' k' key (final_state (setdefault g k "delay" d w))
  = property_of g' k' key w.
Proof.
  intros Hkey. unfold setdefault.
  destruct (properties w !! g) as [dg|] eqn:Hg; [|done].
  destruct (dg !! k) as [p|] eqn:Hk; [|done].
  destruct (p !! "delay") eqn:Hd; [done|]. simpl.
  unfold property_of, getitem. simpl.
  destruct (decide (g' = g)) as [->|Hne]; [|by rewrite lookup_insert_ne].
  rewrite lookup_insert_eq, Hg.
  destruct (decide (k' = k)) as [->|Hne]; [|by rewrite lookup_insert_ne].
  rewrite lookup_insert_eq, Hk. by rewrite lookup_insert_ne.
Qed.

Lemma preserves_setdefault_decl g k d g' k' key :
  key <> "delay" ->
  preserves (property_of g' k' key) (setdefault g k "delay" d).
Proof. intros Hkey w. by apply setdefault_property_of. Qed.

Ltac frame_step :=
  first
    [ apply preserves_ramp; intros; first [reflexivity | solve [auto]]
    | apply preserves_update_parts;
        let H := fresh in intros ? ? H; simpl; rewrite ?H; solve [reflexivity | congruence]
    | apply preserves_setdefault_decl; assumption
    | apply preserves_setdefault; intros; first [reflexivity | solve [auto]]
    | apply preserves_call_buffer; intros; first [reflexivity | solve [auto]]
    | apply preserves_pure;
        first [ apply prop_pure | apply has_role_pure | apply get_parts_pure
              | apply get_buffered_num_points_pure | apply setting_pure
              | apply CustomSweep_init_pure ]
    | apply preserves_ret
    | apply preserves_raise
    | apply preserves_eval
    | apply preserves_gets
    | apply preserves_modify; intros; first [reflexivity | solve [auto]]
    | apply preserves_bind; [|intros ?]
    | apply preserves_try; [|intros ?]
    | apply preserves_for; intros ?
    | match goal with
      | |- preserves _ (if ?b then _ else _) => destruct b
      | |- preserves _ (let '(_, _) := ?x in _) => destruct x
      | |- preserves _ (match ?x with _ => _ end) => destruct x
      end ].

Ltac frame := repeat frame_step.

(** ** Reset *)










(** ** Initialize: what it leaves alone *)

Lemma initialize_parameter_frame {X} (f : world -> X) rr rt si g k c :
  (forall h w, f (with_values h w) = f w) ->
  (forall h w, f (with_ramp_calls h w) = f w) ->
  (forall h w, f (with_parts h w) = f w) ->
  (forall d, preserves f (setdefault g k "delay" d)) ->
  preserves f (initialize_parameter rr rt si g k c).
Proof.
  intros Hv Hr Hp Hs.
  unfold initialize_parameter, initialize_static, initialize_gettable,
    initialize_dynamic, ramp_to_start, buffered_sweep, unbuffered_sweep, append_sweep.
  assert (Hup : forall h, preserves f (update_parts h)).
  { intros h w. unfold update_parts. destruct (parts w); [apply Hp|done]. }
  repeat first [ apply Hup | apply Hs | frame_step ].
Qed.






Lemma role_in_declared g k r w w' :
  property_of g k "type" w' = property_of g k "type" w ->
  role_in g k r w' = role_in g k r w.
Proof. intros H. unfold role_in. by rewrite H. Qed.









(** ** Initialize: what each branch adds *)

Lemma buffered_sweep_Ok g k c w w' p :
  buffered_sweep g k c w = Ok tt w' -> parts w = Some p ->
  exists s, parts w' = Some (with_dynamic_sweeps (fun l => l ++ [s]) p)
            /\ sweep_param s = c
            /\ exists n, buffered_num_points w = Some n /\ sweep_points s = Some n.
Proof.
  intros Hrun Hp.
  unfold buffered_sweep, try_except, bind, prop, get_buffered_num_points,
    append_sweep, update_parts, setdefault, eval, raise, ret in Hrun.
  repeat (case_match; simplify_eq/=; try done).
  all: eexists; split_and!; [by rewrite ?Hp|done|by eexists].
Qed.

Lemma unbuffered_sweep_Ok g k c w w' p :
  unbuffered_sweep g k c w = Ok tt w' -> parts w = Some p ->
  exists s, parts w' = Some (with_dynamic_sweeps (fun l => l ++ [s]) p)
            /\ sweep_param s = c.
Proof.
  intros Hrun Hp.
  unfold unbuffered_sweep, try_except, bind, prop, CustomSweep_init,
    append_sweep, update_parts, setdefault, eval, raise, ret in Hrun.
  repeat (first [ progress unfold bind in *
                | case_match; simplify_eq/=; try done ]).
  all: eexists; split; [by rewrite ?Hp|done].
Qed.

Lemma initialize_static_parts {A} (f : partitions -> A) rr rt si g k c :
  (forall h p, f (with_static_parameters h p) = f p) ->
  preserves (part_of f) (initialize_static rr rt si g k c).
Proof.
  intros Hf. unfold initialize_static. frame.
  apply preserves_update_parts. intros p w Hp. unfold part_of. simpl.
  by rewrite Hp, Hf.
Qed.

Lemma initialize_static_keeps g k c rr rt si g' k' key :
  preserves (property_of g' k' key) (initialize_static rr rt si g k c).
Proof. unfold initialize_static. frame. Qed.

Lemma initialize_gettable_Ok g k c w w' p :
  initialize_gettable g k c w = Ok tt w' -> parts w = Some p ->
  exists p', parts w' = Some p'
    /\ gettable_parameters p' = gettable_parameters p ++ [(g, k)]
    /\ gettable_channels p' = gettable_channels p ++ [c]
    /\ static_parameters p' = static_parameters p
    /\ dynamic_parameters p' = dynamic_parameters p
    /\ dynamic_channels p' = dynamic_channels p
    /\ dynamic_sweeps p' = dynamic_sweeps p.
Proof.
  intros Hrun Hp. unfold initialize_gettable in Hrun.
  apply bind_Ok in Hrun as ([] & w1 & H1 & Hrun).
  apply bind_Ok in Hrun as ([] & w2 & H2 & Hrun).
  apply update_parts_Ok in H1 as (p1 & Hp1 & ->).
  apply update_parts_Ok in H2 as (p2 & Hp2 & ->).
  simpl in Hp2. simplify_eq.
  set (w2 := with_parts _ (with_parts _ w)) in *.
  set (rest := try_except _ _ _) in *.
  assert (Hfr : forall A (f : partitions -> A),
             (forall h q, f (with_break_conditions h q) = f q) ->
             part_of f w' = part_of f w2).
  { intros A f Hf. assert (Hpres : preserves (part_of f) rest).
    { subst rest. frame. apply preserves_update_parts. intros q w0 Hq.
      unfold part_of. simpl. by rewrite Hq, Hf. }
    specialize (Hpres w2). by rewrite Hrun in Hpres. }
  pose proof (Hfr _ gettable_parameters (fun _ _ => eq_refl)) as Hg.
  pose proof (Hfr _ gettable_channels (fun _ _ => eq_refl)) as Hgc.
  pose proof (Hfr _ static_parameters (fun _ _ => eq_refl)) as Hs.
  pose proof (Hfr _ dynamic_parameters (fun _ _ => eq_refl)) as Hd.
  pose proof (Hfr _ dynamic_channels (fun _ _ => eq_refl)) as Hdc.
  pose proof (Hfr _ dynamic_sweeps (fun _ _ => eq_refl)) as Hds.
  unfold part_of in *. subst w2. simpl in *.
  destruct (parts w') as [p'|]; [|done]. exists p'.
  simplify_eq/=. by split_and!.
Qed.

Lemma initialize_dynamic_Ok rr rt si g k c w w' p :
  initialize_dynamic rr rt si g k c w = Ok tt w' -> parts w = Some p ->
  exists p' s, parts w' = Some p' /\ dynamic_added g k c s p p'
    /\ (buffered w = true ->
        exists n, buffered_num_points w = Some n /\ sweep_points s = Some n).
Proof.
  intros Hrun Hp. unfold initialize_dynamic in Hrun.
  apply bind_Ok in Hrun as ([] & w1 & H1 & Hrun).
  rewrite ramp_to_start_eq in H1.
  destruct (start_target g k w) as [e|v]; [done|]. injection H1 as <-.
  apply bind_Ok in Hrun as ([] & w2 & H2 & Hrun).
  apply update_parts_Ok in H2 as (p1 & Hp1 & ->). simpl in Hp1. simplify_eq.
  apply bind_Ok in Hrun as ([] & w3 & H3 & Hrun).
  apply update_parts_Ok in H3 as (p2 & Hp2 & ->). simpl in Hp2. simplify_eq.
  apply bind_Ok in Hrun as (b & w4 & H4 & Hrun).
  injection H4 as <- <-. simpl in Hrun.
  destruct (buffered w) eqn:Hb.
  - eapply buffered_sweep_Ok in Hrun as (s & Hp' & Hs & n & Hn & Hsn); [|reflexivity].
    eexists _, s. split; [exact Hp'|]. split; [by split_and!|].
    intros _. exists n. by split.
  - eapply unbuffered_sweep_Ok in Hrun as (s & Hp' & Hs); [|reflexivity].
    eexists _, s. split; [exact Hp'|]. split; [by split_and!|done].
Qed.

Lemma initialize_parameter_Ok rr rt si g k c w w' p :
  initialize_parameter rr rt si g k c w = Ok tt w' -> parts w = Some p ->
  exists p', parts w' = Some p' /\
    ((role_in g k "gettable" w = inr true
      /\ gettable_parameters p' = gettable_parameters p ++ [(g, k)]
      /\ dynamic_kept p p')
     \/ (role_in g k "gettable" w = inr false
         /\ role_in g k "dynamic" w = inr true
         /\ exists s, dynamic_added g k c s p p'
              /\ (buffered w = true ->
                  exists n, buffered_num_points w = Some n
                            /\ sweep_points s = Some n))
     \/ (role_in g k "gettable" w = inr false
         /\ role_in g k "dynamic" w = inr false
         /\ gettable_parameters p' = gettable_parameters p
         /\ dynamic_kept p p')).
Proof.
  intros Hrun Hp. unfold initialize_parameter in Hrun.
  apply bind_Ok in Hrun as (st & w0 & H0 & Hrun).
  apply has_role_Ok in H0 as [-> Hst].
  apply bind_Ok in Hrun as ([] & w1 & H1 & Hrun).
  assert (Hkeep : forall A (f : partitions -> A),
             (forall h q, f (with_static_parameters h q) = f q) ->
             part_of f w1 = part_of f w).
  { intros A f Hf. destruct st; [|by injection H1 as <-].
    pose proof (initialize_static_parts f rr rt si g k c Hf w) as H. by rewrite H1 in H. }
  assert (Hrole : forall r, role_in g k r w1 = role_in g k r w).
  { intros r. apply role_in_declared. destruct st; [|by injection H1 as <-].
    pose proof (initialize_static_keeps g k c rr rt si g k "type" w) as H.
    by rewrite H1 in H. }
  assert (Hflags : buffered w1 = buffered w
                   /\ buffered_num_points w1 = buffered_num_points w).
  { destruct st; [|by injection H1 as <-].
    assert (Hb : preserves buffered (initialize_static rr rt si g k c))
      by (unfold initialize_static; frame).
    assert (Hn : preserves buffered_num_points (initialize_static rr rt si g k c))
      by (unfold initialize_static; frame).
    specialize (Hb w). specialize (Hn w). by rewrite H1 in Hb, Hn. }
  destruct Hflags as [Hbuf Hbnp].
  pose proof (Hkeep _ gettable_parameters (fun _ _ => eq_refl)) as Kg.
  pose proof (Hkeep _ dynamic_parameters (fun _ _ => eq_refl)) as Kd.
  pose proof (Hkeep _ dynamic_channels (fun _ _ => eq_refl)) as Kdc.
  pose proof (Hkeep _ dynamic_sweeps (fun _ _ => eq_refl)) as Kds.
  unfold part_of in Kg, Kd, Kdc, Kds. rewrite Hp in Kg, Kd, Kdc, Kds.
  destruct (parts w1) as [p1|] eqn:Hp1; [|done]. simpl in *. simplify_eq.
  apply bind_Ok in Hrun as (G & w2 & H2 & Hrun).
  apply has_role_Ok in H2 as [-> HG]. rewrite Hrole in HG.
  destruct G.
  - destruct (initialize_gettable_Ok _ _ _ _ _ _ Hrun Hp1)
      as (p' & Hp' & Eg & _ & _ & Ed & Edc & Eds).
    exists p'. split; [done|]. left. unfold dynamic_kept. split_and!; congruence.
  - apply bind_Ok in Hrun as (D & w3 & H3 & Hrun).
    apply has_role_Ok in H3 as [-> HD]. rewrite Hrole in HD.
    destruct D.
    + destruct (initialize_dynamic_Ok _ _ _ _ _ _ _ _ _ Hrun Hp1)
        as (p' & s & Hp' & (Ed & Edc & Eds & Hs & Eg) & Hn).
      exists p'. split; [done|]. right; left. split_and!; [done..|].
      exists s. split; [unfold dynamic_added; split_and!; congruence|].
      rewrite <- Hbuf, <- Hbnp. exact Hn.
    + injection Hrun as <-. exists p1. split; [done|]. right; right.
      unfold dynamic_kept. by split_and!.
Qed.

(** [initialize] that returns: the two loops ran on every item, and what
    follows them leaves every derived list except [buffers] alone. *)
Lemma initialize_Ok w w' :
  initialize w = Ok tt w' ->
  exists rr rt si w1,
    for_ (items (gate_parameters w))
      (fun '(gate, parameter, channel) =>
         initialize_parameter rr rt si gate parameter channel)
      (with_parts (fun _ => Some empty_partitions) w) = Ok tt w1
    /\ forall A (f : partitions -> A),
         (forall h q, f (with_buffers h q) = f q) ->
         part_of f w' = part_of f w1.
Proof.
  intros Hrun. unfold initialize in Hrun.
  apply bind_Ok in Hrun as ([] & w0 & H0 & Hrun). injection H0 as <-.
  apply bind_Ok in Hrun as (rr & ? & [= <- <-] & Hrun).
  apply bind_Ok in Hrun as (rt & ? & [= <- <-] & Hrun).
  apply bind_Ok in Hrun as (si & ? & [= <- <-] & Hrun).
  apply bind_Ok in Hrun as (gps & ? & [= <- <-] & Hrun).
  apply bind_Ok in Hrun as ([] & w1 & Hloop & Hrun).
  rewrite for_nested in Hloop. simpl in Hloop.
  eexists _, _, _, w1. split; [exact Hloop|].
  intros A f Hf.
  set (rest := bind _ _) in Hrun.
  assert (Hpres : preserves (part_of f) rest).
  { subst rest. unfold subscribe_gettable, _relabel_instruments. frame.
    apply preserves_update_parts. intros q w2 Hq. unfold part_of. simpl.
    by rewrite Hq, Hf. }
  specialize (Hpres w1). by rewrite Hrun in Hpres.
Qed.

Lemma initialize_parameter_role rr rt si g k c g' k' r w :
  role_in g' k' r (final_state (initialize_parameter rr rt si g k c w))
  = role_in g' k' r w.
Proof.
  apply role_in_declared.
  apply (initialize_parameter_frame (property_of g' k' "type"));
    try (intros; reflexivity).
  intros d. by apply preserves_setdefault_decl.
Qed.

Lemma initialize_parameter_flags rr rt si g k c w :
  buffered (final_state (initialize_parameter rr rt si g k c w)) = buffered w
  /\ buffered_num_points (final_state (initialize_parameter rr rt si g k c w))
     = buffered_num_points w.
Proof.
  split.
  - apply (initialize_parameter_frame buffered); try (intros; reflexivity).
    intros d. apply preserves_setdefault. intros; reflexivity.
  - apply (initialize_parameter_frame buffered_num_points); try (intros; reflexivity).
    intros d. apply preserves_setdefault. intros; reflexivity.
Qed.

Lemma gettable_inv_step rr rt si g k g' k' c' s1 s2 :
  initialize_parameter rr rt si g' k' c' s1 = Ok tt s2 ->
  gettable_inv g k s1 -> gettable_inv g k s2.
Proof.
  intros Hstep (Hrole & p & Hp & Hnot & Hal1 & Hal2). split.
  { pose proof (initialize_parameter_role rr rt si g' k' c' g k "gettable" s1) as H.
    rewrite Hstep in H. simpl in H. congruence. }
  destruct (initialize_parameter_Ok _ _ _ _ _ _ _ _ _ Hstep Hp)
    as (p' & Hp' & [(_ & _ & Kd & Kdc & Kds)
                   |[(HG' & _ & s & (Ed & Edc & Eds & Hs & _) & _)
                    |(_ & _ & _ & Kd & Kdc & Kds)]]).
  - exists p'. unfold plan_aligned. split_and!; [done| | |]; congruence.
  - exists p'. unfold plan_aligned. split_and!; [done| | |].
    + rewrite Ed. rewrite elem_of_app, list_elem_of_singleton.
      intros [?|[= -> ->]]; [done|congruence].
    + rewrite Eds, Edc, map_app. simpl. congruence.
    + rewrite Edc, Ed, !length_app. simpl. congruence.
  - exists p'. unfold plan_aligned. split_and!; [done| | |]; congruence.
Qed.

Lemma gettable_inv_init g k w :
  role_in g k "gettable" w = inr true ->
  gettable_inv g k (with_parts (fun _ => Some empty_partitions) w).
Proof.
  intros HG. split; [done|]. exists empty_partitions.
  split; [done|]. split; [apply not_elem_of_nil|done].
Qed.

(** C1.  A parameter whose role text contains both "dynamic" and "gettable"
    is classified as gettable only.  When [initialize] returns, the
    parameter is in the gettable partition and not in the dynamic one, and
    the sweep plan runs parallel to the dynamic partition, so that no sweep
    of the plan belongs to it.  Step by step: the loop body run on such a
    parameter appends it to the gettable partition and leaves the dynamic
    partition, the dynamic channels and the sweep plan as they were; the
    gettable test comes first and the dynamic branch is its [elif]. *)
Theorem gettable_before_dynamic w w' g k c :
  initialize w = Ok tt w' ->
  (g, k, c) ∈ items (gate_parameters w) ->
  role_in g k "gettable" w = inr true ->
  role_in g k "dynamic" w = inr true ->
  (exists p, parts w' = Some p
     /\ (g, k) ∈ gettable_parameters p
     /\ ((g, k) ∉ dynamic_parameters p)
     /\ plan_aligned p)
  /\ (forall rr rt si s s' q,
        role_in g k "gettable" s = inr true -> parts s = Some q ->
        initialize_parameter rr rt si g k c s = Ok tt s' ->
        exists q', parts s' = Some q'
          /\ gettable_parameters q' = gettable_parameters q ++ [(g, k)]
          /\ dynamic_parameters q' = dynamic_parameters q
          /\ dynamic_channels q' = dynamic_channels q
          /\ dynamic_sweeps q' = dynamic_sweeps q).
Proof.
  intros Hinit Hin HG HD. split.
  - destruct (initialize_Ok w w' Hinit) as (rr & rt & si & w1 & Hloop & Hrest).
    set (Post := fun t : world =>
           exists p, parts t = Some p /\ (g, k) ∈ gettable_parameters p).
    assert (Hinv : gettable_inv g k w1).
    { eapply (for_Ok_inv (gettable_inv g k)); [exact Hloop| |by apply gettable_inv_init].
      intros [[g' k'] c'] s1 s2 _. apply gettable_inv_step. }
    assert (Hpost : Post w1).
    { eapply (for_Ok_elem (gettable_inv g k) Post);
        [exact Hloop|exact Hin|..|by apply gettable_inv_init].
      - intros [[g' k'] c'] s1 s2 _. apply gettable_inv_step.
      - intros s1 s2 Hstep (Hrole & p & Hp & _).
        destruct (initialize_parameter_Ok _ _ _ _ _ _ _ _ _ Hstep Hp)
          as (p' & Hp' & [(_ & Eg & _)|[(HG' & _)|(HG' & _)]]); [|congruence..].
        exists p'. split; [done|]. rewrite Eg. apply elem_of_app. right. by left.
      - intros [[g' k'] c'] s1 s2 _ Hstep (_ & p & Hp & _) (p0 & Hp0 & Hmem).
        simplify_eq.
        destruct (initialize_parameter_Ok _ _ _ _ _ _ _ _ _ Hstep Hp)
          as (p' & Hp' & [(_ & Eg & _)
                         |[(_ & _ & s & (_ & _ & _ & _ & Eg) & _)
                          |(_ & _ & Eg & _)]]);
          exists p'; (split; [done|]); rewrite Eg; [|done..].
        apply elem_of_app. by left. }
    destruct Hinv as (_ & p & Hp & Hnot & Hal1 & Hal2).
    destruct Hpost as (p0 & Hp0 & Hmem). simplify_eq.
    pose proof (Hrest _ gettable_parameters (fun _ _ => eq_refl)) as Eg.
    pose proof (Hrest _ dynamic_parameters (fun _ _ => eq_refl)) as Ed.
    pose proof (Hrest _ dynamic_channels (fun _ _ => eq_refl)) as Edc.
    pose proof (Hrest _ dynamic_sweeps (fun _ _ => eq_refl)) as Eds.
    unfold part_of in *. rewrite Hp in *.
    destruct (parts w') as [p'|]; [|done]. simpl in *. simplify_eq.
    exists p'. unfold plan_aligned. split_and!; [done| | | |]; congruence.
  - intros rr rt si s s' q HGs Hq Hstep.
    destruct (initialize_parameter_Ok _ _ _ _ _ _ _ _ _ Hstep Hq)
      as (q' & Hq' & [(_ & Eg & Kd & Kdc & Kds)|[(HG' & _)|(HG' & _)]]); [|congruence..].
    exists q'. by split_and!.
Qed.

Lemma gettable_before_dynamic_witness :
  part_of gettable_parameters (final_state (initialize lab_dynamic_gettable))
  = Some [("topgate", "voltage"); ("sensor", "current")]
  /\ exists p, parts (final_state (initialize lab_dynamic_gettable)) = Some p
       /\ ("topgate", "voltage") ∈ gettable_parameters p
       /\ (("topgate", "voltage") ∉ dynamic_parameters p)
       /\ plan_aligned p.
Proof.
  split; [vm_compute; reflexivity|].
  apply (fun H1 H2 H3 H4 =>
           proj1 (gettable_before_dynamic lab_dynamic_gettable _ "topgate" "voltage"
                    topgate_voltage H1 H2 H3 H4)).
  - vm_compute. reflexivity.
  - simpl. left.
  - vm_compute. reflexivity.
  - vm_compute. reflexivity.
Defined.

(** ** Buffered sweeps *)

Lemma length_linspace a b n : length (linspace a b n) = n.
Proof.
  destruct n as [|[|n]]; [done..|]. unfold linspace.
  by rewrite length_map, length_seq.
Qed.

Lemma head_linspace a b n :
  (1 <= n)%nat -> exists q, head (linspace a b n) = Some q /\ Qeq q a.
Proof.
  intros Hn. destruct n as [|[|n]]; [lia|by exists a|].
  eexists. split; [reflexivity|]. simpl. ring.
Qed.

Lemma last_linspace a b n :
  (2 <= n)%nat -> exists q, last (linspace a b n) = Some q /\ Qeq q b.
Proof.
  intros Hn. destruct n as [|[|n]]; [lia..|].
  unfold linspace. rewrite seq_S, map_app.
  eexists. split; [apply last_snoc|]. cbn [Nat.add].
  replace (S (S n) - 1)%nat with (S n) by lia.
  field. intros H. unfold Qeq in H. simpl in H. lia.
Qed.

Lemma buffered_sweep_declared g k c w p n a b d :
  parts w = Some p -> buffered_num_points w = Some n ->
  property_of g k "start" w = inr a -> property_of g k "stop" w = inr b ->
  property_of g k "delay" w = inr d ->
  buffered_sweep g k c w
  = Ok tt (with_parts
             (fun _ => Some (with_dynamic_sweeps (fun l => l ++ [LinSweep c a b n d]) p)) w).
Proof.
  intros Hp Hn Ha Hb Hd.
  unfold buffered_sweep, try_except, bind, get_buffered_num_points, append_sweep,
    update_parts.
  rewrite !prop_eq, Ha. cbn. rewrite prop_eq, Hb. cbn. rewrite Hn. cbn.
  rewrite prop_eq, Hd. cbn. by rewrite Hp.
Qed.

Lemma buffered_sweep_setpoints g k c w p n sp first last :
  parts w = Some p -> buffered_num_points w = Some n ->
  undeclared g k "start" w \/ undeclared g k "stop" w \/ undeclared g k "delay" w ->
  property_of g k "setpoints" w = inr sp ->
  subscript sp 0 = inr first -> subscript sp (-1) = inr last ->
  exists w',
    buffered_sweep g k c w = Ok tt w'
    /\ part_of dynamic_sweeps w'
       = Some (dynamic_sweeps p ++
               [LinSweep c first last n
                  (match property_of g k "delay" w with
                   | inr d => d
                   | inl _ => PInt 0
                   end)]).
Proof.
  intros Hp Hn Hun Hsp H0 H1.
  assert (Hbody :
     exists w', (setpoints <- prop g k "setpoints" ;;
       first <- eval (subscript setpoints 0) ;;
       setpoints <- prop g k "setpoints" ;;
       last <- eval (subscript setpoints (-1)) ;;
       num_points <- get_buffered_num_points ;;
       delay <- setdefault g k "delay" (PInt 0) ;;
       append_sweep (LinSweep c first last num_points delay)) w = Ok tt w'
     /\ part_of dynamic_sweeps w'
        = Some (dynamic_sweeps p ++
               [LinSweep c first last n
                  (match property_of g k "delay" w with
                   | inr d => d
                   | inl _ => PInt 0
                   end)])).
  { unfold bind, get_buffered_num_points, append_sweep, update_parts.
    rewrite !prop_eq, Hsp. cbn. rewrite H0. cbn. rewrite prop_eq, Hsp. cbn.
    rewrite H1. cbn. rewrite Hn. cbn.
    revert Hsp. unfold setdefault, property_of, getitem.
    destruct (properties w !! g) as [dg|]; [|done].
    destruct (dg !! k) as [dp|]; [|done]. intros _.
    destruct (dp !! "delay"); cbn; rewrite Hp; eexists; (split; [reflexivity|]);
      unfold part_of; simpl; done. }
  unfold buffered_sweep, try_except. 
  set (body := bind (prop g k "start") _).
  assert (Hraise : exists e, body w = Raise e w /\ is_KeyError e = true).
  { subst body. unfold bind, get_buffered_num_points. rewrite prop_eq.
    destruct (property_of g k "start" w) as [e|a] eqn:Ha.
    { exists e. split; [done|]. by eapply property_of_KeyError. }
    cbn. rewrite prop_eq.
    destruct (property_of g k "stop" w) as [e|b] eqn:Hb.
    { exists e. split; [done|]. by eapply property_of_KeyError. }
    cbn. rewrite Hn. cbn. rewrite prop_eq.
    destruct (property_of g k "delay" w) as [e|d] eqn:Hd.
    { exists e. split; [done|]. by eapply property_of_KeyError. }
    exfalso. unfold undeclared in Hun. rewrite Ha, Hb, Hd in Hun. tauto. }
  destruct Hraise as (e & -> & He). rewrite He. exact Hbody.
Qed.

Lemma initialize_buffered_sweeps w w' n :
  initialize w = Ok tt w' -> buffered w = true -> buffered_num_points w = Some n ->
  exists p, parts w' = Some p
            /\ Forall (fun s => sweep_points s = Some n) (dynamic_sweeps p).
Proof.
  intros Hinit Hb Hn.
  destruct (initialize_Ok w w' Hinit) as (rr & rt & si & w1 & Hloop & Hrest).
  assert (Hinv : buffered w1 = true /\ buffered_num_points w1 = Some n
                 /\ exists p, parts w1 = Some p
                      /\ Forall (fun s => sweep_points s = Some n) (dynamic_sweeps p)).
  { eapply (for_Ok_inv
              (fun t => buffered t = true /\ buffered_num_points t = Some n
                 /\ exists p, parts t = Some p
                      /\ Forall (fun s => sweep_points s = Some n) (dynamic_sweeps p)));
      [exact Hloop| |].
    - intros [[g k] c] s1 s2 _ Hstep (Hb1 & Hn1 & p & Hp & Hall).
      destruct (initialize_parameter_flags rr rt si g k c s1) as [Fb Fn].
      rewrite Hstep in Fb, Fn. simpl in Fb, Fn.
      split; [congruence|]. split; [congruence|].
      destruct (initialize_parameter_Ok _ _ _ _ _ _ _ _ _ Hstep Hp)
        as (p' & Hp' & [(_ & _ & _ & _ & Kds)
                       |[(_ & _ & s & (_ & _ & Eds & _) & Hs)
                        |(_ & _ & _ & _ & _ & Kds)]]);
        exists p'; (split; [done|]).
      + by rewrite Kds.
      + rewrite Eds. apply Forall_app. split; [done|]. apply Forall_singleton.
        destruct (Hs Hb1) as (m & Hm & Hsm). congruence.
      + by rewrite Kds.
    - split; [done|]. split; [done|]. exists empty_partitions. split; [done|].
      apply Forall_nil_2. }
  destruct Hinv as (_ & _ & p & Hp & Hall).
  pose proof (Hrest _ dynamic_sweeps (fun _ _ => eq_refl)) as Eds.
  unfold part_of in Eds. rewrite Hp in Eds.
  destruct (parts w') as [p'|]; [|done]. simpl in Eds. simplify_eq.
  exists p'. split; [done|]. congruence.
Qed.

(** C3, amended.  In buffered mode every sweep [initialize] generates is a
    [LinSweep] built with the global buffered point count; a local
    [num_points] is not looked at.  Its end points are [start] and [stop]
    when [start], [stop] and [delay] are all declared; when one of the
    three is missing they are the first and the last element of
    [setpoints], and the delay defaults to 0.  Such a sweep over numbers,
    with count [N], has [N] setpoints, the first equal to the start and the
    last to the stop. *)
Theorem buffered_sweeps_use_global_count w w' n :
  initialize w = Ok tt w' -> buffered w = true -> buffered_num_points w = Some n ->
  (exists p, parts w' = Some p
     /\ Forall (fun s => sweep_points s = Some n) (dynamic_sweeps p))
  /\ (forall g k c s p a b d,
        parts s = Some p -> buffered_num_points s = Some n ->
        property_of g k "start" s = inr a -> property_of g k "stop" s = inr b ->
        property_of g k "delay" s = inr d ->
        buffered_sweep g k c s
        = Ok tt (with_parts
                   (fun _ => Some (with_dynamic_sweeps
                                     (fun l => l ++ [LinSweep c a b n d]) p)) s))
  /\ (forall g k c s p sp first last,
        parts s = Some p -> buffered_num_points s = Some n ->
        undeclared g k "start" s \/ undeclared g k "stop" s
          \/ undeclared g k "delay" s ->
        property_of g k "setpoints" s = inr sp ->
        subscript sp 0 = inr first -> subscript sp (-1) = inr last ->
        exists s',
          buffered_sweep g k c s = Ok tt s'
          /\ part_of dynamic_sweeps s'
             = Some (dynamic_sweeps p ++
                     [LinSweep c first last n
                        (match property_of g k "delay" s with
                         | inr d => d
                         | inl _ => PInt 0
                         end)]))
  /\ (forall c a b d (N : nat) qa qb,
        as_number a = inr qa -> as_number b = inr qb ->
        exists pts,
          get_setpoints (LinSweep c a b (PInt (Z.of_nat N)) d) = inr pts
          /\ length pts = N
          /\ ((1 <= N)%nat -> exists q, head pts = Some q /\ Qeq q qa)
          /\ ((2 <= N)%nat -> exists q, last pts = Some q /\ Qeq q qb)).
Proof.
  intros Hinit Hb Hn. split_and!.
  - by eapply initialize_buffered_sweeps.
  - intros. by apply buffered_sweep_declared.
  - intros. by eapply buffered_sweep_setpoints.
  - intros c a b d N qa qb Ha Hqb. exists (linspace qa qb N). split_and!.
    + unfold get_setpoints. rewrite Ha, Hqb.
      destruct (Z.of_nat N <? 0)%Z eqn:Hneg; [apply Z.ltb_lt in Hneg; lia|].
      by rewrite Nat2Z.id.
    + apply length_linspace.
    + apply head_linspace.
    + apply last_linspace.
Qed.

(** With only [start] and [stop] declared, [initialize] raises
    [KeyError("setpoints")] and no sweep is generated. *)
Lemma buffered_start_stop_only_raises :
  let o := (_set_buffered_num_points ;; initialize) lab_buffered_start_stop in
  raised o = Some (KeyError "setpoints")
  /\ buffered_num_points (final_state o) = Some (PInt 100)
  /\ part_of dynamic_sweeps (final_state o) = Some [].
Proof. vm_compute. by split_and!. Qed.

Lemma buffered_sweeps_witness :
  part_of dynamic_sweeps (final_state (initialize lab_buffered_sweep))
  = Some [LinSweep topgate_voltage (PInt 0) (PInt 1) (PInt 100) (PFloat (1 # 100))]
  /\ exists p, parts (final_state (initialize lab_buffered_sweep)) = Some p
       /\ Forall (fun s => sweep_points s = Some (PInt 100)) (dynamic_sweeps p).
Proof.
  split; [vm_compute; reflexivity|].
  apply (fun H1 H2 H3 =>
           proj1 (buffered_sweeps_use_global_count lab_buffered_sweep _ (PInt 100)
                    H1 H2 H3)).
  - vm_compute. reflexivity.
  - reflexivity.
  - reflexivity.
Defined.

(** ** Readout *)

Lemma stop_Ok (o : buffer) :
  exists o1, stop o = Ok tt o1 /\ stopped o1 = true
             /\ subscribed_parameters o1 = subscribed_parameters o.
Proof. destruct o as [s|m]; eexists; (split; [reflexivity|done]). Qed.

Lemma SR830_read_loop_state ps : forall ch data s,
  final_state (SR830Buffer.read_loop ps ch data s) = s.
Proof.
  induction ps as [|p ps IH]; intros ch data s; [done|]. simpl.
  destruct (if bool_decide _ then _ else _) as [c|]; [|done].
  unfold bind, gets. destruct (SR830Buffer.datatrace_get c _); [done|]. apply IH.
Qed.

Lemma MFLI_read_loop_state labels data ps : forall res m,
  final_state (MFLIBuffer.read_loop labels data ps res m) = m.
Proof.
  induction ps as [|p ps IH]; intros res m; [done|]. simpl.
  unfold bind, gets. destruct (MFLIBuffer.next_key data _); [done|]. simpl.
  destruct (MFLIBuffer.first_burst _); [done|]. apply IH.
Qed.

Lemma read_state labels (o : buffer) : final_state (read labels o) = o.
Proof.
  destruct o as [s|m]; simpl.
  - unfold SR830Buffer.read, try_except, bind, gets.
    pose proof (SR830_read_loop_state
                  (elements (SR830Buffer._subscribed_parameters s)) None ∅ s) as H.
    destruct (SR830Buffer.read_loop _ _ _ s) as [d s'|e s']; simpl in *; [by subst|].
    destruct (is_VisaIOError e); simpl; by subst.
  - unfold MFLIBuffer.read, bind, MFLIBuffer.read_raw, gets.
    pose proof (MFLI_read_loop_state labels (MFLIBuffer.daq_data (MFLIBuffer._daq m))
                  (MFLIBuffer._subscribed_parameters m) ∅ m) as H.
    destruct (MFLIBuffer.read_loop _ _ _ _ m) as [d m'|e m']; simpl in *; by subst.
Qed.

Lemma readout_parameters_acc f reading ps : forall acc,
  readout_parameters f reading ps acc
  = match readout_parameters f reading ps [] with
    | inl e => inl e
    | inr rs => inr (acc ++ rs)
    end.
Proof.
  induction ps as [|p ps IH]; intros acc; simpl; [by rewrite app_nil_r|].
  destruct (getitem reading (name p)) as [e|raw]; [done|].
  destruct (f raw) as [e|flat]; [done|].
  rewrite (IH (acc ++ [(p, flat)])), (IH [(p, flat)]).
  destruct (readout_parameters f reading ps []); [done|]. by rewrite <- app_assoc.
Qed.

Lemma world_eq (w1 w2 : world) :
  properties w1 = properties w2 -> gate_parameters w1 = gate_parameters w2 ->
  buffered_num_points w1 = buffered_num_points w2 ->
  buffer_settings w1 = buffer_settings w2 -> settings w1 = settings w2 ->
  buffered w1 = buffered w2 -> metadata w1 = metadata w2 -> parts w1 = parts w2 ->
  values w1 = values w2 -> labels w1 = labels w2 ->
  buffer_objects w1 = buffer_objects w2 -> ramp_calls w1 = ramp_calls w2 ->
  buffer_calls w1 = buffer_calls w2 -> stdout w1 = stdout w2 -> env w1 = env w2 ->
  w1 = w2.
Proof. destruct w1, w2. simpl. by intros; subst. Qed.

Lemma readout_step flatten b bs data results w o :
  buffer_objects w !! b = Some o ->
  exists o1, stop o = Ok tt o1 /\ stopped o1 = true /\
  readout_loop flatten (b :: bs) data results w =
    match read (labels w) o1 with
    | Raise e _ => Raise e (after_stop_read b o1 w)
    | Ok reading _ =>
        match readout_parameters flatten reading (subscribed_parameters o1) results with
        | inl e => Raise e (after_stop_read b o1 w)
        | inr results' =>
            readout_loop flatten bs (<[b := reading]> data) results'
              (after_stop_read b o1 w)
        end
    end.
Proof.
  intros Ho. destruct (stop_Ok o) as (o1 & Hstop & Hst & Hsub).
  exists o1. split; [done|]. split; [done|].
  cbn [readout_loop]. unfold bind, call_buffer, gets. rewrite Ho, Hstop.
  cbn [with_buffer_objects with_buffer_calls buffer_objects labels].
  rewrite lookup_insert_eq.
  pose proof (read_state (labels w) o1) as Hread.
  assert (Hw : forall o2, o2 = o1 ->
    with_buffer_objects (fun bs0 => <[b:=o2]> bs0)
      (with_buffer_calls (fun l => l ++ [(b, CallRead)])
         (with_buffer_objects (fun bs0 => <[b:=o1]> bs0)
            (with_buffer_calls (fun l => l ++ [(b, CallStop)]) w)))
    = after_stop_read b o1 w).
  { intros o2 ->. apply world_eq; simpl; try done.
    - by rewrite insert_insert_eq.
    - by rewrite <- app_assoc. }
  destruct (read (labels w) o1) as [reading o2|e o2]; simpl in Hread; subst o2.
  - rewrite Hw by done. unfold after_stop_read at 1. simpl.
    rewrite !lookup_insert_eq. simpl.
    destruct (readout_parameters _ _ _ _); reflexivity.
  - by rewrite Hw.
Qed.

Lemma readout_loop_outcome flatten bs : forall data results w,
  NoDup bs ->
  (forall b, b ∈ bs -> is_Some (buffer_objects w !! b)) ->
  let w' := final_state (readout_loop flatten bs data results w) in
  exists k, (k <= length bs)%nat
    /\ buffer_calls w' = buffer_calls w ++ flat_map stop_read_calls (take k bs)
    /\ (forall b, b ∈ take k bs ->
          exists o, buffer_objects w' !! b = Some o /\ stopped o = true)
    /\ (forall b, b ∉ take k bs -> buffer_objects w' !! b = buffer_objects w !! b)
    /\ labels w' = labels w
    /\ match readout_loop flatten bs data results w with
       | Ok res _ =>
           k = length bs
           /\ exists rss,
                Forall2 (fun b rs => exists o, buffer_objects w !! b = Some o
                           /\ buffer_readout flatten (labels w) o = inr rs) bs rss
                /\ res = results ++ concat rss
       | Raise e _ =>
           exists b o, (0 < k)%nat /\ bs !! (k - 1)%nat = Some b
             /\ buffer_objects w !! b = Some o
             /\ buffer_readout flatten (labels w) o = inl e
       end.
Proof.
  induction bs as [|b bs IH]; intros data results w Hnd Hstore w'.
  { exists 0%nat. subst w'. simpl. rewrite app_nil_r.
    split; [lia|]. split; [reflexivity|]. split.
    { intros b Hb. by apply elem_of_nil in Hb. }
    split; [reflexivity|]. split; [reflexivity|]. split; [reflexivity|].
    exists []. split; [constructor|]. by rewrite app_nil_r. }
  apply NoDup_cons in Hnd as [Hnotin Hnd].
  destruct (Hstore b (ltac:(by left))) as [o Ho].
  destruct (readout_step flatten b bs data results w o Ho) as (o1 & Hstop & Hst & Hstep).
  assert (Hreadout : buffer_readout flatten (labels w) o
            = match read (labels w) o1 with
              | Raise e _ => inl e
              | Ok reading o2 =>
                  readout_parameters flatten reading (subscribed_parameters o2) []
              end).
  { unfold buffer_readout. by rewrite Hstop. }
  pose proof (read_state (labels w) o1) as Hrs.
  subst w'. rewrite Hstep. clear Hstep.
  set (w1 := after_stop_read b o1 w).
  assert (Hfail : forall e, buffer_readout flatten (labels w) o = inl e ->
    exists k, (k <= length (b :: bs))%nat
    /\ buffer_calls w1 = buffer_calls w ++ flat_map stop_read_calls (take k (b :: bs))
    /\ (forall b0, b0 ∈ take k (b :: bs) ->
          exists o0, buffer_objects w1 !! b0 = Some o0 /\ stopped o0 = true)
    /\ (forall b0, b0 ∉ take k (b :: bs) ->
          buffer_objects w1 !! b0 = buffer_objects w !! b0)
    /\ labels w1 = labels w
    /\ exists b0 o0, (0 < k)%nat /\ (b :: bs) !! (k - 1)%nat = Some b0
         /\ buffer_objects w !! b0 = Some o0
         /\ buffer_readout flatten (labels w) o0 = inl e).
  { intros e He. exists 1%nat. simpl. rewrite take_0.
    split; [lia|]. split; [done|]. split.
    { intros b0 Hb0. apply list_elem_of_singleton in Hb0 as ->. exists o1.
      by rewrite lookup_insert_eq. }
    split.
    { intros b0 Hb0. rewrite lookup_insert_ne; [done|].
      intros ->. apply Hb0. by left. }
    split; [done|]. exists b, o. split_and!; [lia|done..]. }
  destruct (read (labels w) o1) as [reading o2|e o2] eqn:Hread; simpl in Hrs; subst o2;
    [|by apply Hfail].
  rewrite readout_parameters_acc.
  destruct (readout_parameters flatten reading (subscribed_parameters o1) [])
    as [e|rs] eqn:Hrp; [by apply Hfail|].
  clear Hfail.
  assert (Hstore1 : forall b0, b0 ∈ bs -> is_Some (buffer_objects w1 !! b0)).
  { intros b0 Hb0. subst w1. simpl. rewrite lookup_insert_ne; [|by intros ->].
    apply Hstore. by right. }
  destruct (IH (<[b:=reading]> data) (results ++ rs) w1 Hnd Hstore1)
    as (k & Hk & Hcalls & Hstopped & Hrest & Hlabels & Hout).
  exists (S k). simpl. split; [lia|]. split.
  { rewrite Hcalls. subst w1. simpl. by rewrite <- app_assoc. }
  split.
  { intros b0 Hb0. apply elem_of_cons in Hb0 as [->|Hb0]; [|by apply Hstopped].
    destruct (decide (b ∈ take k bs)) as [Hin|Hout']; [by apply Hstopped|].
    rewrite (Hrest b Hout'). subst w1. simpl. rewrite lookup_insert_eq. by exists o1. }
  split.
  { intros b0 Hb0. rewrite not_elem_of_cons in Hb0. destruct Hb0 as [Hne Hb0].
    rewrite (Hrest b0 Hb0). subst w1. simpl. by rewrite lookup_insert_ne. }
  split; [by rewrite Hlabels|].
  assert (Hobj : forall b0, b0 ∈ bs -> buffer_objects w1 !! b0 = buffer_objects w !! b0).
  { intros b0 Hb0. subst w1. simpl. rewrite lookup_insert_ne; [done|by intros ->]. }
  destruct (readout_loop flatten bs _ _ w1) as [res wf|e wf].
  - destruct Hout as (-> & rss & Hall & ->). split; [done|].
    exists (rs :: rss). split.
    + constructor; [exists o; by rewrite Hreadout|].
      eapply Forall2_impl_elem; [exact Hall|]. clear -Hobj.
      intros b0 rs0 Hb0 (o0 & Ho0 & Hr0). exists o0. rewrite <- Hobj by done.
      split; [done|]. done.
    + simpl. by rewrite app_assoc.
  - destruct Hout as (b0 & o0 & Hk0 & Hb0 & Ho0 & Hr0).
    exists b0, o0. split; [lia|].
    assert (Hb0in : b0 ∈ bs) by (by eapply list_elem_of_lookup_2).
    split_and!.
    + destruct k as [|k']; [lia|]. simpl in *. by rewrite Nat.sub_0_r in Hb0.
    + by rewrite <- Hobj.
    + done.
Qed.

(** C7, amended.  [readout_buffers] works through the buffers in order and
    calls [stop()] and then [read()] on each.  Every buffer it got to ends
    stopped, also the one whose readout failed; the buffers after it are
    untouched.  When it returns, the result is the concatenation, buffer
    by buffer, of the flattened readings of the subscribed parameters.
    When the readout of a buffer fails, nothing is returned and the
    exception is the one that buffer raised, passed on as it is. *)
Theorem readout_buffers_outcome flatten w p :
  parts w = Some p ->
  (forall b, b ∈ buffers p -> is_Some (buffer_objects w !! b)) ->
  let bs := elements (buffers p) in
  let w' := final_state (readout_buffers flatten w) in
  exists k, (k <= length bs)%nat
    /\ buffer_calls w' = buffer_calls w ++ flat_map stop_read_calls (take k bs)
    /\ (forall b, b ∈ take k bs ->
          exists o, buffer_objects w' !! b = Some o /\ stopped o = true)
    /\ (forall b, b ∉ take k bs -> buffer_objects w' !! b = buffer_objects w !! b)
    /\ match readout_buffers flatten w with
       | Ok results _ =>
           k = length bs
           /\ exists rss,
                Forall2 (fun b rs => exists o, buffer_objects w !! b = Some o
                           /\ buffer_readout flatten (labels w) o = inr rs) bs rss
                /\ results = concat rss
       | Raise e _ =>
           exists b o, (0 < k)%nat /\ bs !! (k - 1)%nat = Some b
             /\ buffer_objects w !! b = Some o
             /\ buffer_readout flatten (labels w) o = inl e
       end.
Proof.
  intros Hp Hstore bs w'. subst w'.
  unfold readout_buffers, bind, get_parts. rewrite Hp.
  destruct (readout_loop_outcome flatten bs ∅ [] w) as (k & Hk & Hc & Hs & Hr & _ & Ho).
  - apply NoDup_elements.
  - intros b Hb. apply Hstore. by apply elem_of_elements.
  - exists k. fold bs. split; [done|]. split; [done|]. split; [done|]. split; [done|].
    by destruct (readout_loop flatten bs ∅ [] w).
Qed.

(** The exception of a failed readout is the same whichever buffer
    failed. *)
Lemma readout_error_names_no_buffer :
  raised (readout_buffers unwrap_singletons (lab_with_buffer 1 (sr830_with_X false true)))
  = Some (BufferException SR830Buffer.read_error_message)
  /\ raised (readout_buffers unwrap_singletons (lab_with_buffer 2 (sr830_with_X false true)))
     = Some (BufferException SR830Buffer.read_error_message).
Proof. vm_compute. by split. Qed.

Lemma readout_buffers_witness :
  returned (readout_buffers unwrap_singletons (lab_with_buffer 1 (sr830_with_X true false)))
  = Some [(lockin_X, PList [PFloat (1 # 2); PFloat (3 # 4)])]
  /\ exists k, (k <= 1)%nat
       /\ buffer_calls
            (final_state
               (readout_buffers unwrap_singletons
                  (lab_with_buffer 1 (sr830_with_X true false))))
          = flat_map stop_read_calls (take k [1%nat]).
Proof.
  split; [vm_compute; reflexivity|].
  destruct (readout_buffers_outcome unwrap_singletons
              (lab_with_buffer 1 (sr830_with_X true false))
              (with_buffers (fun _ => {[ 1%nat ]}) empty_partitions))
    as (k & Hk & Hcalls & _).
  - reflexivity.
  - intros b Hb. simpl in Hb. apply elem_of_singleton in Hb as ->. by eexists.
  - exists k. split; [exact Hk|exact Hcalls].
Defined.

(** ** Hooks *)

Lemma try_all_Ok (m : M world unit) (msg : exn -> string) w :
  (forall s, stdout (final_state (m s)) = stdout s) ->
  exists w1, try_except is_Exception m (fun e => print (msg e)) w = Ok tt w1
    /\ (stdout w1 = stdout w
        \/ exists e, raised (m w) = Some e /\ stdout w1 = stdout w ++ [msg e]).
Proof.
  intros Hm. unfold try_except. specialize (Hm w).
  destruct (m w) as [[] w1|e w1]; simpl in *.
  - exists w1. split; [done|by left].
  - eexists. split; [reflexivity|]. right. exists e. simpl. by rewrite Hm.
Qed.

Lemma get_measurement_state {A} (f : MeasurementRecord -> A) w :
  final_state (get_measurement f w) = w.
Proof.
  unfold get_measurement, bind, get_metadata.
  destruct (metadata w) as [m|]; [|done]. by destruct (measurement m).
Qed.

Lemma hook_never_raises h args kwargs w :
  h ∈ lifecycle_hooks ->
  exists w1, hook_call h args kwargs w = Ok tt w1 /\ silent_or_logged w w1.
Proof.
  intros Hh. unfold lifecycle_hooks in Hh. rewrite !elem_of_cons in Hh.
  destruct Hh as [->|[->|[->|Hh]]]; [| | |by apply elem_of_nil in Hh]; simpl.
  - destruct (truthy _); [|exists w; split; [done|by left]].
    edestruct try_all_Ok as (w1 & -> & Hout).
    2:{ exists w1. split; [done|]. destruct Hout as [?|(e & _ & ?)]; [by left|right; by eexists]. }
    intros s. unfold bind. pose proof (get_measurement_state datetime s) as Hs.
    destruct (get_measurement datetime s) as [dt s1|e s1]; simpl in *; subst s1; [|done].
    by destruct (negb (truthy dt)).
  - destruct (truthy _); [|exists w; split; [done|by left]].
    edestruct try_all_Ok as (w1 & -> & Hout).
    2:{ exists w1. split; [done|]. destruct Hout as [?|(e & _ & ?)]; [by left|right; by eexists]. }
    intros s. unfold bind. pose proof (get_measurement_state data s) as Hs.
    destruct (get_measurement data s) as [d s1|e s1]; simpl in *; subst s1; [|done].
    assert (Hrest : forall s2, stdout s2 = stdout s ->
      stdout (final_state
        ((datalist <- get_measurement data ;;
          db_location <- (fun w => eval (db_location (env w)) w) ;;
          new_data <- (fun w => eval (new_measurement_data (env w)) w) ;;
          match datalist with
          | PList l =>
              modify (with_metadata
                        (fmap (with_measurement (set_data (PList (l ++ [new_data]))))))
          | _ => raise (AttributeError "append")
          end) s2)) = stdout s).
    { intros s2 Hs2. unfold bind.
      pose proof (get_measurement_state data s2) as Hs3.
      destruct (get_measurement data s2) as [dl s3|e s3]; simpl in *; subst s3; [|done].
      unfold eval. destruct (db_location (env s2)); [done|]. simpl.
      destruct (new_measurement_data (env s2)); [done|]. simpl.
      destruct dl; done. }
    destruct (negb (truthy d)); simpl; by apply Hrest.
  - destruct (truthy _); [|exists w; split; [done|by left]].
    edestruct try_all_Ok as (w1 & -> & Hout).
    2:{ exists w1. split; [done|]. destruct Hout as [?|(e & _ & ?)]; [by left|right; by eexists]. }
    intros s. unfold save_to_db, bind, get_metadata.
    destruct (metadata s) as [m|]; [|done]. simpl. by destruct (db_fault m).
Qed.

Lemma create_hook_eq (func : routine) h args kwargs w :
  hook_has_varkw h = true ->
  (exists w1, hook_call h args kwargs w = Ok tt w1) ->
  create_hook func h args kwargs w
  = func args (strip h kwargs) (after_hook h args kwargs w).
Proof.
  intros Hvar [w1 Hcall]. unfold create_hook, bind, after_hook, strip.
  by rewrite Hcall, Hvar.
Qed.

Lemma strip_lookup h kwargs k :
  strip h kwargs !! k = if decide (k ∈ hook_keyword_only h) then None else kwargs !! k.
Proof.
  unfold strip. case_decide as Hk.
  - apply map_lookup_filter_None. right. intros v _. simpl. tauto.
  - destruct (kwargs !! k) as [v|] eqn:Hv.
    + apply map_lookup_filter_Some. by split.
    + apply map_lookup_filter_None. by left.
Qed.

Lemma hook_logs_failure l args kwargs w :
  exists w1,
    hook_call (hook_of l) args kwargs w = Ok tt w1
    /\ stdout w1 = stdout w ++ hook_log l kwargs w
    /\ (truthy (default (PBool true) (kwargs !! hook_switch l)) = false -> w1 = w).
Proof.
  unfold hook_log, hook_failure.
  destruct l; simpl; destruct (truthy _); try (exists w; by rewrite app_nil_r);
    unfold try_except, save_to_db, bind, get_measurement, bind, get_metadata, print,
      modify, gets, ret, raise, eval;
    destruct (metadata w) as [m|] eqn:Hm; simpl;
    try (eexists; split_and!; [reflexivity|reflexivity|done]).
  - destruct (measurement m) as [r|]; simpl;
      [|eexists; split_and!; [reflexivity|reflexivity|done]].
    destruct (negb (truthy (datetime r))); simpl;
      eexists; (split_and!; [reflexivity|simpl; by rewrite app_nil_r|done]).
  - destruct (measurement m) as [r|] eqn:Hr; simpl;
      [|eexists; split_and!; [reflexivity|reflexivity|done]].
    destruct (truthy (data r)) eqn:Ht; simpl; rewrite ?Hm; simpl; rewrite ?Hr; simpl;
      destruct (db_location (env w)) as [e1|loc]; simpl;
      try (eexists; split_and!; [reflexivity|reflexivity|done]);
      destruct (new_measurement_data (env w)) as [e2|nd]; simpl;
      try (eexists; split_and!; [reflexivity|reflexivity|done]);
      try (destruct (data r); simpl);
      eexists; (split_and!; [reflexivity|simpl; rewrite ?app_nil_r; reflexivity|done]).
  - destruct (db_fault m) as [e|]; simpl;
      eexists; (split_and!; [reflexivity|simpl; rewrite ?app_nil_r; reflexivity|done]).
Qed.

(** C8.  None of the three lifecycle hooks ever raises.  A hook that is
    switched on and fails, on a missing [metadata] attribute or
    [measurement] slot, on the database location, the creation or the
    appending of the data record, or on the fault of [save_to_db], has the
    failure caught and prints exactly one line, its own message followed by
    the text of the exception; a hook that does not fail prints nothing,
    and one that is switched off does nothing.  The wrapped routine
    therefore always runs, after all three hooks have run in turn, each on
    the state the previous one left.  It receives the positional arguments
    unchanged and the keyword arguments without the three switches; every
    other keyword argument is passed on. *)
Theorem hooks_never_block (run : routine) args kwargs w :
  (forall h a kw s,
      h ∈ lifecycle_hooks ->
      exists s1, hook_call h a kw s = Ok tt s1 /\ silent_or_logged s s1)
  /\ __new__ run args kwargs w
     = run args (forwarded_kwargs kwargs) (after_hooks args kwargs w)
  /\ (forall k, k ∈ hook_switches -> forwarded_kwargs kwargs !! k = None)
  /\ (forall k, k ∉ hook_switches -> forwarded_kwargs kwargs !! k = kwargs !! k)
  /\ lifecycle_hooks = map hook_of [AddDatetime; AddData; InsertMetadata]
  /\ (forall l a kw s,
        exists s1,
          hook_call (hook_of l) a kw s = Ok tt s1
          /\ stdout s1 = stdout s ++ hook_log l kw s
          /\ (truthy (default (PBool true) (kw !! hook_switch l)) = false -> s1 = s)).
Proof.
  split; [intros; by apply hook_never_raises|].
  split.
  { unfold __new__, forwarded_kwargs, after_hooks.
    rewrite create_hook_eq; [|done|].
    2:{ edestruct hook_never_raises as (s1 & Hs1 & _); [|by exists s1].
        by left. }
    rewrite create_hook_eq; [|done|].
    2:{ edestruct hook_never_raises as (s1 & Hs1 & _); [|by exists s1].
        right; by left. }
    rewrite create_hook_eq; [done|done|].
    edestruct hook_never_raises as (s1 & Hs1 & _); [|by exists s1].
    right; right; by left. }
  split_and!; [| |reflexivity|intros; apply hook_logs_failure];
    intros k Hk; unfold forwarded_kwargs; rewrite !strip_lookup; simpl.
  - unfold hook_switches in Hk. rewrite !elem_of_cons in Hk.
    destruct Hk as [->|[->|[->|Hk]]]; [..|by apply elem_of_nil in Hk];
      repeat case_decide; try done; exfalso;
      repeat match goal with
             | H : ¬ _ ∈ [_] |- _ => apply H; by left
             end.
  - unfold hook_switches in Hk. rewrite !not_elem_of_cons in Hk.
    destruct Hk as (H1 & H2 & H3 & _).
    repeat case_decide; try done;
      repeat match goal with
             | H : _ ∈ [_] |- _ => apply list_elem_of_singleton in H
             end; congruence.
Qed.

Lemma hooks_never_block_witness :
  __new__ echo_kwargs [] kwargs_with_switch lab_without_measurement
  = Ok (PList [PStr "timestamps"])
      (with_stdout
         (fun _ => ["Datetime could not be added to metadata: object has no attribute 'measurement'"])
         (with_metadata
            (fun _ => Some {| measurement := None; db_fault := None; db_saves := 1 |})
            lab_without_measurement))
  /\ hook_log AddDatetime kwargs_with_switch lab_without_measurement
     = ["Datetime could not be added to metadata: object has no attribute 'measurement'"].
Proof.
  split; [|vm_compute; reflexivity].
  rewrite (proj1 (proj2 (hooks_never_block echo_kwargs [] kwargs_with_switch
                           lab_without_measurement))).
  vm_compute. reflexivity.
Defined.

(** ** Buffers: the rest of the interface *)

Module SR830MoreFacts.
  Import SR830Buffer SR830More SR830Facts.

Lemma sr830_unsubscribe_one_slot p b :
  in_ch1 p \/ in_ch2 p -> unsubscribe_one p b = remove p b.
Proof.
  intros H. unfold unsubscribe_one.
  destruct (decide (in_ch1 p)) as [H1|H1].
  - change (in_ch1 p) with (name p ∈ ["X"; "R"; "X Noise"; "aux_in1"; "aux_in2"]) in H1.
    rewrite bool_decide_eq_true_2 by exact H1. reflexivity.
  - destruct H as [H|H]; [done|].
    change (in_ch1 p) with (name p ∈ ["X"; "R"; "X Noise"; "aux_in1"; "aux_in2"]) in H1.
    change (in_ch2 p) with (name p ∈ ["Y"; "Phase"; "Y Noise"; "aux_in3"; "aux_in4"]) in H.
    rewrite bool_decide_eq_false_2 by exact H1.
    rewrite bool_decide_eq_true_2 by exact H. reflexivity.
Qed.

Lemma sr830_unsubscribe_one_other p b :
  ~ in_ch1 p -> ~ in_ch2 p ->
  unsubscribe_one p b
  = Raise (PyException ("Parameter " ++ name p ++ " can not be buffered.")) b.
Proof.
  intros H1 H2. unfold unsubscribe_one.
  change (in_ch1 p) with (name p ∈ ["X"; "R"; "X Noise"; "aux_in1"; "aux_in2"]) in H1.
  change (in_ch2 p) with (name p ∈ ["Y"; "Phase"; "Y Noise"; "aux_in3"; "aux_in4"]) in H2.
  rewrite !bool_decide_eq_false_2 by assumption. reflexivity.
Qed.

Lemma sr830_slot_inv_subset (b b' : t) :
  _subscribed_parameters b' ⊆ _subscribed_parameters b ->
  SR830_slot_inv b -> SR830_slot_inv b'.
Proof.
  intros Hsub (Hall & H1 & H2). split_and!.
  - intros q Hq. apply Hall, Hsub, Hq.
  - etrans; [|exact H1]. apply subseteq_size.
    intros q. rewrite !elem_of_filter. intros [? ?]. split; [done|]. by apply Hsub.
  - etrans; [|exact H2]. apply subseteq_size.
    intros q. rewrite !elem_of_filter. intros [? ?]. split; [done|]. by apply Hsub.
Qed.

Lemma sr830_remove_subset p b :
  _subscribed_parameters (final_state (remove p b)) ⊆ _subscribed_parameters b.
Proof.
  unfold remove. case_bool_decide; simpl; [|done].
  intros q. rewrite elem_of_difference. tauto.
Qed.

Lemma sr830_unsubscribe_one_subset p b :
  _subscribed_parameters (final_state (unsubscribe_one p b)) ⊆ _subscribed_parameters b.
Proof.
  destruct (decide (in_ch1 p \/ in_ch2 p)) as [H|H].
  - rewrite sr830_unsubscribe_one_slot by exact H. apply sr830_remove_subset.
  - rewrite sr830_unsubscribe_one_other by tauto. done.
Qed.

Lemma sr830_unsubscribe_inv ps : forall b,
  SR830_slot_inv b -> SR830_slot_inv (final_state (unsubscribe ps b)).
Proof.
  intros b Hb. unfold unsubscribe. apply (for_final_inv SR830_slot_inv); [|exact Hb].
  intros p s1 _ Hinv.
  exact (sr830_slot_inv_subset _ _ (sr830_unsubscribe_one_subset p s1) Hinv).
Qed.

Lemma sr830_slot_inv_size b :
  SR830_slot_inv b -> (size (_subscribed_parameters b) <= 2)%nat.
Proof.
  intros (Hall & H1 & H2).
  assert (Hsub : _subscribed_parameters b
                 ⊆ filter in_ch1 (_subscribed_parameters b)
                   ∪ filter in_ch2 (_subscribed_parameters b)).
  { intros q Hq. rewrite elem_of_union, !elem_of_filter.
    destruct (Hall q Hq); [left|right]; done. }
  apply subseteq_size in Hsub.
  pose proof (size_union_alt (filter in_ch1 (_subscribed_parameters b))
                (filter in_ch2 (_subscribed_parameters b))) as Hu.
  assert (size (filter in_ch2 (_subscribed_parameters b)
                ∖ filter in_ch1 (_subscribed_parameters b))
          <= size (filter in_ch2 (_subscribed_parameters b)))%nat.
  { apply subseteq_size. intros q. rewrite elem_of_difference. tauto. }
  lia.
Qed.

End SR830MoreFacts.

(** X1.  Unsubscribing a subscribed parameter of an SR830 buffer returns,
    removes that parameter and no other, leaves the instrument (the
    display selection included) as it was, and keeps the slot invariant. *)
Theorem sr830_unsubscribe_subscribed (b : SR830Buffer.t) (p : Param) :
  SR830_slot_inv b ->
  p ∈ SR830Buffer._subscribed_parameters b ->
  exists b',
    SR830More.unsubscribe [p] b = Ok tt b'
    /\ SR830Buffer._subscribed_parameters b'
       = SR830Buffer._subscribed_parameters b ∖ {[p]}
    /\ SR830Buffer._device b' = SR830Buffer._device b
    /\ SR830Buffer.is_subscribed p b' = false
    /\ (forall q, q <> p ->
          SR830Buffer.is_subscribed q b' = SR830Buffer.is_subscribed q b)
    /\ SR830_slot_inv b'.
Proof.
  intros Hinv Hp.
  assert (Hslot : SR830Buffer.in_ch1 p \/ SR830Buffer.in_ch2 p)
    by (destruct Hinv as (Hall & _); exact (Hall p Hp)).
  unfold SR830More.unsubscribe. cbn [for_]. unfold bind.
  rewrite SR830MoreFacts.sr830_unsubscribe_one_slot by exact Hslot.
  unfold SR830More.remove. rewrite bool_decide_eq_true_2 by exact Hp.
  eexists. split; [reflexivity|]. simpl. split_and!; try reflexivity.
  - unfold SR830Buffer.is_subscribed. simpl. apply bool_decide_eq_false_2.
    rewrite elem_of_difference, elem_of_singleton. tauto.
  - intros q Hq. unfold SR830Buffer.is_subscribed. simpl.
    apply bool_decide_ext. rewrite elem_of_difference, elem_of_singleton. tauto.
  - eapply SR830MoreFacts.sr830_slot_inv_subset; [|exact Hinv]. simpl.
    intros q. rewrite elem_of_difference. tauto.
Qed.

Lemma sr830_unsubscribe_subscribed_witness :
  exists b',
    SR830More.unsubscribe [lockin_X] (sr830_with_X false false) = Ok tt b'
    /\ SR830Buffer.is_subscribed lockin_X b' = false.
Proof.
  destruct (sr830_unsubscribe_subscribed (sr830_with_X false false) lockin_X)
    as (b' & H1 & _ & _ & H2 & _).
  - split_and!.
    + intros q Hq. simpl in Hq. apply elem_of_singleton in Hq. subst q.
      left. apply (bool_decide_unpack _). vm_compute. exact I.
    + vm_compute. lia.
    + vm_compute. lia.
  - simpl. apply elem_of_singleton. reflexivity.
  - exists b'. split; assumption.
Defined.

(** X2.  Unsubscribing a parameter that is not subscribed raises and leaves
    the SR830 buffer as it was: [KeyError] when the name is one of the ten
    bufferable names, a bare exception otherwise.  The rest of the list is
    not looked at. *)
Theorem sr830_unsubscribe_not_subscribed (b : SR830Buffer.t) (p : Param)
    (ps : list Param) :
  p ∉ SR830Buffer._subscribed_parameters b ->
  SR830More.unsubscribe (p :: ps) b
  = Raise (if decide (SR830Buffer.in_ch1 p \/ SR830Buffer.in_ch2 p)
           then KeyError (name p)
           else PyException ("Parameter " ++ name p ++ " can not be buffered."))
      b.
Proof.
  intros Hp. unfold SR830More.unsubscribe. cbn [for_]. unfold bind.
  destruct (decide _) as [H|H].
  - rewrite SR830MoreFacts.sr830_unsubscribe_one_slot by exact H.
    unfold SR830More.remove. rewrite bool_decide_eq_false_2 by exact Hp. reflexivity.
  - rewrite SR830MoreFacts.sr830_unsubscribe_one_other by tauto. reflexivity.
Qed.

Lemma sr830_unsubscribe_not_subscribed_witness :
  SR830More.unsubscribe [lockin_R; lockin_X] (sr830_with_X false false)
  = Raise (KeyError "R") (sr830_with_X false false).
Proof.
  rewrite (sr830_unsubscribe_not_subscribed (sr830_with_X false false) lockin_R [lockin_X]).
  - reflexivity.
  - simpl. rewrite elem_of_singleton. discriminate.
Defined.

(** X3.  Subscribing a parameter to an SR830 buffer and unsubscribing it
    again returns and empties its display channel: the parameter that held
    the channel before is not restored; the parameters of the other
    channel stay. *)
Theorem sr830_subscribe_then_unsubscribe (b : SR830Buffer.t) (p : Param) :
  SR830Buffer.in_ch1 p \/ SR830Buffer.in_ch2 p ->
  exists b1 b2,
    SR830Buffer.subscribe [p] b = Ok tt b1
    /\ SR830More.unsubscribe [p] b1 = Ok tt b2
    /\ forall q, q ∈ SR830Buffer._subscribed_parameters b2
         <-> q ∈ SR830Buffer._subscribed_parameters b
             /\ ~ ((SR830Buffer.in_ch1 p /\ SR830Buffer.in_ch1 q)
                   \/ (SR830Buffer.in_ch2 p /\ SR830Buffer.in_ch2 q)).
Proof.
  intros Hslot.
  pose proof (SR830Facts.sr830_channels_disjoint) as Hdis.
  unfold SR830Buffer.subscribe, SR830More.unsubscribe. cbn [for_]. unfold bind.
  destruct Hslot as [H|H].
  - rewrite SR830Facts.sr830_subscribe_one_ch1 by exact H.
    eexists _, _. split; [reflexivity|].
    rewrite SR830MoreFacts.sr830_unsubscribe_one_slot by (left; exact H).
    unfold SR830More.remove. simpl.
    rewrite bool_decide_eq_true_2 by (apply elem_of_union_r, elem_of_singleton; reflexivity).
    split; [reflexivity|]. simpl. intros q.
    rewrite elem_of_difference, elem_of_union, elem_of_difference, elem_of_filter,
      !elem_of_singleton.
    split.
    + intros [[[Hq Hn]|Hq] Hne]; [|done]. split; [done|].
      intros [[_ Hq1]|[Hp2 _]]; [tauto|exact (Hdis p H Hp2)].
    + intros [Hq Hn]. split.
      * left. split; [done|]. intros [Hq1 _]. apply Hn. left. done.
      * intros ->. apply Hn. left. done.
  - rewrite SR830Facts.sr830_subscribe_one_ch2 by exact H.
    eexists _, _. split; [reflexivity|].
    rewrite SR830MoreFacts.sr830_unsubscribe_one_slot by (right; exact H).
    unfold SR830More.remove. simpl.
    rewrite bool_decide_eq_true_2 by (apply elem_of_union_r, elem_of_singleton; reflexivity).
    split; [reflexivity|]. simpl. intros q.
    rewrite elem_of_difference, elem_of_union, elem_of_difference, elem_of_filter,
      !elem_of_singleton.
    split.
    + intros [[[Hq Hn]|Hq] Hne]; [|done]. split; [done|].
      intros [[Hp1 _]|[_ Hq2]]; [exact (Hdis p Hp1 H)|tauto].
    + intros [Hq Hn]. split.
      * left. split; [done|]. intros [Hq1 _]. apply Hn. right. done.
      * intros ->. apply Hn. right. done.
Qed.

Lemma sr830_subscribe_then_unsubscribe_witness :
  exists b1 b2,
    SR830Buffer.subscribe [lockin_R] (sr830_with_X false false) = Ok tt b1
    /\ SR830More.unsubscribe [lockin_R] b1 = Ok tt b2
    /\ SR830Buffer.is_subscribed lockin_X b2 = false.
Proof.
  destruct (sr830_subscribe_then_unsubscribe (sr830_with_X false false) lockin_R)
    as (b1 & b2 & H1 & H2 & H3).
  - left. apply (bool_decide_unpack _). vm_compute. exact I.
  - exists b1, b2. split_and!; [exact H1|exact H2|].
    apply bool_decide_eq_false_2. rewrite H3. intros [_ Hn]. apply Hn. left.
    split; apply (bool_decide_unpack _); vm_compute; exact I.
Defined.

(** X4.  [subscribe] of an SR830 buffer stops at the first parameter whose
    name is not bufferable: it raises there, the parameters in front of it
    have been subscribed and stay so, those behind it are not looked at. *)
Theorem sr830_subscribe_stops_at_unbufferable (b : SR830Buffer.t)
    (ps : list Param) (q : Param) (rest : list Param) :
  Forall (fun p => SR830Buffer.in_ch1 p \/ SR830Buffer.in_ch2 p) ps ->
  ~ SR830Buffer.in_ch1 q -> ~ SR830Buffer.in_ch2 q ->
  exists b1,
    SR830Buffer.subscribe ps b = Ok tt b1
    /\ SR830Buffer.subscribe (ps ++ q :: rest) b
       = Raise (PyException ("Parameter " ++ name q ++ " can not be buffered.")) b1.
Proof.
  intros Hps Hq1 Hq2. revert b.
  induction Hps as [|p ps Hp Hps IH]; intros b.
  - exists b. split; [reflexivity|]. simpl.
    unfold SR830Buffer.subscribe. cbn [for_]. unfold bind.
    rewrite SR830Facts.sr830_subscribe_one_other by assumption. reflexivity.
  - unfold SR830Buffer.subscribe in *. cbn [for_ app]. unfold bind.
    destruct Hp as [Hp|Hp].
    + rewrite SR830Facts.sr830_subscribe_one_ch1 by exact Hp. apply IH.
    + rewrite SR830Facts.sr830_subscribe_one_ch2 by exact Hp. apply IH.
Qed.

Lemma sr830_subscribe_stops_at_unbufferable_witness :
  exists b1,
    SR830Buffer.subscribe [lockin_R] (sr830_with_X false false) = Ok tt b1
    /\ SR830Buffer.subscribe [lockin_R; sensor_current; lockin_X]
         (sr830_with_X false false)
       = Raise (PyException "Parameter current can not be buffered.") b1.
Proof.
  apply (sr830_subscribe_stops_at_unbufferable (sr830_with_X false false)
           [lockin_R] sensor_current [lockin_X]).
  - constructor; [|constructor]. left. apply (bool_decide_unpack _). vm_compute. exact I.
  - apply (bool_decide_unpack _). vm_compute. exact I.
  - apply (bool_decide_unpack _). vm_compute. exact I.
Defined.

(** X5.  However calls of [subscribe] and [unsubscribe] follow one another
    on an SR830 buffer, and whether they return or raise, each display
    channel holds at most one subscribed parameter, so the buffer never
    holds more than two. *)
Theorem sr830_session_at_most_two (calls : list SR830More.call) (b : SR830Buffer.t) :
  SR830_slot_inv b ->
  SR830_slot_inv (SR830More.session calls b)
  /\ (size (SR830Buffer._subscribed_parameters (SR830More.session calls b)) <= 2)%nat.
Proof.
  intros Hinv.
  assert (H : SR830_slot_inv (SR830More.session calls b)).
  { revert b Hinv. induction calls as [|c calls IH]; intros b Hinv; [exact Hinv|].
    simpl. apply IH. destruct c as [ps|ps]; simpl.
    - apply SR830Facts.sr830_subscribe_inv, Hinv.
    - apply SR830MoreFacts.sr830_unsubscribe_inv, Hinv. }
  split; [exact H|]. apply SR830MoreFacts.sr830_slot_inv_size, H.
Qed.

Lemma sr830_session_at_most_two_witness :
  (size (SR830Buffer._subscribed_parameters
           (SR830More.session
              [SR830More.Subscribe [lockin_R]; SR830More.Unsubscribe [lockin_X];
               SR830More.Subscribe [lockin_X; lockin_R]]
              (sr830_with_X false false))) <= 2)%nat.
Proof.
  apply (sr830_session_at_most_two
           [SR830More.Subscribe [lockin_R]; SR830More.Unsubscribe [lockin_X];
            SR830More.Subscribe [lockin_X; lockin_R]]
           (sr830_with_X false false)).
  split_and!.
  - intros q Hq. simpl in Hq. apply elem_of_singleton in Hq. subst q.
    left. apply (bool_decide_unpack _). vm_compute. exact I.
  - vm_compute. lia.
  - vm_compute. lia.
Defined.

(** X6.  The [trigger] setter of an SR830 buffer rejects a parameter that
    is not an [ExternalTrigger] and changes nothing then; assigning [None]
    after an external trigger resets the two instrument settings but leaves
    the stored trigger in place, so the getter still returns it. *)
Theorem sr830_trigger_none_keeps_source (s : SR830More.state) (p : Param) :
  SR830More.set_trigger (Some (SR830More.CustomTrigger p)) s
  = Raise (BufferException SR830More.custom_trigger_message) s
  /\ exists s1 s2,
       SR830More.set_trigger (Some (SR830More.ExternalTrigger p)) s = Ok tt s1
       /\ SR830More.set_trigger None s1 = Ok tt s2
       /\ SR830More.trigger s1 = Some p
       /\ SR830More.buffer_SR s1 = PStr "Trigger"
       /\ SR830More.buffer_trig_mode s1 = "On"
       /\ SR830More.trigger s2 = Some p
       /\ SR830More.buffer_SR s2 = PInt 512
       /\ SR830More.buffer_trig_mode s2 = "Off"
       /\ SR830Buffer._subscribed_parameters (SR830More.object s2)
          = SR830Buffer._subscribed_parameters (SR830More.object s).
Proof.
  split; [reflexivity|].
  eexists _, _. split; [reflexivity|]. split; [reflexivity|].
  split_and!; reflexivity.
Qed.

Lemma is_empty_dict_insert {V} (k : string) (v : V) (d : gmap string V) :
  is_empty_dict (<[k := v]> d) = false.
Proof.
  unfold is_empty_dict. apply Nat.eqb_neq. intros H.
  apply map_size_empty_inv in H. exact (insert_non_empty _ _ _ H).
Qed.

Lemma is_empty_dict_lookup {V} (k : string) (d : gmap string V) :
  is_empty_dict d = true -> d !! k = None.
Proof.
  unfold is_empty_dict. intros H. apply Nat.eqb_eq, map_size_empty_inv in H.
  subst d. apply lookup_empty.
Qed.

(** X7.  [setup_buffer] of an SR830 buffer always returns; it sets the
    sample rate to the ["sample_rate"] of the settings (512 without one)
    and the trigger mode to ["OFF"], whatever trigger was assigned before,
    and leaves the buffer object alone.  A settings dictionary that is not
    empty has the sample rate written into it.  A second call with the
    dictionary the first one left changes nothing. *)
Theorem sr830_setup_buffer_idempotent (settings : option (gmap string pyval))
    (s : SR830More.state) :
  exists d s1,
    SR830More.setup_buffer settings s = Ok d s1
    /\ SR830More.setup_buffer d s1 = Ok d s1
    /\ SR830More.buffer_trig_mode s1 = "OFF"
    /\ SR830More.buffer_SR s1
       = default (PInt 512) (settings ≫= (fun d0 => d0 !! "sample_rate"))
    /\ SR830More.object s1 = SR830More.object s
    /\ d = match settings with
           | Some d0 =>
               if is_empty_dict d0 then settings
               else Some (<["sample_rate" := SR830More.buffer_SR s1]> d0)
           | None => None
           end.
Proof.
  unfold SR830More.setup_buffer, bind, modify, ret.
  destruct settings as [d0|]; simpl.
  - destruct (is_empty_dict d0) eqn:He; simpl.
    + eexists _, _. split; [reflexivity|]. simpl.
      rewrite He, lookup_empty, (is_empty_dict_lookup "sample_rate" d0 He). simpl.
      split_and!; reflexivity.
    + destruct (d0 !! "sample_rate") as [v|] eqn:Hv; simpl.
      * eexists _, _. split; [reflexivity|]. simpl. rewrite He, Hv. simpl.
        split_and!; try reflexivity.
        rewrite insert_id by exact Hv. reflexivity.
      * eexists _, _. split; [reflexivity|]. simpl.
        rewrite is_empty_dict_insert, lookup_insert_eq. simpl.
        split_and!; reflexivity.
  - rewrite lookup_empty. simpl.
    eexists _, _. split_and!; reflexivity.
Qed.

Module MFLIMoreFacts.
  Import MFLIBuffer MFLIMore.

Lemma list_remove_None {A} `{EqDecision A} (x : A) (l : list A) :
  list_remove x l = None <-> x ∉ l.
Proof.
  induction l as [|y l IH]; simpl.
  - split; [intros _; apply not_elem_of_nil|done].
  - rewrite not_elem_of_cons. destruct (decide (x = y)) as [->|Hne].
    + split; [done|intros [? _]; done].
    + destruct (list_remove x l); simpl.
      * split; [done|]. intros [_ H]. apply IH in H. done.
      * split; [|done]. intros _. split; [done|]. by apply IH.
Qed.

Lemma list_remove_app_fresh {A} `{EqDecision A} (x : A) (l : list A) :
  x ∉ l -> list_remove x (l ++ [x]) = Some l.
Proof.
  induction l as [|y l IH]; simpl; intros Hx.
  - rewrite decide_True by done. reflexivity.
  - apply not_elem_of_cons in Hx as [Hne Hx].
    rewrite decide_False by done. rewrite IH by done. reflexivity.
Qed.

Lemma list_remove_Some {A} `{EqDecision A} (x : A) (l l' : list A) :
  list_remove x l = Some l' ->
  length l = S (length l') /\ (NoDup l -> x ∉ l') /\ (forall y, y ∈ l' -> y ∈ l).
Proof.
  revert l'. induction l as [|y l IH]; simpl; intros l' H; [done|].
  destruct (decide (x = y)) as [->|Hne].
  - injection H as <-. split_and!; [done| |].
    + intros Hnd. by apply NoDup_cons in Hnd as [? _].
    + intros z Hz. by right.
  - destruct (list_remove x l) as [l0|] eqn:Hl; [|done]. simpl in H.
    injection H as <-. destruct (IH l0 eq_refl) as (Hlen & Hnd & Hsub).
    split_and!.
    + simpl. by rewrite Hlen.
    + intros Hnd'. apply NoDup_cons in Hnd' as [_ Hnd'].
      rewrite not_elem_of_cons. split; [done|by apply Hnd].
    + intros z Hz. apply elem_of_cons in Hz as [->|Hz]; [by left|right; by apply Hsub].
Qed.

Lemma filter_ne_app_fresh (n : node) (l : list node) :
  n ∉ l -> filter (fun m => m <> n) (l ++ [n]) = l.
Proof.
  induction l as [|m l IH]; intros Hn.
  - simpl. rewrite filter_cons_False by (intros H; by apply H). reflexivity.
  - apply not_elem_of_cons in Hn as [Hne Hn]. simpl.
    rewrite filter_cons_True by (intros ->; done). rewrite IH by done. reflexivity.
Qed.

Lemma mfli_unsubscribe_one_unknown labels p b :
  _get_node_from_parameter labels p b ∉ _sample_nodes b ->
  unsubscribe_one labels p b = Return tt b.
Proof.
  intros H. unfold unsubscribe_one, bindR, lift, gets. simpl.
  rewrite bool_decide_eq_false_2 by exact H. reflexivity.
Qed.

End MFLIMoreFacts.

(** X8.  [unsubscribe] of an MFLI buffer looks a parameter up by the sample
    node of its label at the time of the call: parameters whose node is
    not among the subscribed nodes are passed over in silence, also when
    the parameter itself is subscribed (under the label it had before). *)
Theorem mfli_unsubscribe_unknown_node (labels : gmap nat string)
    (b : MFLIBuffer.t) (ps : list Param) :
  Forall (fun p => MFLIBuffer._get_node_from_parameter labels p b
                   ∉ MFLIBuffer._sample_nodes b) ps ->
  MFLIMore.unsubscribe labels ps b = Return tt b.
Proof.
  intros H. unfold MFLIMore.unsubscribe.
  induction H as [|p ps Hp Hps IH]; [reflexivity|].
  cbn [forR]. unfold bindR at 1.
  rewrite MFLIMoreFacts.mfli_unsubscribe_one_unknown by exact Hp. exact IH.
Qed.

Lemma mfli_unsubscribe_unknown_node_witness :
  MFLIMore.unsubscribe {[ 20%nat := "topgate x" ]} [demod_x] mfli_with_x
  = Return tt mfli_with_x
  /\ MFLIBuffer.is_subscribed demod_x mfli_with_x = true.
Proof.
  split.
  - apply (mfli_unsubscribe_unknown_node {[ 20%nat := "topgate x" ]} mfli_with_x [demod_x]).
    constructor; [|constructor].
    apply (bool_decide_unpack _). vm_compute. exact I.
  - vm_compute. reflexivity.
Defined.

(** X9.  On an MFLI buffer, subscribing a parameter whose node is free and
    unsubscribing it again, under the same labels, gives back the buffer
    as it was before. *)
Theorem mfli_subscribe_then_unsubscribe (labels : gmap nat string)
    (b : MFLIBuffer.t) (p : Param) :
  MFLIBuffer._get_node_from_parameter labels p b ∉ MFLIBuffer._sample_nodes b ->
  p ∉ MFLIBuffer._subscribed_parameters b ->
  MFLIBuffer._get_node_from_parameter labels p b
    ∉ MFLIBuffer.daq_nodes (MFLIBuffer._daq b) ->
  exists b1,
    MFLIBuffer.subscribe labels [p] b = Ok tt b1
    /\ MFLIBuffer.is_subscribed p b1 = true
    /\ MFLIMore.unsubscribe labels [p] b1 = Return tt b.
Proof.
  intros Hn Hp Hd.
  unfold MFLIBuffer.subscribe. cbn [for_]. unfold bind at 1.
  rewrite MFLIFacts.mfli_subscribe_one_free by exact Hn.
  eexists. split; [reflexivity|]. split.
  - apply bool_decide_eq_true_2. simpl. apply elem_of_app. right. by left.
  - unfold MFLIMore.unsubscribe. cbn [forR].
    unfold bindR, MFLIMore.unsubscribe_one, lift, gets, modify, retR, bindR. simpl.
    unfold MFLIBuffer._get_node_from_parameter in *. simpl in *.
    rewrite bool_decide_eq_true_2 by (apply elem_of_app; right; by left).
    rewrite MFLIMoreFacts.list_remove_app_fresh by exact Hn. simpl.
    rewrite MFLIMoreFacts.list_remove_app_fresh by exact Hp. simpl.
    destruct b as [[dn dr dd] sn sp tr ch]. simpl in *.
    unfold MFLIBuffer.with_daq, MFLIMore.daq_unsubscribe. simpl.
    rewrite MFLIMoreFacts.filter_ne_app_fresh by exact Hd. reflexivity.
Qed.

Lemma mfli_subscribe_then_unsubscribe_witness :
  exists b1,
    MFLIBuffer.subscribe ∅ [lockin_R] mfli_with_x = Ok tt b1
    /\ MFLIBuffer.is_subscribed lockin_R b1 = true
    /\ MFLIMore.unsubscribe ∅ [lockin_R] b1 = Return tt mfli_with_x.
Proof.
  apply (mfli_subscribe_then_unsubscribe ∅ mfli_with_x lockin_R).
  - apply (bool_decide_unpack _). vm_compute. exact I.
  - apply (bool_decide_unpack _). vm_compute. exact I.
  - apply (bool_decide_unpack _). vm_compute. exact I.
Defined.

(** X10.  On an MFLI buffer, unsubscribing a parameter that is not
    subscribed but whose label names a subscribed node raises [ValueError]
    after the node has been taken off the list: the other parameter stays
    subscribed, the acquisition module keeps the node, and the lists of
    nodes and parameters no longer run in parallel. *)
Theorem mfli_unsubscribe_shared_node (labels : gmap nat string)
    (b : MFLIBuffer.t) (q : Param) :
  MFLI_slot_inv b ->
  MFLIBuffer._get_node_from_parameter labels q b ∈ MFLIBuffer._sample_nodes b ->
  q ∉ MFLIBuffer._subscribed_parameters b ->
  exists b1,
    MFLIMore.unsubscribe labels [q] b = Throw (ValueError MFLIMore.remove_message) b1
    /\ (MFLIBuffer._get_node_from_parameter labels q b ∉ MFLIBuffer._sample_nodes b1)
    /\ MFLIBuffer._subscribed_parameters b1 = MFLIBuffer._subscribed_parameters b
    /\ MFLIBuffer._daq b1 = MFLIBuffer._daq b
    /\ length (MFLIBuffer._subscribed_parameters b1)
       = S (length (MFLIBuffer._sample_nodes b1))
    /\ ~ MFLI_slot_inv b1.
Proof.
  intros (Hnd & Hlen) Hn Hq.
  unfold MFLIMore.unsubscribe. cbn [forR].
  unfold bindR, MFLIMore.unsubscribe_one, lift, gets, modify, retR, bindR, throw. simpl.
  rewrite bool_decide_eq_true_2 by exact Hn.
  destruct (list_remove (MFLIBuffer._get_node_from_parameter labels q b)
              (MFLIBuffer._sample_nodes b)) as [l|] eqn:Hl.
  2:{ apply MFLIMoreFacts.list_remove_None in Hl. done. }
  simpl.
  apply MFLIMoreFacts.list_remove_None in Hq. rewrite Hq.
  destruct (MFLIMoreFacts.list_remove_Some _ _ _ Hl) as (Hlen' & Hfresh & _).
  eexists. split; [reflexivity|]. simpl.
  assert (Hlens : length (MFLIBuffer._subscribed_parameters b) = S (length l)) by lia.
  split_and!; try reflexivity.
  - by apply Hfresh.
  - exact Hlens.
  - intros (_ & Hbad). simpl in Hbad. lia.
Qed.

Lemma mfli_unsubscribe_shared_node_witness :
  exists b1,
    MFLIMore.unsubscribe ∅ [demod_x'] mfli_with_x
    = Throw (ValueError MFLIMore.remove_message) b1
    /\ MFLIBuffer.is_subscribed demod_x b1 = true
    /\ MFLIBuffer._sample_nodes b1 = [].
Proof.
  destruct (mfli_unsubscribe_shared_node ∅ mfli_with_x demod_x')
    as (b1 & H1 & _ & H3 & _ & H5 & _).
  - split; [|reflexivity]. apply (bool_decide_unpack _). vm_compute. exact I.
  - apply (bool_decide_unpack _). vm_compute. exact I.
  - apply (bool_decide_unpack _). vm_compute. exact I.
  - exists b1. split; [exact H1|]. split.
    + apply bool_decide_eq_true_2. rewrite H3. simpl. by left.
    + rewrite H3 in H5. simpl in H5. destruct (MFLIBuffer._sample_nodes b1); [done|].
      simpl in H5. lia.
Defined.

Module MFLISetupFacts.
  Import MFLIBuffer MFLIMore.

Lemma lookup_setdefault_ne {V} (d : gmap string V) (k k' : string) (v : V) :
  k <> k' ->
  match d !! k with Some _ => d | None => <[k := v]> d end !! k' = d !! k'.
Proof.
  intros Hne. destruct (d !! k); [reflexivity|]. by rewrite lookup_insert_ne.
Qed.

End MFLISetupFacts.

Ltac mfli_run :=
  unfold MFLIMore.setup_buffer, bindR, lift, modify, gets, retR, throw,
    MFLIMore.evalR, eval, ret, raise in *;
  simpl in *.

(** X11.  [setup_buffer] of an MFLI buffer configures the acquisition grid
    (burst count, burst duration, columns) only when the settings hold all
    of ["sample_rate"], ["burst_duration"] and ["duration"]: without one
    of them the three grid settings stay as they were, whether the call
    returns or raises.  The key ["sampling_rate"], from which the script
    resolves its point count, plays no part. *)
Theorem mfli_setup_buffer_needs_three_keys (settings : option (gmap string pyval))
    (s : MFLIMore.state) :
  (forall d, settings = Some d ->
     d !! "sample_rate" = None \/ d !! "burst_duration" = None
     \/ d !! "duration" = None) ->
  let s1 := state_of (MFLIMore.setup_buffer settings s) in
  MFLIMore.daq_count s1 = MFLIMore.daq_count s
  /\ MFLIMore.daq_duration s1 = MFLIMore.daq_duration s
  /\ MFLIMore.grid_cols s1 = MFLIMore.grid_cols s.
Proof.
  intros H.
  set (d := if match settings with None => true | Some d => is_empty_dict d end
            then (∅ : gmap string pyval) else default ∅ settings).
  assert (Hd : d !! "sample_rate" = None \/ d !! "burst_duration" = None
               \/ d !! "duration" = None).
  { subst d. destruct settings as [d0|]; simpl.
    - destruct (is_empty_dict d0); [left; apply lookup_empty|]. by apply H.
    - left. apply lookup_empty. }
  mfli_run. fold d. clearbody d. clear H.
  rewrite !(MFLISetupFacts.lookup_setdefault_ne d "trigger_type") by done.
  destruct (d !! "channel") as [[]|]; simpl; try (split_and!; reflexivity);
    destruct (d !! "trigger_threshold"); simpl;
    destruct (d !! "sample_rate"), (d !! "burst_duration"), (d !! "duration");
    simpl; try (split_and!; reflexivity);
    destruct Hd as [?|[?|?]]; done.
Qed.

Lemma mfli_setup_buffer_needs_three_keys_witness :
  let s := {| MFLIMore.object := mfli_with_x; MFLIMore.daq_device := false;
              MFLIMore.demods_enabled := []; MFLIMore.daq_type := PInt 0;
              MFLIMore.daq_triggernode := None; MFLIMore.grid_mode := None;
              MFLIMore.daq_level := None; MFLIMore.trigger_levels := None;
              MFLIMore.daq_count := None; MFLIMore.daq_duration := None;
              MFLIMore.grid_cols := None |} in
  MFLIMore.grid_cols
    (state_of (MFLIMore.setup_buffer
                 (Some {[ "sampling_rate" := PInt 10; "burst_duration" := PInt 2;
                          "duration" := PInt 4 ]}) s))
  = None.
Proof.
  intros s.
  apply (mfli_setup_buffer_needs_three_keys
           (Some {[ "sampling_rate" := PInt 10; "burst_duration" := PInt 2;
                    "duration" := PInt 4 ]}) s).
  intros d [= <-]. left. vm_compute. reflexivity.
Defined.

Lemma is_empty_dict_Some {V} (k : string) (v : V) (d : gmap string V) :
  d !! k = Some v -> is_empty_dict d = false.
Proof.
  intros H. destruct (is_empty_dict d) eqn:He; [|reflexivity].
  rewrite (is_empty_dict_lookup k d He) in H. done.
Qed.

Lemma enable_twice (c : Z) (E : list Z) :
  (if bool_decide (c ∈ (if bool_decide (c ∈ E) then E else E ++ [c]))
   then (if bool_decide (c ∈ E) then E else E ++ [c])
   else (if bool_decide (c ∈ E) then E else E ++ [c]) ++ [c])
  = (if bool_decide (c ∈ E) then E else E ++ [c]).
Proof.
  destruct (bool_decide (c ∈ E)) eqn:H.
  - rewrite H. reflexivity.
  - rewrite bool_decide_eq_true_2; [reflexivity|]. apply elem_of_app. right. by left.
Qed.

Ltac mfli_setters :=
  lazy beta iota zeta delta
    [MFLIMore.set_grid_mode MFLIMore.set_daq_type MFLIMore.enable_demod
     MFLIMore.set_daq_device MFLIMore.set_levels MFLIMore.set_grid
     MFLIMore.with_object MFLIMore.set__channel MFLIMore.set__trigger
     MFLIMore.set_daq_triggernode
     MFLIMore.object MFLIMore.daq_device MFLIMore.demods_enabled
     MFLIMore.daq_type MFLIMore.daq_triggernode MFLIMore.grid_mode
     MFLIMore.daq_level MFLIMore.trigger_levels MFLIMore.daq_count
     MFLIMore.daq_duration MFLIMore.grid_cols
     MFLIBuffer._daq MFLIBuffer._sample_nodes MFLIBuffer._subscribed_parameters
     MFLIBuffer._trigger MFLIBuffer._channel].

Lemma Qceiling_product (a b : Z) :
  Qceiling (inject_Z a * inject_Z b) = (a * b)%Z.
Proof.
  change (inject_Z a * inject_Z b)%Q with (inject_Z (a * b)). apply Qceiling_Z.
Qed.

Lemma Qceiling_quotient (a b : Z) :
  b <> 0%Z -> Qceiling (inject_Z a / inject_Z b) = (- ((- a) / b))%Z.
Proof.
  intros Hb. unfold Qceiling. f_equal.
  destruct b as [|p|p]; [done| |].
  - unfold Qdiv, Qinv, Qmult, Qopp, Qfloor, inject_Z. simpl.
    by rewrite Z.mul_1_r.
  - unfold Qdiv, Qinv, Qmult, Qopp, Qfloor, inject_Z. simpl Qnum. simpl Qden.
    change (Z.neg p) with (- Z.pos p)%Z. rewrite Z.div_opp_opp by done.
    f_equal. lia.
Qed.

(** X12.  With ["sample_rate"], ["burst_duration"] and ["duration"] in the
    settings, all three integers below [2 ^ 26] in magnitude (where the
    floating-point product and quotient of the source are exact enough for
    the ceiling to be the mathematical one), the burst duration not zero,
    and a ["channel"] that is an integer if there is one, [setup_buffer]
    of an MFLI buffer returns and sets the grid to
    [sample_rate * burst_duration] columns and
    [ceil(duration / burst_duration)] bursts of the burst duration; the
    acquisition type is the ["trigger_type"] of the settings, 0 without
    one, and is written into the settings. *)
Theorem mfli_setup_buffer_grid (d : gmap string pyval) (s : MFLIMore.state)
    (sr bd dur : Z) :
  d !! "sample_rate" = Some (PInt sr) -> d !! "burst_duration" = Some (PInt bd) ->
  d !! "duration" = Some (PInt dur) ->
  bd <> 0%Z ->
  (Z.abs sr < 2 ^ 26)%Z -> (Z.abs bd < 2 ^ 26)%Z -> (Z.abs dur < 2 ^ 26)%Z ->
  match d !! "channel" with Some (PInt _) | None => True | Some _ => False end ->
  exists s1,
    MFLIMore.setup_buffer (Some d) s
    = Return (Some (<["trigger_type" := MFLIMore.daq_type s1]> d)) s1
    /\ MFLIMore.grid_cols s1 = Some (PInt (sr * bd))
    /\ MFLIMore.daq_count s1 = Some (PInt (- ((- dur) / bd)))
    /\ MFLIMore.daq_duration s1 = Some (PInt bd)
    /\ MFLIMore.grid_mode s1 = Some 2%Z
    /\ MFLIMore.daq_type s1 = default (PInt 0) (d !! "trigger_type").
Proof.
  intros Hsr Hbd Hdur Hy0 _ _ _ Hch.
  assert (Hq : Qeq_bool (inject_Z bd) 0 = false).
  { destruct (Qeq_bool (inject_Z bd) 0) eqn:E; [|reflexivity].
    apply Qeq_bool_iff in E. unfold Qeq in E. simpl in E. lia. }
  exists (state_of (MFLIMore.setup_buffer (Some d) s)).
  mfli_run. rewrite (is_empty_dict_Some _ _ _ Hsr). simpl.
  rewrite !(MFLISetupFacts.lookup_setdefault_ne d "trigger_type") by done.
  rewrite Hsr, Hbd, Hdur. unfold ceil_product, MFLIMore.ceil_quotient.
  cbn [as_number]. rewrite Hq, Qceiling_product, (Qceiling_quotient dur bd Hy0).
  destruct (d !! "channel") as [[]|]; try done; simpl;
    destruct (d !! "trigger_threshold"), (d !! "trigger_type") eqn:Ht; simpl;
    (split; [rewrite ?insert_id by exact Ht; reflexivity|split_and!; reflexivity]).
Qed.

Lemma mfli_setup_buffer_grid_witness :
  let s := {| MFLIMore.object := mfli_with_x; MFLIMore.daq_device := false;
              MFLIMore.demods_enabled := []; MFLIMore.daq_type := PInt 6;
              MFLIMore.daq_triggernode := None; MFLIMore.grid_mode := None;
              MFLIMore.daq_level := None; MFLIMore.trigger_levels := None;
              MFLIMore.daq_count := None; MFLIMore.daq_duration := None;
              MFLIMore.grid_cols := None |} in
  exists s1,
    thrown (MFLIMore.setup_buffer
              (Some {[ "sample_rate" := PInt 10; "burst_duration" := PInt 4;
                       "duration" := PInt 9 ]}) s) = None
    /\ s1 = state_of (MFLIMore.setup_buffer
              (Some {[ "sample_rate" := PInt 10; "burst_duration" := PInt 4;
                       "duration" := PInt 9 ]}) s)
    /\ MFLIMore.grid_cols s1 = Some (PInt 40)
    /\ MFLIMore.daq_count s1 = Some (PInt 3).
Proof.
  intros s.
  destruct (mfli_setup_buffer_grid
              {[ "sample_rate" := PInt 10; "burst_duration" := PInt 4;
                 "duration" := PInt 9 ]} s 10 4 9)
    as (s1 & H1 & H2 & H3 & _); try (vm_compute; reflexivity).
  - vm_compute. discriminate.
  - exists s1. rewrite H1. simpl. split_and!; [reflexivity|reflexivity| |].
    + rewrite H2. vm_compute. reflexivity.
    + rewrite H3. vm_compute. reflexivity.
Defined.

Ltac mfli_unfold :=
  unfold MFLIMore.setup_buffer, bindR, lift, modify, gets, retR, throw,
    MFLIMore.evalR, eval, ret, raise in *.

(** X13.  [setup_buffer] of an MFLI buffer is idempotent: when it returns
    (a ["channel"] of the settings being an integer, as the model of
    [setup_buffer] has it), a second call with the settings dictionary as
    the first call left it returns too and changes neither the buffer, the
    instrument settings nor the dictionary. *)
Theorem mfli_setup_buffer_idempotent (settings out : option (gmap string pyval))
    (s s1 : MFLIMore.state) :
  MFLIMore.setup_buffer settings s = Return out s1 ->
  MFLIMore.setup_buffer out s1 = Return out s1.
Proof.
  intros H.
  assert (Hfresh : forall (o : option (gmap string pyval)) s0,
            match o with None => true | Some d => is_empty_dict d end = true ->
            MFLIMore.setup_buffer o s0
            = Return o (MFLIMore.set_grid_mode 2
                          (MFLIMore.set_daq_type (PInt 0)
                             (MFLIMore.enable_demod
                                (MFLIBuffer._channel (MFLIMore.object s0))
                                (MFLIMore.set_daq_device s0))))).
  { intros o s0 Ho. mfli_unfold. rewrite Ho. cbn beta iota zeta.
    rewrite !lookup_empty. cbn beta iota zeta.
    rewrite !lookup_insert_ne, !lookup_empty by done. reflexivity. }
  assert (Htwice : forall s0 : MFLIMore.state,
            let F := fun s0 => MFLIMore.set_grid_mode 2
                          (MFLIMore.set_daq_type (PInt 0)
                             (MFLIMore.enable_demod
                                (MFLIBuffer._channel (MFLIMore.object s0))
                                (MFLIMore.set_daq_device s0))) in
            F (F s0) = F s0).
  { intros [[dq sn sp tr ch] dev en ty tn gm lv tl ct du gc].
    mfli_setters. rewrite enable_twice. reflexivity. }
  destruct settings as [d|]; [destruct (is_empty_dict d) eqn:He|].
  - rewrite Hfresh in H by exact He. injection H as <- <-.
    rewrite Hfresh by exact He. f_equal. apply Htwice.
  - clear Hfresh Htwice.
    destruct s as [[dq sn sp tr ch] dev en ty tn gm lv tl ct du gc].
    set (D := match d !! "trigger_type" with
              | Some _ => d
              | None => <["trigger_type" := PInt 0]> d
              end).
    assert (HDne : forall k, "trigger_type" <> k -> D !! k = d !! k)
      by (intros k Hk; apply MFLISetupFacts.lookup_setdefault_ne, Hk).
    assert (HDtt : D !! "trigger_type" = Some (default (PInt 0) (d !! "trigger_type"))).
    { subst D. destruct (d !! "trigger_type") eqn:E; simpl; [exact E|].
      apply lookup_insert_eq. }
    assert (HDe : is_empty_dict D = false).
    { subst D. destruct (d !! "trigger_type"); [exact He|apply is_empty_dict_insert]. }
    mfli_run. rewrite He in H. simpl in H. fold D in H.
    rewrite !HDne in H by done.
    assert (Hout : out = Some D).
    { destruct (d !! "channel") as [[]|]; simpl in H; try discriminate H;
        destruct (d !! "trigger_threshold"); simpl in H;
        destruct (d !! "sample_rate") as [sr|];
        destruct (d !! "burst_duration") as [bd|];
        destruct (d !! "duration") as [dur|]; simpl in H;
        try (destruct (ceil_product sr bd); simpl in H; [discriminate H|];
             destruct (MFLIMore.ceil_quotient dur bd); simpl in H;
             [discriminate H|]);
        injection H as <- _; reflexivity. }
    subst out. clearbody D. simpl. rewrite HDe. simpl.
    rewrite HDtt. simpl. rewrite !HDne by done.
    destruct (d !! "channel") as [ch0|] eqn:Hch;
      [destruct ch0; simpl in H; try discriminate H|];
      destruct (d !! "trigger_threshold") eqn:Hth; simpl in H;
      destruct (d !! "sample_rate") as [sr|] eqn:Hsr;
      destruct (d !! "burst_duration") as [bd|] eqn:Hbd;
      destruct (d !! "duration") as [dur|] eqn:Hdur; simpl in H;
      try (destruct (ceil_product sr bd) eqn:Hcp; simpl in H; [discriminate H|];
           destruct (MFLIMore.ceil_quotient dur bd) eqn:Hcq; simpl in H;
           [discriminate H|]);
      injection H as <-;
      mfli_setters; rewrite ?enable_twice; reflexivity.
  - rewrite Hfresh in H by reflexivity. injection H as <- <-.
    rewrite Hfresh by reflexivity. f_equal. apply Htwice.
Qed.

Lemma mfli_setup_buffer_idempotent_witness :
  let s := {| MFLIMore.object := mfli_with_x; MFLIMore.daq_device := false;
              MFLIMore.demods_enabled := []; MFLIMore.daq_type := PInt 6;
              MFLIMore.daq_triggernode := None; MFLIMore.grid_mode := None;
              MFLIMore.daq_level := None; MFLIMore.trigger_levels := None;
              MFLIMore.daq_count := None; MFLIMore.daq_duration := None;
              MFLIMore.grid_cols := None |} in
  let settings : option (gmap string pyval) :=
    Some {[ "channel" := PInt 1; "trigger_threshold" := PFloat (1 # 2) ]} in
  let out : option (gmap string pyval) :=
    Some {[ "channel" := PInt 1; "trigger_threshold" := PFloat (1 # 2);
            "trigger_type" := PInt 0 ]} in
  exists s1, MFLIMore.setup_buffer settings s = Return out s1
             /\ MFLIMore.setup_buffer out s1 = Return out s1.
Proof.
  intros s settings out.
  exists (state_of (MFLIMore.setup_buffer settings s)).
  assert (H : MFLIMore.setup_buffer settings s
              = Return out (state_of (MFLIMore.setup_buffer settings s)))
    by (vm_compute; reflexivity).
  split; [exact H|].
  exact (mfli_setup_buffer_idempotent settings out s _ H).
Defined.

(** X14.  On an MFLI buffer [setup_buffer] overrides what the [trigger]
    setter configured: whatever parameter was assigned as trigger, after a
    [setup_buffer] that returns (a ["channel"] of the settings being an
    integer) the acquisition type is the ["trigger_type"] of the settings,
    0 without one.  The trigger node and the stored parameter stay, and
    the [trigger] getter reports no trigger. *)
Theorem mfli_setup_buffer_overrides_trigger (p : Param)
    (settings out : option (gmap string pyval)) (s s2 : MFLIMore.state) :
  MFLIMore.setup_buffer settings (final_state (MFLIMore.set_trigger p s))
  = Return out s2 ->
  MFLIMore.daq_type s2
  = default (PInt 0) (settings ≫= (fun d => d !! "trigger_type"))
  /\ MFLIMore.daq_triggernode s2
     = MFLIMore.daq_triggernode (final_state (MFLIMore.set_trigger p s))
  /\ MFLIBuffer._trigger (MFLIMore.object s2) = Some p
  /\ MFLIMore.trigger s2 = None.
Proof.
  assert (Hp : MFLIBuffer._trigger
                 (MFLIMore.object (final_state (MFLIMore.set_trigger p s))) = Some p).
  { unfold MFLIMore.set_trigger, bind, modify, gets, ret.
    destruct (String.eqb (name p) "demod0_aux_in_1");
      [destruct (negb _)|destruct (String.eqb (name p) "demod0_trig_in")];
      reflexivity. }
  revert Hp. generalize (final_state (MFLIMore.set_trigger p s)).
  intros [[dq sn sp tr ch] dev en ty tn gm lv tl ct du gc] Hp H.
  simpl in Hp. subst tr.
  set (d := if match settings with None => true | Some d => is_empty_dict d end
            then (∅ : gmap string pyval) else default ∅ settings).
  assert (Htt : default (PInt 0) (settings ≫= (fun d => d !! "trigger_type"))
                = default (PInt 0) (d !! "trigger_type")).
  { subst d. destruct settings as [d|]; simpl; [|by rewrite lookup_empty].
    destruct (is_empty_dict d) eqn:He; [|reflexivity].
    by rewrite lookup_empty, (is_empty_dict_lookup _ _ He). }
  rewrite Htt. clear Htt.
  mfli_run. fold d in H. clearbody d.
  rewrite !(MFLISetupFacts.lookup_setdefault_ne d "trigger_type") in H by done.
  destruct (d !! "channel") as [[]|]; simpl in H; try discriminate H;
    destruct (d !! "trigger_threshold"); simpl in H;
    destruct (d !! "sample_rate") as [sr|];
    destruct (d !! "burst_duration") as [bd|];
    destruct (d !! "duration") as [dur|]; simpl in H;
    try (destruct (ceil_product sr bd); simpl in H; [discriminate H|];
         destruct (MFLIMore.ceil_quotient dur bd); simpl in H;
         [discriminate H|]);
    injection H as _ <-; mfli_setters; split_and!; reflexivity.
Qed.

Lemma mfli_setup_buffer_overrides_trigger_witness :
  let s := {| MFLIMore.object := mfli_with_x; MFLIMore.daq_device := false;
              MFLIMore.demods_enabled := []; MFLIMore.daq_type := PInt 0;
              MFLIMore.daq_triggernode := None; MFLIMore.grid_mode := None;
              MFLIMore.daq_level := None; MFLIMore.trigger_levels := None;
              MFLIMore.daq_count := None; MFLIMore.daq_duration := None;
              MFLIMore.grid_cols := None |} in
  let s1 := final_state (MFLIMore.set_trigger (channel 30 "demod0_trig_in") s) in
  MFLIMore.daq_type s1 = PInt 6
  /\ MFLIMore.daq_type (state_of (MFLIMore.setup_buffer None s1)) = PInt 0.
Proof.
  intros s s1. split; [reflexivity|].
  assert (H : MFLIMore.setup_buffer None s1
              = Return None (state_of (MFLIMore.setup_buffer None s1)))
    by (vm_compute; reflexivity).
  exact (proj1 (mfli_setup_buffer_overrides_trigger
                  (channel 30 "demod0_trig_in") None None s _ H)).
Defined.

(** ** Registration of gate parameters *)

Section DictFacts.
Context {V : Type}.
Implicit Types (d : list (string * V)) (k : string) (v : V).

Lemma dict_get_None k d : dict_get k d = None <-> k ∉ map fst d.
Proof.
  induction d as [|[k' v'] d IH]; simpl.
  - split; [intros _; apply not_elem_of_nil|done].
  - rewrite not_elem_of_cons. destruct (String.eqb_spec k k') as [->|Hne].
    + split; [done|intros [? _]; done].
    + rewrite IH. tauto.
Qed.

Lemma dict_get_set_eq k v d : dict_get k (dict_set k v d) = Some v.
Proof.
  induction d as [|[k' v'] d IH]; simpl.
  - by rewrite String.eqb_refl.
  - destruct (String.eqb_spec k k') as [->|Hne]; simpl.
    + by rewrite String.eqb_refl.
    + destruct (String.eqb_spec k k'); [done|]. exact IH.
Qed.

Lemma dict_get_set_ne k k' v d : k <> k' -> dict_get k' (dict_set k v d) = dict_get k' d.
Proof.
  intros Hne. induction d as [|[k0 v0] d IH]; simpl.
  - destruct (String.eqb_spec k' k); [congruence|reflexivity].
  - destruct (String.eqb_spec k k0) as [->|Hne0]; simpl.
    + destruct (String.eqb_spec k' k0); [congruence|reflexivity].
    + destruct (String.eqb_spec k' k0); [reflexivity|exact IH].
Qed.

Lemma dict_set_fresh k v d : k ∉ map fst d -> dict_set k v d = d ++ [(k, v)].
Proof.
  induction d as [|[k' v'] d IH]; simpl; intros Hk; [reflexivity|].
  apply not_elem_of_cons in Hk as [Hne Hk].
  destruct (String.eqb_spec k k'); [done|]. by rewrite IH.
Qed.

Lemma dict_set_last k v v0 d :
  k ∉ map fst d -> dict_set k v (d ++ [(k, v0)]) = d ++ [(k, v)].
Proof.
  induction d as [|[k' v'] d IH]; simpl; intros Hk.
  - by rewrite String.eqb_refl.
  - apply not_elem_of_cons in Hk as [Hne Hk].
    destruct (String.eqb_spec k k'); [done|]. by rewrite IH.
Qed.

Lemma dict_get_last k v d : k ∉ map fst d -> dict_get k (d ++ [(k, v)]) = Some v.
Proof.
  induction d as [|[k' v'] d IH]; simpl; intros Hk.
  - by rewrite String.eqb_refl.
  - apply not_elem_of_cons in Hk as [Hne Hk].
    destruct (String.eqb_spec k k'); [done|]. by apply IH.
Qed.

Lemma dict_set_keys k v d :
  map fst (dict_set k v d)
  = match dict_get k d with Some _ => map fst d | None => map fst d ++ [k] end.
Proof.
  induction d as [|[k' v'] d IH]; simpl; [reflexivity|].
  destruct (String.eqb_spec k k') as [->|Hne]; simpl; [reflexivity|].
  rewrite IH. by destruct (dict_get k d).
Qed.

End DictFacts.

Lemma valid_name n :
  n ∈ Script.PARAMETER_NAMES ->
  negb (bool_decide (n ∈ Script.PARAMETER_NAMES)) = false.
Proof. intros H. by rewrite bool_decide_eq_true_2. Qed.

(** X15.  [add_gate_parameter] fails in exactly two cases: with [NameError]
    when the parameter name is not one of [PARAMETER_NAMES], whatever the
    gate; and, for a known name, with the exception about a gate that is
    not a dictionary when a non-empty gate name is given under which a
    parameter was registered directly.  In every other case it returns. *)
Theorem add_gate_parameter_fails_exactly (n : string) (g : option string)
    (p : option Param) (gps : Script.gate_store) (e : pyexc) :
  Script.add_gate_parameter n g p gps = inl e
  <-> ((n ∉ Script.PARAMETER_NAMES) /\ e = Script.name_error n)
      \/ (n ∈ Script.PARAMETER_NAMES /\ e = Script.not_a_dictionary
          /\ exists gate q, g = Some gate /\ gate <> ""
               /\ dict_get gate gps = Some (Script.Direct q)).
Proof.
  unfold Script.add_gate_parameter.
  destruct (decide (n ∈ Script.PARAMETER_NAMES)) as [Hn|Hn].
  - rewrite bool_decide_eq_true_2 by exact Hn. simpl.
    assert (Hright : forall P : Prop,
              (inr (A := pyexc) (B := Script.gate_store) = inr -> True) ->
              ~ P ->
              ((n ∉ Script.PARAMETER_NAMES) /\ e = Script.name_error n) \/ P -> False).
    { intros P _ HP [[? _]|?]; done. }
    destruct g as [gate|].
    + destruct (String.eqb_spec gate "") as [->|Hg].
      * split; [done|]. intros H. exfalso. revert H. apply Hright; [done|].
        intros (_ & _ & gate & q & Heq & Hne & _). congruence.
      * destruct (dict_get gate gps) as [[d|q]|] eqn:Hget; simpl.
        -- split; [done|]. intros H. exfalso. revert H. apply Hright; [done|].
           intros (_ & _ & gate' & q & Heq & _ & Hget'). congruence.
        -- split.
           ++ intros [= <-]. right. split_and!; [done|done|]. by exists gate, q.
           ++ intros [[? _]|(_ & -> & _)]; done.
        -- split; [done|]. intros H. exfalso. revert H. apply Hright; [done|].
           intros (_ & _ & gate' & q & Heq & _ & Hget'). congruence.
    + split; [done|]. intros H. exfalso. revert H. apply Hright; [done|].
      intros (_ & _ & gate & q & Heq & _). congruence.
  - rewrite bool_decide_eq_false_2 by exact Hn. simpl. split.
    + intros [= <-]. by left.
    + intros [[_ ->]|[? _]]; done.
Qed.

(** X16.  For a known parameter name, a non-empty gate name and no
    parameter registered directly under that name, [add_gate_parameter]
    returns; afterwards the gate has a dictionary in which the name maps to
    the given parameter, the other entries of the gate and the other gates
    are as before, and the gate keeps its place, a new gate coming last. *)
Theorem add_gate_parameter_under_gate (n gate : string) (p : option Param)
    (gps : Script.gate_store) :
  n ∈ Script.PARAMETER_NAMES -> gate <> "" ->
  (forall q, dict_get gate gps <> Some (Script.Direct q)) ->
  exists gps' d',
    Script.add_gate_parameter n (Some gate) p gps = inr gps'
    /\ dict_get gate gps' = Some (Script.GateDict d')
    /\ dict_get n d' = Some p
    /\ (forall n', n' <> n ->
          dict_get n' d'
          = match dict_get gate gps with
            | Some (Script.GateDict d) => dict_get n' d
            | _ => None
            end)
    /\ (forall gate', gate' <> gate -> dict_get gate' gps' = dict_get gate' gps)
    /\ map fst gps'
       = match dict_get gate gps with
         | Some _ => map fst gps
         | None => map fst gps ++ [gate]
         end.
Proof.
  intros Hn Hg Hd. unfold Script.add_gate_parameter.
  rewrite (valid_name n Hn).
  destruct (String.eqb_spec gate ""); [done|].
  destruct (dict_get gate gps) as [[d|q]|] eqn:Hget; simpl.
  - eexists _, _. split; [reflexivity|]. split_and!.
    + apply dict_get_set_eq.
    + apply dict_get_set_eq.
    + intros n' Hn'. by apply dict_get_set_ne.
    + intros gate' Hg'. by apply dict_get_set_ne.
    + by rewrite dict_set_keys, Hget.
  - by destruct (Hd q).
  - eexists _, _. split; [reflexivity|]. split_and!.
    + apply dict_get_set_eq.
    + apply (dict_get_set_eq n p []).
    + intros n' Hn'. simpl. destruct (String.eqb_spec n' n); done.
    + intros gate' Hg'. by apply dict_get_set_ne.
    + by rewrite dict_set_keys, Hget.
Qed.

Lemma add_gate_parameter_under_gate_witness :
  exists gps',
    Script.add_gate_parameter "voltage" (Some "topgate") (Some topgate_voltage)
      [("topgate", Script.GateDict [("current", None)])] = inr gps'
    /\ map fst gps' = ["topgate"].
Proof.
  destruct (add_gate_parameter_under_gate "voltage" "topgate" (Some topgate_voltage)
              [("topgate", Script.GateDict [("current", None)])])
    as (gps' & d' & H1 & _ & _ & _ & _ & H6).
  - apply (bool_decide_unpack _). vm_compute. exact I.
  - discriminate.
  - intros q. vm_compute. discriminate.
  - exists gps'. split; [exact H1|exact H6].
Defined.

(** X17.  Without a gate name ([None] or the empty string) a known
    parameter name is registered directly under its own name: the entry of
    that name, a gate's dictionary included, is replaced by the parameter,
    and every other entry is as before. *)
Theorem add_gate_parameter_without_gate (n : string) (g : option string)
    (p : option Param) (gps : Script.gate_store) :
  n ∈ Script.PARAMETER_NAMES -> g = None \/ g = Some "" ->
  exists gps',
    Script.add_gate_parameter n g p gps = inr gps'
    /\ dict_get n gps' = Some (Script.Direct p)
    /\ (forall k, k <> n -> dict_get k gps' = dict_get k gps)
    /\ map fst gps'
       = match dict_get n gps with
         | Some _ => map fst gps
         | None => map fst gps ++ [n]
         end.
Proof.
  intros Hn Hg. unfold Script.add_gate_parameter. rewrite (valid_name n Hn).
  exists (dict_set n (Script.Direct p) gps). split.
  - destruct Hg as [->| ->]; reflexivity.
  - split_and!.
    + apply dict_get_set_eq.
    + intros k Hk. by apply dict_get_set_ne.
    + apply dict_set_keys.
Qed.

Lemma add_gate_parameter_without_gate_witness :
  Script.add_gate_parameter "voltage" (Some "") None
    [("voltage", Script.GateDict [("current", None)])]
  = inr [("voltage", Script.Direct None)].
Proof.
  destruct (add_gate_parameter_without_gate "voltage" (Some "") None
              [("voltage", Script.GateDict [("current", None)])])
    as (gps' & H1 & _).
  - apply (bool_decide_unpack _). vm_compute. exact I.
  - by right.
  - reflexivity.
Defined.

(** ** [setup] *)

Module ScriptFacts.
  Import Script.

Lemma forR_app {S A} (xs ys : list A) (body : A -> R S unit) s :
  forR (xs ++ ys) body s = bindR (forR xs body) (fun _ => forR ys body) s.
Proof.
  revert s. induction xs as [|x xs IH]; intros s; simpl; [reflexivity|].
  unfold bindR. destruct (body x s) as [[] s1|e s1]; [|reflexivity].
  rewrite IH. reflexivity.
Qed.

Lemma with_this_gate_parameters_id h :
  with_this (set_gate_parameters (gate_parameters (this h))) h = h.
Proof. destruct h as [D []]. reflexivity. Qed.

Lemma registered_app ps qs : registered (ps ++ qs) = registered ps ++ registered qs.
Proof. unfold registered. apply omap_app. Qed.

Lemma registered_keys ps gate :
  gate ∈ map fst (registered ps) -> gate ∈ map fst ps.
Proof.
  induction ps as [|[g vals] ps IH]; simpl; [done|].
  destruct vals; simpl.
  - intros H. right. by apply IH.
  - rewrite !elem_of_cons. intros [->|H]; [by left|right; by apply IH].
Qed.

Lemma register_step gate gps done n pr h :
  gate <> "" -> gate ∉ map fst gps ->
  n ∈ PARAMETER_NAMES -> n ∉ map fst done ->
  gate_parameters (this h) = gps ++ registered [(gate, done)] ->
  register n gate h
  = Return tt (with_this
                 (set_gate_parameters (gps ++ registered [(gate, done ++ [(n, pr)])])) h).
Proof.
  intros Hg Hfresh Hn Hdone Hstore.
  unfold register, add_gate_parameter. rewrite (valid_name n Hn), Hstore.
  destruct (String.eqb_spec gate ""); [done|].
  destruct done as [|kv done].
  - simpl. rewrite app_nil_r.
    rewrite (proj2 (dict_get_None gate gps)) by exact Hfresh. simpl.
    rewrite dict_set_fresh by exact Hfresh. reflexivity.
  - set (l := kv :: done) in *.
    assert (H1 : registered [(gate, l)]
                 = [(gate, GateDict (map (fun kv => (kv.1, None)) l))])
      by reflexivity.
    assert (H2 : registered [(gate, l ++ [(n, pr)])]
                 = [(gate, GateDict (map (fun kv => (kv.1, None)) (l ++ [(n, pr)])))])
      by reflexivity.
    rewrite H1, H2. clearbody l. clear H1 H2.
    rewrite dict_get_last by exact Hfresh. cbn [default id].
    rewrite dict_set_last by exact Hfresh.
    rewrite dict_set_fresh by (rewrite map_map; exact Hdone).
    rewrite map_app. reflexivity.
Qed.

Lemma register_loop gate gps vals : forall done h,
  gate <> "" -> gate ∉ map fst gps ->
  Forall (fun kv => kv.1 ∈ PARAMETER_NAMES) vals ->
  NoDup (map fst (done ++ vals)) ->
  gate_parameters (this h) = gps ++ registered [(gate, done)] ->
  forR vals (fun '(parameter, _) => register parameter gate) h
  = Return tt (with_this
                 (set_gate_parameters (gps ++ registered [(gate, done ++ vals)])) h).
Proof.
  induction vals as [|[n pr] vals IH]; intros done h Hg Hfresh Hvalid Hnd Hstore.
  - cbn [forR]. rewrite app_nil_r, <- Hstore, with_this_gate_parameters_id. reflexivity.
  - apply Forall_cons in Hvalid as [Hn Hvalid]. simpl in Hn.
    assert (Hdone : n ∉ map fst done).
    { rewrite map_app in Hnd. apply NoDup_app in Hnd as (_ & Hdis & _).
      intros Hin. apply (Hdis n Hin). simpl. by left. }
    cbn [forR]. unfold bindR at 1.
    rewrite (register_step gate gps done n pr h Hg Hfresh Hn Hdone Hstore).
    rewrite (IH (done ++ [(n, pr)])); try done.
    + rewrite <- app_assoc. reflexivity.
    + rewrite <- app_assoc. exact Hnd.
Qed.

Lemma register_loop_rejects gate gps vpre n pr vpost h :
  gate <> "" -> gate ∉ map fst gps ->
  Forall (fun kv => kv.1 ∈ PARAMETER_NAMES) vpre ->
  n ∉ PARAMETER_NAMES ->
  NoDup (map fst vpre) ->
  gate_parameters (this h) = gps ->
  forR (vpre ++ (n, pr) :: vpost) (fun '(parameter, _) => register parameter gate) h
  = Throw (name_error n)
      (with_this (set_gate_parameters (gps ++ registered [(gate, vpre)])) h).
Proof.
  intros Hg Hfresh Hvalid Hn Hnd Hstore.
  rewrite forR_app. unfold bindR at 1.
  rewrite (register_loop gate gps vpre [] h); try done.
  - cbn [forR app]. unfold bindR. unfold register at 1, add_gate_parameter.
    rewrite bool_decide_eq_false_2 by exact Hn. reflexivity.
  - simpl. rewrite app_nil_r. exact Hstore.
Qed.

End ScriptFacts.

Module SetupFacts.
  Import Script ScriptFacts.

(** The state after the first three statements of [setup]. *)
Lemma update_buffer_settings_merged arg h :
  the_buffer_settings (state_of (update_buffer_settings arg h))
  = Some (merged_buffer_settings arg h).
Proof.
  destruct h as [D [pp gp bs st bf bnp md out]].
  unfold update_buffer_settings, lift, modify, the_buffer_settings,
    merged_buffer_settings. simpl.
  destruct bs as [[|d]|]; simpl; reflexivity.
Qed.

Lemma loop_shape ps : forall h,
  exists gp pr,
    state_of (forR ps (fun '(gate, vals) =>
                _ <~ lift (modify (with_this (fun s =>
                       set_properties (<[gate := vals]> (properties s)) s))) ;;
                forR vals (fun '(parameter, _) => register parameter gate)) h)
    = with_this (fun s => set_gate_parameters gp (set_properties pr s)) h.
Proof.
  assert (Hinner : forall gate (vals : list (string * gmap string pyval)) h,
            exists gp,
              state_of (forR vals (fun '(parameter, _) => register parameter gate) h)
              = with_this (set_gate_parameters gp) h).
  { intros gate vals. induction vals as [|[n pr] vals IH]; intros h.
    - exists (gate_parameters (this h)). simpl.
      by rewrite with_this_gate_parameters_id.
    - cbn [forR]. unfold bindR. unfold register at 1.
      destruct (add_gate_parameter n (Some gate) None (gate_parameters (this h)))
        as [e|g].
      + exists (gate_parameters (this h)). simpl.
        by rewrite with_this_gate_parameters_id.
      + destruct (IH (with_this (set_gate_parameters g) h)) as [gp Hgp].
        exists gp. rewrite Hgp. destruct h as [D []]. reflexivity. }
  induction ps as [|[gate vals] ps IH]; intros h.
  - exists (gate_parameters (this h)), (properties (this h)).
    destruct h as [D []]. reflexivity.
  - cbn [forR]. unfold bindR at 1. unfold bindR at 1.
    unfold lift at 1, modify at 1.
    set (h1 := with_this (fun s => set_properties (<[gate := vals]> (properties s)) s) h).
    destruct (Hinner gate vals h1) as [gp Hgp].
    destruct (forR vals (fun '(parameter, _) => register parameter gate) h1)
      as [[] h2|e h2]; simpl in Hgp; subst h2.
    + destruct (IH (with_this (set_gate_parameters gp) h1)) as (gp' & pr' & H').
      exists gp', pr'. rewrite H'. subst h1. destruct h as [D []]. reflexivity.
    + exists gp, (<[gate := vals]> (properties (this h))).
      subst h1. destruct h as [D []]. reflexivity.
Qed.

(** [setup] up to its loop, when the point count resolves. *)
Lemma setup_preamble ps md a1 a2 arg st l1 l2 h n :
  resolve_num_points (merged_buffer_settings arg h) (buffered_num_points (this h))
  = inr n ->
  exists h0,
    setup ps md a1 a2 arg st l1 l2 h
    = forR ps (fun '(gate, vals) =>
                _ <~ lift (modify (with_this (fun s =>
                       set_properties (<[gate := vals]> (properties s)) s))) ;;
                forR vals (fun '(parameter, _) => register parameter gate)) h0
    /\ gate_parameters (this h0) = gate_parameters (this h)
    /\ properties (this h0) = properties (this h)
    /\ buffered (this h0) = Some false
    /\ metadata (this h0) = Some md
    /\ buffered_num_points (this h0) = n
    /\ the_buffer_settings h0 = Some (merged_buffer_settings arg h)
    /\ default_buffer_settings h0
       = default_buffer_settings (state_of (update_buffer_settings arg h))
    /\ buffer_settings (this h0)
       = buffer_settings (this (state_of (update_buffer_settings arg h))).
Proof.
  intros Hres.
  unfold setup, Script._set_buffered_num_points.
  unfold merged_buffer_settings in *.
  revert Hres. generalize resolve_num_points. intros rn Hres.
  destruct h as [D [pp gp bs st0 bf bnp md0 out]].
  unfold update_buffer_settings, update_settings, metadata_block, print,
    bindR, lift, modify, retR, the_buffer_settings, update_ref in *.
  destruct bs as [[|d]|], arg as [a|]; cbn in Hres |- *; rewrite Hres; cbn;
    destruct st0; cbn;
    destruct a1, l1; cbn; destruct a2, l2; cbn;
    (eexists; split; [reflexivity|]; cbn; split_and!; reflexivity).
Qed.

Lemma setup_overdefined ps md a1 a2 arg st l1 l2 h e :
  resolve_num_points (merged_buffer_settings arg h) (buffered_num_points (this h))
  = inl e ->
  exists h0,
    setup ps md a1 a2 arg st l1 l2 h = Throw (Builtin e) h0
    /\ gate_parameters (this h0) = gate_parameters (this h)
    /\ properties (this h0) = properties (this h)
    /\ the_buffer_settings h0 = Some (merged_buffer_settings arg h)
    /\ default_buffer_settings h0
       = default_buffer_settings (state_of (update_buffer_settings arg h))
    /\ buffer_settings (this h0)
       = buffer_settings (this (state_of (update_buffer_settings arg h))).
Proof.
  intros Hres.
  unfold setup, Script._set_buffered_num_points.
  unfold merged_buffer_settings in *.
  revert Hres. generalize resolve_num_points. intros rn Hres.
  destruct h as [D [pp gp bs st0 bf bnp md0 out]].
  unfold update_buffer_settings, update_settings, metadata_block, print,
    bindR, lift, modify, retR, the_buffer_settings, update_ref in *.
  destruct bs as [[|d]|], arg as [a|]; cbn in Hres |- *; rewrite Hres; cbn;
    (eexists; split; [reflexivity|]; cbn; split_and!; reflexivity).
Qed.

Lemma setup_loop ps : forall done h,
  well_formed (done ++ ps) -> known_names ps ->
  gate_parameters (this h) = registered done ->
  forR ps (fun '(gate, vals) =>
             _ <~ lift (modify (with_this (fun s =>
                    set_properties (<[gate := vals]> (properties s)) s))) ;;
             forR vals (fun '(parameter, _) => register parameter gate)) h
  = Return tt
      (with_this (fun s =>
         set_gate_parameters (registered (done ++ ps))
           (set_properties (foldl (fun m gv => <[gv.1 := gv.2]> m) (properties s) ps) s))
         h).
Proof.
  induction ps as [|[gate vals] ps IH]; intros done h Hwf Hknown Hstore.
  - cbn [forR foldl]. rewrite app_nil_r, <- Hstore.
    destruct h as [D []]. reflexivity.
  - apply Forall_cons in Hknown as [Hvals Hknown]. simpl in Hvals.
    destruct Hwf as [Hnd Hall].
    assert (Hgate : gate <> "" /\ NoDup (map fst vals)).
    { rewrite Forall_app, Forall_cons in Hall. destruct Hall as (_ & Hg & _).
      exact Hg. }
    destruct Hgate as [Hg Hndv].
    assert (Hfresh : gate ∉ map fst (registered done)).
    { intros Hin. apply registered_keys in Hin.
      rewrite map_app in Hnd. apply NoDup_app in Hnd as (_ & Hdis & _).
      apply (Hdis gate Hin). simpl. by left. }
    cbn [forR]. unfold bindR at 1. unfold bindR at 1.
    unfold lift at 1, modify at 1.
    set (h1 := with_this (fun s => set_properties (<[gate := vals]> (properties s)) s) h).
    rewrite (register_loop gate (registered done) vals [] h1); try done.
    + set (h2 := with_this _ h1).
      rewrite (IH (done ++ [(gate, vals)]) h2).
      * subst h2 h1. rewrite <- app_assoc. destruct h as [D []]. reflexivity.
      * rewrite <- app_assoc. split; assumption.
      * exact Hknown.
      * subst h2 h1. rewrite registered_app. reflexivity.
    + subst h1. cbn. rewrite Hstore. simpl. by rewrite app_nil_r.
Qed.

Lemma foldl_insert_lookup (ps : list (string * list (string * gmap string pyval))) :
  forall (m : gmap string (list (string * gmap string pyval))) gate vals,
  NoDup (map fst ps) -> (gate, vals) ∈ ps ->
  foldl (fun m gv => <[gv.1 := gv.2]> m) m ps !! gate = Some vals.
Proof.
  induction ps as [|[g v] ps IH]; intros m gate vals Hnd Hin; [by inversion Hin|].
  simpl in Hnd. apply NoDup_cons in Hnd as [Hg Hnd].
  apply elem_of_cons in Hin as [[= -> ->]|Hin]; simpl.
  - clear IH. revert m. induction ps as [|[g' v'] ps IH]; intros m; simpl.
    + apply lookup_insert_eq.
    + simpl in Hg. apply not_elem_of_cons in Hg as [Hne Hg].
      apply NoDup_cons in Hnd as [_ Hnd].
      rewrite insert_insert_ne by done. apply IH; assumption.
  - by apply IH.
Qed.

Lemma setup_state ps md a1 a2 arg st l1 l2 h :
  let h' := state_of (setup ps md a1 a2 arg st l1 l2 h) in
  let u := state_of (update_buffer_settings arg h) in
  default_buffer_settings h' = default_buffer_settings u
  /\ buffer_settings (this h') = buffer_settings (this u)
  /\ the_buffer_settings h' = Some (merged_buffer_settings arg h)
  /\ (forall n,
        resolve_num_points (merged_buffer_settings arg h)
          (buffered_num_points (this h)) = inr n ->
        buffered_num_points (this h') = n).
Proof.
  intros h' u. subst h' u.
  destruct (resolve_num_points (merged_buffer_settings arg h)
              (buffered_num_points (this h))) as [e|n] eqn:Hres.
  - destruct (setup_overdefined ps md a1 a2 arg st l1 l2 h e Hres)
      as (h0 & -> & _ & _ & Hbs & Hd & Hr).
    simpl. split_and!; [exact Hd|exact Hr|exact Hbs|done].
  - destruct (setup_preamble ps md a1 a2 arg st l1 l2 h n Hres)
      as (h0 & -> & _ & _ & _ & _ & Hn & Hbs & Hd & Hr).
    destruct (loop_shape ps h0) as (gp & pr & ->).
    unfold the_buffer_settings in *. destruct h0 as [D0 []]. simpl in *.
    split_and!; [exact Hd|exact Hr|exact Hbs|]. intros n' [= <-]. exact Hn.
Qed.

Lemma all_three_union (new old : gmap string pyval) :
  all_three old -> all_three (new ∪ old).
Proof.
  unfold all_three. rewrite !lookup_union_is_Some. tauto.
Qed.

Lemma resolve_all_three d c :
  all_three d -> resolve_num_points d c = inl (PyException overdefined_message).
Proof.
  intros H. unfold resolve_num_points.
  rewrite set_points_all_three by exact H. reflexivity.
Qed.

End SetupFacts.

(** X18.  On an instance without registered gate parameters, [setup] with
    a dictionary of gates whose names are not empty, known parameter names
    and buffer settings that resolve returns: [self.gate_parameters] then
    holds, in the order of the argument, one dictionary per gate that has
    parameters, every parameter without a channel (a gate without
    parameters is not registered); [self.properties] holds every gate of
    the argument; [buffered] is [False], the metadata is the argument, the
    point count is the resolved one and the buffer settings are the merged
    ones. *)
Theorem setup_registers_parameters
    (ps : list (string * list (string * gmap string pyval))) (md : Metadata)
    (a1 a2 : bool) (arg : option (gmap string pyval)) (st : gmap string pyval)
    (l1 l2 : option string) (h : Script.heap) (n : option pyval) :
  Script.gate_parameters (Script.this h) = [] ->
  Script.well_formed ps -> known_names ps ->
  resolve_num_points (merged_buffer_settings arg h)
    (Script.buffered_num_points (Script.this h)) = inr n ->
  exists h',
    Script.setup ps md a1 a2 arg st l1 l2 h = Return tt h'
    /\ Script.gate_parameters (Script.this h') = Script.registered ps
    /\ (forall gate vals, (gate, vals) ∈ ps ->
          Script.properties (Script.this h') !! gate = Some vals)
    /\ Script.buffered (Script.this h') = Some false
    /\ Script.metadata (Script.this h') = Some md
    /\ Script.buffered_num_points (Script.this h') = n
    /\ Script.the_buffer_settings h' = Some (merged_buffer_settings arg h).
Proof.
  intros Hfresh Hwf Hknown Hres.
  destruct (SetupFacts.setup_preamble ps md a1 a2 arg st l1 l2 h n Hres)
    as (h0 & -> & Hgp & Hpp & Hbf & Hmd & Hn & Hbs & _ & _).
  rewrite (SetupFacts.setup_loop ps [] h0 Hwf Hknown) by (rewrite Hgp; exact Hfresh).
  eexists. split; [reflexivity|].
  unfold Script.the_buffer_settings in *. destruct h0 as [D0 []]. simpl in *.
  split_and!; try done.
  intros gate vals Hin. apply SetupFacts.foldl_insert_lookup; [|exact Hin].
  exact (proj1 Hwf).
Qed.

Lemma setup_registers_parameters_witness :
  exists h',
    Script.setup
      [("topgate", [("voltage", swept "dynamic")]); ("spare", []);
       ("sensor", [("current", {[ "type" := PStr "gettable" ]})])]
      {| measurement := None; db_fault := None; db_saves := 0 |}
      false false None ∅ None None
      {| Script.default_buffer_settings := ∅; Script.this := Script.__init__ |}
    = Return tt h'
    /\ Script.gate_parameters (Script.this h')
       = [("topgate", Script.GateDict [("voltage", None)]);
          ("sensor", Script.GateDict [("current", None)])].
Proof.
  destruct (setup_registers_parameters
              [("topgate", [("voltage", swept "dynamic")]); ("spare", []);
               ("sensor", [("current", {[ "type" := PStr "gettable" ]})])]
              {| measurement := None; db_fault := None; db_saves := 0 |}
              false false None ∅ None None
              {| Script.default_buffer_settings := ∅; Script.this := Script.__init__ |}
              None)
    as (h' & H1 & H2 & _).
  - reflexivity.
  - split.
    + apply (bool_decide_unpack _). vm_compute. exact I.
    + repeat constructor; simpl; try discriminate;
        apply (bool_decide_unpack _); vm_compute; exact I.
  - repeat constructor; simpl; apply (bool_decide_unpack _); vm_compute; exact I.
  - vm_compute. reflexivity.
  - exists h'. split; [exact H1|]. rewrite H2. reflexivity.
Defined.

(** X19.  [setup] stops at the first parameter name that is not known:
    it raises [NameError] for it.  By then the properties of that gate
    and of the gates in front of it are stored, and the gates in front of
    it and the parameters in front of the name are registered; what
    follows is not looked at: [self.properties] is what it was with
    exactly these gates written over it, and [self.gate_parameters] holds
    exactly these registrations. *)
Theorem setup_rejects_unknown_name
    (pre : list (string * list (string * gmap string pyval))) (gate : string)
    (vpre : list (string * gmap string pyval)) (n : string) (pr : gmap string pyval)
    (vpost : list (string * gmap string pyval))
    (post : list (string * list (string * gmap string pyval)))
    (md : Metadata) (a1 a2 : bool) (arg : option (gmap string pyval))
    (st : gmap string pyval) (l1 l2 : option string) (h : Script.heap)
    (m : option pyval) :
  Script.gate_parameters (Script.this h) = [] ->
  Script.well_formed (pre ++ [(gate, vpre)]) ->
  known_names (pre ++ [(gate, vpre)]) ->
  n ∉ Script.PARAMETER_NAMES ->
  resolve_num_points (merged_buffer_settings arg h)
    (Script.buffered_num_points (Script.this h)) = inr m ->
  exists h',
    Script.setup (pre ++ (gate, vpre ++ (n, pr) :: vpost) :: post)
      md a1 a2 arg st l1 l2 h
    = Throw (Script.name_error n) h'
    /\ Script.gate_parameters (Script.this h')
       = Script.registered (pre ++ [(gate, vpre)])
    /\ Script.properties (Script.this h') !! gate = Some (vpre ++ (n, pr) :: vpost)
    /\ Script.properties (Script.this h')
       = <[gate := vpre ++ (n, pr) :: vpost]>
           (foldl (fun m gv => <[gv.1 := gv.2]> m)
              (Script.properties (Script.this h)) pre).
Proof.
  intros Hfresh [Hnd Hall] Hknown Hn Hres.
  apply Forall_app in Hall as [Hallpre Hg]. apply Forall_cons in Hg as [[Hg Hndv] _].
  apply Forall_app in Hknown as [Hkpre Hkv]. apply Forall_cons in Hkv as [Hkv _].
  simpl in Hg, Hndv, Hkv.
  assert (Hndpre : NoDup (map fst pre)).
  { rewrite map_app in Hnd. by apply NoDup_app in Hnd as (? & _ & _). }
  assert (Hgfresh : gate ∉ map fst (Script.registered pre)).
  { intros Hin. apply ScriptFacts.registered_keys in Hin.
    rewrite map_app in Hnd. apply NoDup_app in Hnd as (_ & Hdis & _).
    apply (Hdis gate Hin). simpl. by left. }
  destruct (SetupFacts.setup_preamble
              (pre ++ (gate, vpre ++ (n, pr) :: vpost) :: post)
              md a1 a2 arg st l1 l2 h m Hres)
    as (h0 & -> & Hgp & Hpp & _).
  rewrite ScriptFacts.forR_app. unfold bindR at 1.
  rewrite (SetupFacts.setup_loop pre [] h0); [|split; assumption|exact Hkpre
                                              |rewrite Hgp; exact Hfresh].
  cbn [forR]. unfold bindR at 1. unfold bindR at 1.
  unfold lift at 1, modify at 1.
  rewrite (ScriptFacts.register_loop_rejects gate (Script.registered pre)
             vpre n pr vpost); try done.
  eexists. split; [reflexivity|].
  destruct h0 as [D0 []]. simpl in *. split_and!.
  - by rewrite ScriptFacts.registered_app.
  - apply lookup_insert_eq.
  - by rewrite Hpp.
Qed.

Lemma setup_rejects_unknown_name_witness :
  exists h',
    Script.setup
      [("topgate", [("voltage", swept "dynamic"); ("resistance", ∅)]);
       ("sensor", [("current", ∅)])]
      {| measurement := None; db_fault := None; db_saves := 0 |}
      false false None ∅ None None
      {| Script.default_buffer_settings := ∅; Script.this := Script.__init__ |}
    = Throw (Script.name_error "resistance") h'
    /\ Script.gate_parameters (Script.this h')
       = [("topgate", Script.GateDict [("voltage", None)])]
    /\ Script.properties (Script.this h') !! "sensor" = None.
Proof.
  destruct (setup_rejects_unknown_name [] "topgate" [("voltage", swept "dynamic")]
              "resistance" ∅ [] [("sensor", [("current", ∅)])]
              {| measurement := None; db_fault := None; db_saves := 0 |}
              false false None ∅ None None
              {| Script.default_buffer_settings := ∅; Script.this := Script.__init__ |}
              None)
    as (h' & H1 & H2 & _ & H3).
  - reflexivity.
  - split.
    + apply (bool_decide_unpack _). vm_compute. exact I.
    + repeat constructor; simpl; try discriminate;
        apply (bool_decide_unpack _); vm_compute; exact I.
  - repeat constructor; simpl; apply (bool_decide_unpack _); vm_compute; exact I.
  - apply (bool_decide_unpack _). vm_compute. exact I.
  - vm_compute. reflexivity.
  - exists h'. split; [exact H1|]. split; [rewrite H2; reflexivity|].
    rewrite H3. vm_compute. reflexivity.
Defined.

(** X20.  The buffer settings of an instance accumulate over the calls of
    [setup]: after a call, whether it returned or raised, they are the
    argument merged over what they were.  No key ever leaves them, so once
    ["sampling_rate"], ["burst_duration"] and ["num_points"] are all
    present, this and every later call of [setup] raises the exception
    about the overdefined point count, whatever its arguments, before any
    gate parameter or property is touched. *)
Theorem setup_buffer_settings_accumulate
    (ps : list (string * list (string * gmap string pyval))) (md : Metadata)
    (a1 a2 : bool) (arg : option (gmap string pyval)) (st : gmap string pyval)
    (l1 l2 : option string) (h : Script.heap) :
  let o := Script.setup ps md a1 a2 arg st l1 l2 h in
  Script.the_buffer_settings (state_of o) = Some (merged_buffer_settings arg h)
  /\ (forall old, Script.the_buffer_settings h = Some old ->
        all_three old -> all_three (merged_buffer_settings arg h))
  /\ (all_three (merged_buffer_settings arg h) ->
      thrown o = Some (Builtin (PyException overdefined_message))
      /\ Script.gate_parameters (Script.this (state_of o))
         = Script.gate_parameters (Script.this h)
      /\ Script.properties (Script.this (state_of o))
         = Script.properties (Script.this h)).
Proof.
  intros o. subst o. split_and!.
  - exact (proj1 (proj2 (proj2 (SetupFacts.setup_state ps md a1 a2 arg st l1 l2 h)))).
  - intros old Hold H3. unfold merged_buffer_settings, Script.the_buffer_settings in *.
    destruct (Script.buffer_settings (Script.this h)) as [r|]; [|done].
    injection Hold as <-. by apply SetupFacts.all_three_union.
  - intros H3.
    destruct (SetupFacts.setup_overdefined ps md a1 a2 arg st l1 l2 h _
                (SetupFacts.resolve_all_three _ _ H3))
      as (h0 & -> & Hgp & Hpp & _).
    simpl. split_and!; [reflexivity|exact Hgp|exact Hpp].
Qed.

(** X21.  The default value of the argument [buffer_settings] of [setup]
    is one dictionary shared by all instances.  An instance [A] that calls
    [setup] without buffer settings and then with the settings [d] writes
    [d] into that dictionary; a new instance [B] that calls [setup]
    without buffer settings then finds [d] merged over the old default in
    its own buffer settings, and its point count is resolved from them. *)
Theorem setup_default_buffer_settings_shared
    (D d : gmap string pyval)
    (psA psA' psB : list (string * list (string * gmap string pyval)))
    (mdA mdA' mdB : Metadata) (a1 a2 a1' a2' b1 b2 : bool)
    (stA stA' stB : gmap string pyval) (l1 l2 l1' l2' m1 m2 : option string) :
  let new D := {| Script.default_buffer_settings := D;
                  Script.this := Script.__init__ |} in
  let hA1 := state_of (Script.setup psA mdA a1 a2 None stA l1 l2 (new D)) in
  let hA2 := state_of (Script.setup psA' mdA' a1' a2' (Some d) stA' l1' l2' hA1) in
  let hB := state_of (Script.setup psB mdB b1 b2 None stB m1 m2
                        (new (Script.default_buffer_settings hA2))) in
  Script.default_buffer_settings hA2 = d ∪ D
  /\ Script.the_buffer_settings hB = Some (d ∪ D)
  /\ forall n, resolve_num_points (d ∪ D) None = inr n ->
               Script.buffered_num_points (Script.this hB) = n.
Proof.
  intros new hA1 hA2 hB.
  destruct (SetupFacts.setup_state psA mdA a1 a2 None stA l1 l2 (new D))
    as (HdA1 & HrA1 & _ & _).
  fold hA1 in HdA1, HrA1. simpl in HdA1, HrA1.
  destruct (SetupFacts.setup_state psA' mdA' a1' a2' (Some d) stA' l1' l2' hA1)
    as (HdA2 & _ & _ & _).
  fold hA2 in HdA2.
  assert (Hshared : Script.default_buffer_settings hA2 = d ∪ D).
  { rewrite HdA2. unfold Script.update_buffer_settings, lift, modify. simpl.
    rewrite HrA1. simpl. by rewrite HdA1. }
  destruct (SetupFacts.setup_state psB mdB b1 b2 None stB m1 m2
              (new (Script.default_buffer_settings hA2)))
    as (_ & _ & HbsB & HnB).
  fold hB in HbsB, HnB. unfold merged_buffer_settings in HbsB, HnB. simpl in HbsB, HnB.
  rewrite Hshared in HbsB, HnB.
  split_and!; [exact Hshared|exact HbsB|exact HnB].
Qed.

Lemma setup_buffer_settings_accumulate_witness :
  thrown (Script.setup [] metadata0 false false (Some settings_zero_points_and_pair)
            ∅ None None (new_script ∅))
  = Some (Builtin (PyException overdefined_message)).
Proof.
  apply (proj2 (proj2 (setup_buffer_settings_accumulate [] metadata0 false false
                         (Some settings_zero_points_and_pair) ∅ None None
                         (new_script ∅)))).
  vm_compute. split_and!; eexists; reflexivity.
Defined.

Lemma setup_default_buffer_settings_shared_witness :
  let hA1 := state_of (Script.setup [] metadata0 false false None ∅ None None
                         (new_script ∅)) in
  let hA2 := state_of (Script.setup [] metadata0 false false
                         (Some settings_hundred_points) ∅ None None hA1) in
  let hB := state_of (Script.setup [] metadata0 false false None ∅ None None
                        (new_script (Script.default_buffer_settings hA2))) in
  Script.buffered_num_points (Script.this hB) = Some (PInt 100).
Proof.
  apply (proj2 (proj2 (setup_default_buffer_settings_shared ∅ settings_hundred_points
                         [] [] [] metadata0 metadata0 metadata0
                         false false false false false false ∅ ∅ ∅
                         None None None None None None))).
  vm_compute. reflexivity.
Defined.

(** ** [initialize]: the partitions *)

Lemma initialize_static_Ok rr rt si g k c w w' p :
  initialize_static rr rt si g k c w = Ok tt w' -> parts w = Some p ->
  parts w' = Some (with_static_parameters (fun l => l ++ [(g, k)]) p).
Proof.
  intros H Hp. unfold initialize_static in H.
  apply bind_Ok in H as (v & w1 & Hv & H). rewrite prop_eq in Hv.
  destruct (property_of g k "value" w); [done|]. injection Hv as <- <-.
  apply bind_Ok in H as ([] & w2 & Hr & H).
  unfold ramp_or_set_parameter, bind, modify in Hr. injection Hr as <-.
  apply bind_Ok in H as (v' & w3 & Hv & H). rewrite prop_eq in Hv.
  destruct (property_of g k "value" _); [done|]. injection Hv as <- <-.
  apply bind_Ok in H as ([] & w4 & Hr & H).
  unfold ramp_or_set_parameter, bind, modify in Hr. injection Hr as <-.
  apply update_parts_Ok in H as (q & Hq & ->). simpl in Hq. simplify_eq.
  reflexivity.
Qed.

Lemma initialize_dynamic_parts_Ok rr rt si g k c w w' p :
  initialize_dynamic rr rt si g k c w = Ok tt w' -> parts w = Some p ->
  exists s,
    sweep_param s = c
    /\ parts w' = Some (with_dynamic_sweeps (fun l => l ++ [s])
                          (with_dynamic_channels (fun l => l ++ [c])
                             (with_dynamic_parameters (fun l => l ++ [(g, k)]) p))).
Proof.
  intros Hrun Hp. unfold initialize_dynamic in Hrun.
  apply bind_Ok in Hrun as ([] & w1 & H1 & Hrun).
  rewrite ramp_to_start_eq in H1.
  destruct (start_target g k w) as [e|v]; [done|]. injection H1 as <-.
  apply bind_Ok in Hrun as ([] & w2 & H2 & Hrun).
  apply update_parts_Ok in H2 as (p1 & Hp1 & ->). simpl in Hp1. simplify_eq.
  apply bind_Ok in Hrun as ([] & w3 & H3 & Hrun).
  apply update_parts_Ok in H3 as (p2 & Hp2 & ->). simpl in Hp2. simplify_eq.
  apply bind_Ok in Hrun as (b & w4 & H4 & Hrun).
  injection H4 as <- <-. simpl in Hrun.
  destruct (buffered w) eqn:Hb.
  - eapply buffered_sweep_Ok in Hrun as (s & Hp' & Hs & _); [|reflexivity].
    exists s. split; [exact Hs|exact Hp'].
  - eapply unbuffered_sweep_Ok in Hrun as (s & Hp' & Hs); [|reflexivity].
    exists s. split; [exact Hs|exact Hp'].
Qed.

Lemma tagged_role w role g k c b :
  role_in g k role w = inr b -> tagged w role (g, k, c) = b.
Proof. unfold tagged. simpl. by intros ->. Qed.

(** What one pass of the loop body adds to the derived lists. *)
Lemma initialize_parameter_lists rr rt si g k c w0 w w' p :
  (forall r, role_in g k r w = role_in g k r w0) ->
  initialize_parameter rr rt si g k c w = Ok tt w' -> parts w = Some p ->
  exists p',
    parts w' = Some p'
    /\ static_parameters p'
       = static_parameters p
         ++ map item_key (List.filter (tagged w0 "static") [(g, k, c)])
    /\ gettable_parameters p'
       = gettable_parameters p
         ++ map item_key (List.filter (tagged w0 "gettable") [(g, k, c)])
    /\ gettable_channels p'
       = gettable_channels p
         ++ map item_channel (List.filter (tagged w0 "gettable") [(g, k, c)])
    /\ dynamic_parameters p'
       = dynamic_parameters p
         ++ map item_key (List.filter (swept_item w0) [(g, k, c)])
    /\ dynamic_channels p'
       = dynamic_channels p
         ++ map item_channel (List.filter (swept_item w0) [(g, k, c)])
    /\ map sweep_param (dynamic_sweeps p')
       = map sweep_param (dynamic_sweeps p)
         ++ map item_channel (List.filter (swept_item w0) [(g, k, c)]).
Proof.
  intros Hroles H Hp. unfold initialize_parameter in H.
  apply bind_Ok in H as (bs & ? & Hs & H). apply has_role_Ok in Hs as [-> Hbs].
  apply bind_Ok in H as ([] & w1 & Hst & H).
  assert (Hw1 : (forall r, role_in g k r w1 = role_in g k r w)
                /\ parts w1 = Some (if bs
                                    then with_static_parameters (fun l => l ++ [(g, k)]) p
                                    else p)).
  { destruct bs.
    - split.
      + intros r. apply role_in_declared.
        pose proof (initialize_static_keeps g k c rr rt si g k "type" w) as Hk.
        by rewrite Hst in Hk.
      + by eapply initialize_static_Ok.
    - injection Hst as <-. by split. }
  destruct Hw1 as [Hroles1 Hp1].
  apply bind_Ok in H as (bg & ? & Hg & H). apply has_role_Ok in Hg as [-> Hbg].
  rewrite Hroles1 in Hbg.
  rewrite Hroles in Hbs, Hbg.
  unfold swept_item. cbn [List.filter].
  rewrite (tagged_role _ _ _ _ c _ Hbs), (tagged_role _ _ _ _ c _ Hbg).
  destruct bg.
  - eapply initialize_gettable_Ok in H as (p' & Hp' & H1 & H2 & H3 & H4 & H5 & H6);
      [|exact Hp1].
    exists p'. rewrite andb_false_r. rewrite H1, H2, H3, H4, H5, H6.
    destruct bs; simpl; rewrite ?app_nil_r; split_and!; done.
  - apply bind_Ok in H as (bd & ? & Hd & H). apply has_role_Ok in Hd as [-> Hbd].
    rewrite Hroles1, Hroles in Hbd.
    rewrite (tagged_role _ _ _ _ c _ Hbd).
    destruct bd.
    + eapply initialize_dynamic_parts_Ok in H as (s & Hs & Hp'); [|exact Hp1].
      eexists. split; [exact Hp'|].
      destruct bs; simpl; rewrite ?app_nil_r, ?map_app; simpl; rewrite ?Hs;
        split_and!; done.
    + injection H as <-. eexists. split; [exact Hp1|].
      destruct bs; simpl; rewrite ?app_nil_r; split_and!; done.
Qed.

Lemma filter_cons_app {A} (f : A -> bool) x l :
  List.filter f (x :: l) = List.filter f [x] ++ List.filter f l.
Proof. simpl. by destruct (f x). Qed.

Lemma initialize_loop_lists rr rt si w0 its : forall s s' p,
  for_ its (fun '(gate, parameter, channel) =>
              initialize_parameter rr rt si gate parameter channel) s = Ok tt s' ->
  (forall g k r, role_in g k r s = role_in g k r w0) ->
  parts s = Some p ->
  exists p',
    parts s' = Some p'
    /\ static_parameters p'
       = static_parameters p ++ map item_key (List.filter (tagged w0 "static") its)
    /\ gettable_parameters p'
       = gettable_parameters p ++ map item_key (List.filter (tagged w0 "gettable") its)
    /\ gettable_channels p'
       = gettable_channels p
         ++ map item_channel (List.filter (tagged w0 "gettable") its)
    /\ dynamic_parameters p'
       = dynamic_parameters p ++ map item_key (List.filter (swept_item w0) its)
    /\ dynamic_channels p'
       = dynamic_channels p ++ map item_channel (List.filter (swept_item w0) its)
    /\ map sweep_param (dynamic_sweeps p')
       = map sweep_param (dynamic_sweeps p)
         ++ map item_channel (List.filter (swept_item w0) its).
Proof.
  induction its as [|[[g k] c] its IH]; intros s s' p Hrun Hroles Hp.
  - injection Hrun as <-. exists p. simpl. rewrite !app_nil_r.
    split_and!; done.
  - cbn [for_] in Hrun. apply bind_Ok in Hrun as ([] & s1 & Hstep & Hrun).
    destruct (initialize_parameter_lists rr rt si g k c w0 s s1 p
                (fun r => Hroles g k r) Hstep Hp)
      as (p1 & Hp1 & H1 & H2 & H3 & H4 & H5 & H6).
    assert (Hroles1 : forall g' k' r, role_in g' k' r s1 = role_in g' k' r w0).
    { intros g' k' r. rewrite <- Hroles.
      pose proof (initialize_parameter_role rr rt si g k c g' k' r s) as Hr.
      by rewrite Hstep in Hr. }
    destruct (IH s1 s' p1 Hrun Hroles1 Hp1)
      as (p' & Hp' & G1 & G2 & G3 & G4 & G5 & G6).
    exists p'. split; [exact Hp'|].
    rewrite (filter_cons_app (tagged w0 "static")),
      (filter_cons_app (tagged w0 "gettable")),
      (filter_cons_app (swept_item w0)).
    rewrite !map_app.
    split_and!.
    + by rewrite G1, H1, app_assoc.
    + by rewrite G2, H2, app_assoc.
    + by rewrite G3, H3, app_assoc.
    + by rewrite G4, H4, app_assoc.
    + by rewrite G5, H5, app_assoc.
    + by rewrite G6, H6, app_assoc.
Qed.

(** X22.  When [initialize] returns, the derived lists are the items of
    the configuration, in the order of the two nested loops, filtered by
    role: the static parameters are the items tagged static, the gettable
    parameters and channels the items tagged gettable, the dynamic
    parameters and channels the items tagged dynamic and not gettable, and
    there is one sweep for each of the latter, in the same order: the
    channels the sweeps run over are the dynamic channels. *)
Theorem initialize_partitions_by_role (w w' : world) :
  initialize w = Ok tt w' ->
  let its := items (gate_parameters w) in
  exists p,
    parts w' = Some p
    /\ static_parameters p = map item_key (List.filter (tagged w "static") its)
    /\ gettable_parameters p = map item_key (List.filter (tagged w "gettable") its)
    /\ gettable_channels p = map item_channel (List.filter (tagged w "gettable") its)
    /\ dynamic_parameters p = map item_key (List.filter (swept_item w) its)
    /\ dynamic_channels p = map item_channel (List.filter (swept_item w) its)
    /\ length (dynamic_sweeps p) = length (dynamic_parameters p)
    /\ map sweep_param (dynamic_sweeps p) = dynamic_channels p.
Proof.
  intros Hrun its.
  destruct (initialize_Ok w w' Hrun) as (rr & rt & si & w1 & Hloop & Hparts).
  destruct (initialize_loop_lists rr rt si w its _ w1 empty_partitions Hloop)
    as (p1 & Hp1 & H1 & H2 & H3 & H4 & H5 & H6); [done|done|].
  simpl in H1, H2, H3, H4, H5, H6.
  pose proof (Hparts _ static_parameters (fun _ _ => eq_refl)) as E1.
  pose proof (Hparts _ gettable_parameters (fun _ _ => eq_refl)) as E2.
  pose proof (Hparts _ gettable_channels (fun _ _ => eq_refl)) as E3.
  pose proof (Hparts _ dynamic_parameters (fun _ _ => eq_refl)) as E4.
  pose proof (Hparts _ dynamic_channels (fun _ _ => eq_refl)) as E5.
  pose proof (Hparts _ dynamic_sweeps (fun _ _ => eq_refl)) as E6.
  unfold part_of in *. rewrite Hp1 in *.
  destruct (parts w') as [p|]; [|done]. exists p. simpl in *.
  injection E1 as E1. injection E2 as E2. injection E3 as E3.
  injection E4 as E4. injection E5 as E5. injection E6 as E6.
  rewrite E1, E2, E3, E4, E5, E6, H1, H2, H3, H4, H5.
  split_and!; try done.
  rewrite <- (length_map sweep_param), H6. by rewrite !length_map.
Qed.

Lemma initialize_partitions_by_role_witness :
  exists p,
    parts (final_state (initialize lab_static_and_dynamic)) = Some p
    /\ static_parameters p = [("barrier", "voltage")]
    /\ dynamic_parameters p = [("topgate", "voltage")]
    /\ map sweep_param (dynamic_sweeps p) = [topgate_voltage].
Proof.
  assert (H : initialize lab_static_and_dynamic
              = Ok tt (final_state (initialize lab_static_and_dynamic)))
    by (vm_compute; reflexivity).
  destruct (initialize_partitions_by_role _ _ H)
    as (p & Hp & H1 & _ & _ & H4 & H5 & _ & H7).
  exists p. split; [exact Hp|]. split_and!.
  - rewrite H1. vm_compute. reflexivity.
  - rewrite H4. vm_compute. reflexivity.
  - rewrite H7, H5. vm_compute. reflexivity.
Defined.

(** ** [initialize]: subscriptions and labels *)

(** [initialize] in three steps: the loop over the configuration, the
    subscription of the gettable channels, the relabelling. *)
Lemma initialize_steps w :
  initialize w
  = match for_ (items (gate_parameters w))
            (fun '(gate, parameter, channel) =>
               initialize_parameter
                 (default (PFloat (3 # 10)) (settings w !! "ramp_rate"))
                 (default (PInt 5) (settings w !! "ramp_time"))
                 (default (PFloat (1 # 10)) (settings w !! "setpoint_intervall"))
                 gate parameter channel)
            (with_parts (fun _ => Some empty_partitions) w)
    with
    | Raise e w1 => Raise e w1
    | Ok _ w1 =>
        match (if buffered w1 then
                 channels <- get_parts gettable_channels ;;
                 bs <- eval (buffers_of channels) ;;
                 update_parts (with_buffers (fun _ => bs)) ;;
                 channels <- get_parts gettable_channels ;;
                 for_ channels subscribe_gettable
               else ret tt) w1
        with
        | Raise e w2 => Raise e w2
        | Ok _ w2 => _relabel_instruments w2
        end
    end.
Proof.
  unfold initialize.
  unfold bind at 1. unfold modify at 1.
  unfold bind at 1. unfold setting at 1, gets at 1.
  unfold bind at 1. unfold setting at 1, gets at 1.
  unfold bind at 1. unfold setting at 1, gets at 1.
  unfold bind at 1. unfold gets at 1.
  unfold bind at 1.
  rewrite for_nested.
  cbn [settings gate_parameters with_parts].
  destruct (for_ _ _ _) as [[] w1|e w1]; [|reflexivity].
  unfold bind at 1. unfold gets at 1.
  unfold bind at 1. reflexivity.
Qed.

Lemma preserves_part_update {A} (f : partitions -> A) g :
  (forall q, f (g q) = f q) -> preserves (part_of f) (update_parts g).
Proof.
  intros Hf w. unfold update_parts, part_of.
  destruct (parts w) as [p|] eqn:Hp; simpl; [|by rewrite Hp].
  by rewrite Hf.
Qed.

(** The loop body leaves the buffer set of the derived lists alone. *)
Lemma initialize_parameter_buffers rr rt si g k c :
  preserves (part_of buffers) (initialize_parameter rr rt si g k c).
Proof.
  unfold initialize_parameter, initialize_static, initialize_gettable,
    initialize_dynamic, ramp_to_start, buffered_sweep, unbuffered_sweep,
    append_sweep.
  repeat first [ apply preserves_part_update; intros; reflexivity | frame_step ].
Qed.

Lemma initialize_loop_frame {X} (f : world -> X) rr rt si its w :
  (forall h w, f (with_values h w) = f w) ->
  (forall h w, f (with_ramp_calls h w) = f w) ->
  (forall h w, f (with_parts h w) = f w) ->
  (forall h w, f (with_properties h w) = f w) ->
  f (final_state
       (for_ its (fun '(gate, parameter, channel) =>
                    initialize_parameter rr rt si gate parameter channel) w))
  = f w.
Proof.
  intros H1 H2 H3 H4.
  apply (preserves_for f). intros [[g k] c].
  apply initialize_parameter_frame; try assumption.
  intros d. apply preserves_setdefault. assumption.
Qed.

Lemma relabel_loop its : forall s,
  for_ its (fun '(gate, key, parameter) =>
              modify (with_labels
                        (fun l => <[p_id parameter := (gate ++ " " ++ key)%string]> l))) s
  = Ok tt (with_labels
             (fun l => foldl (fun l i => <[p_id i.2 := (i.1.1 ++ " " ++ i.1.2)%string]> l)
                         l its) s).
Proof.
  induction its as [|[[g k] c] its IH]; intros s.
  - destruct s. reflexivity.
  - cbn [for_ foldl]. unfold bind, modify at 1. rewrite IH. reflexivity.
Qed.

Lemma relabel_eq w :
  _relabel_instruments w
  = Ok tt (with_labels
             (fun l => foldl (fun l i => <[p_id i.2 := (i.1.1 ++ " " ++ i.1.2)%string]> l)
                         l (items (gate_parameters w))) w).
Proof.
  unfold _relabel_instruments. unfold bind at 1, gets at 1.
  rewrite (for_nested (gate_parameters w)
             (fun gate key parameter =>
                modify (with_labels
                          (fun l => <[p_id parameter := (gate ++ " " ++ key)%string]> l)))).
  apply relabel_loop.
Qed.

Lemma foldl_label_lookup (its : list (string * string * Param)) :
  forall (l : gmap nat string),
  (forall g k c, NoDup (map (fun i => p_id i.2) its) -> (g, k, c) ∈ its ->
     foldl (fun l i => <[p_id i.2 := (i.1.1 ++ " " ++ i.1.2)%string]> l) l its
       !! p_id c = Some (g ++ " " ++ k)%string)
  /\ (forall n, n ∉ map (fun i => p_id i.2) its ->
        foldl (fun l i => <[p_id i.2 := (i.1.1 ++ " " ++ i.1.2)%string]> l) l its !! n
        = l !! n).
Proof.
  induction its as [|[[g0 k0] c0] its IH]; intros l.
  - split; [intros g k c _ Hin; by inversion Hin|done].
  - destruct (IH (<[p_id c0 := (g0 ++ " " ++ k0)%string]> l)) as [IH1 IH2].
    split.
    + intros g k c Hnd Hin. simpl in Hnd. apply NoDup_cons in Hnd as [Hfresh Hnd].
      apply elem_of_cons in Hin as [[= -> -> ->]|Hin]; simpl.
      * rewrite IH2 by exact Hfresh. apply lookup_insert_eq.
      * by apply IH1.
    + intros n Hn. simpl in Hn. apply not_elem_of_cons in Hn as [Hne Hn]. simpl.
      rewrite IH2 by exact Hn. by rewrite lookup_insert_ne.
Qed.

Lemma subscription_frame {X} (f : world -> X) (b : bool) :
  (forall h w, f (with_parts h w) = f w) ->
  (forall h w, f (with_buffer_calls h w) = f w) ->
  (forall h w, f (with_buffer_objects h w) = f w) ->
  preserves f
    (if b then
       channels <- get_parts gettable_channels ;;
       bs <- eval (buffers_of channels) ;;
       update_parts (with_buffers (fun _ => bs)) ;;
       channels <- get_parts gettable_channels ;;
       for_ channels subscribe_gettable
     else ret tt).
Proof.
  intros H1 H2 H3. destruct b; [|apply preserves_ret].
  unfold subscribe_gettable. frame.
Qed.

(** X23.  When [initialize] returns, every channel of the configuration
    is labelled with its gate and parameter name, separated by a blank
    (channel objects taken to be distinct), and the label of every other
    channel is as before.  (The configuration of the model holds channels
    only: every parameter has been mapped.) *)
Theorem initialize_relabels_channels (w w' : world) :
  initialize w = Ok tt w' ->
  (forall g k c,
      NoDup (map (fun i => p_id i.2) (items (gate_parameters w))) ->
      (g, k, c) ∈ items (gate_parameters w) ->
      label_of (labels w') c = (g ++ " " ++ k)%string)
  /\ (forall c,
        p_id c ∉ map (fun i => p_id i.2) (items (gate_parameters w)) ->
        label_of (labels w') c = label_of (labels w) c).
Proof.
  intros Hrun. rewrite initialize_steps in Hrun. revert Hrun.
  set (rr := default _ _). set (rt := default _ _). set (si := default _ _).
  pose proof (initialize_loop_frame labels rr rt si (items (gate_parameters w))
                (with_parts (fun _ => Some empty_partitions) w)
                (fun _ _ => eq_refl) (fun _ _ => eq_refl) (fun _ _ => eq_refl)
                (fun _ _ => eq_refl)) as Hl.
  pose proof (initialize_loop_frame gate_parameters rr rt si (items (gate_parameters w))
                (with_parts (fun _ => Some empty_partitions) w)
                (fun _ _ => eq_refl) (fun _ _ => eq_refl) (fun _ _ => eq_refl)
                (fun _ _ => eq_refl)) as Hg.
  set (o := for_ (items (gate_parameters w)) _ (with_parts _ w)) in *.
  destruct o as [[] w1|e w1]; simpl in Hl, Hg; [|done].
  pose proof (subscription_frame labels (buffered w1)
                (fun _ _ => eq_refl) (fun _ _ => eq_refl) (fun _ _ => eq_refl) w1) as Hl2.
  pose proof (subscription_frame gate_parameters (buffered w1)
                (fun _ _ => eq_refl) (fun _ _ => eq_refl) (fun _ _ => eq_refl) w1) as Hg2.
  match type of Hl2 with
  | labels (final_state ?o2) = _ => destruct o2 as [[] w2|e w2]
  end; simpl in Hl2, Hg2; [|done].
  rewrite relabel_eq. intros [= <-]. simpl. rewrite Hg2, Hg, Hl2, Hl.
  destruct (foldl_label_lookup (items (gate_parameters w)) (labels w)) as [F1 F2].
  split.
  - intros g k c Hnd Hin. unfold label_of. by rewrite (F1 g k c Hnd Hin).
  - intros c Hc. unfold label_of. by rewrite (F2 _ Hc).
Qed.

Lemma initialize_relabels_channels_witness :
  label_of (labels (final_state (initialize lab_dynamic_gettable))) topgate_voltage
  = "topgate voltage".
Proof.
  assert (Hrun : initialize lab_dynamic_gettable
                 = Ok tt (final_state (initialize lab_dynamic_gettable)))
    by (vm_compute; reflexivity).
  destruct (initialize_relabels_channels _ _ Hrun) as [H _].
  apply (H "topgate" "voltage" topgate_voltage).
  - apply (bool_decide_unpack _). vm_compute. exact I.
  - apply (bool_decide_unpack _). vm_compute. exact I.
Defined.

Lemma subscribe_gettable_Ok c s s' :
  subscribe_gettable c s = Ok tt s' ->
  is_bufferable c = true
  /\ exists b, root_qtools_buffer c = Some b
       /\ parts s' = parts s
       /\ buffer_calls s' = buffer_calls s ++ [(b, CallSubscribe)].
Proof.
  unfold subscribe_gettable. destruct (is_bufferable c); [|done].
  destruct (root_qtools_buffer c) as [b|]; [|done].
  intros H. apply bind_Ok in H as (l & ? & [= <- <-] & H).
  unfold call_buffer in H. destruct (buffer_objects s !! b) as [o|]; [|done].
  split; [done|]. exists b. split; [done|].
  destruct (subscribe (labels s) [c] o) as [[] o'|]; [|done]. injection H as <-. by split.
Qed.

Lemma subscribe_loop chans : forall s s',
  for_ chans subscribe_gettable s = Ok tt s' ->
  parts s' = parts s
  /\ exists bs,
       Forall2 (fun c b => is_bufferable c = true /\ root_qtools_buffer c = Some b)
         chans bs
       /\ buffer_calls s' = buffer_calls s ++ map (fun b => (b, CallSubscribe)) bs.
Proof.
  induction chans as [|c chans IH]; intros s s' H.
  - injection H as <-. split; [done|]. exists []. split; [constructor|].
    simpl. by rewrite app_nil_r.
  - cbn [for_] in H. apply bind_Ok in H as ([] & s1 & H1 & H).
    apply subscribe_gettable_Ok in H1 as (Hb & b & Hroot & Hp1 & Hc1).
    destruct (IH s1 s' H) as (Hp & bs & Hall & Hc).
    split; [congruence|]. exists (b :: bs). split.
    + constructor; [by split|exact Hall].
    + rewrite Hc, Hc1. simpl. by rewrite <- app_assoc.
Qed.

Lemma buffers_of_spec chans : forall bs S,
  Forall2 (fun c b => is_bufferable c = true /\ root_qtools_buffer c = Some b) chans bs ->
  buffers_of chans = inr S -> S = list_to_set bs.
Proof.
  induction chans as [|c chans IH]; intros bs S Hall H.
  - apply Forall2_nil_inv_l in Hall as ->. by injection H as <-.
  - apply Forall2_cons_inv_l in Hall as (b & bs' & [Hb Hroot] & Hall & ->).
    simpl in H. rewrite Hb, Hroot in H.
    destruct (buffers_of chans) as [e|S0] eqn:HS; [done|]. injection H as <-.
    simpl. by rewrite (IH bs' S0 Hall eq_refl).
Qed.

(** X24.  When a buffered [initialize] returns, every gettable channel is
    bufferable and its instrument has a buffer; [subscribe] has been
    called on that buffer once for each gettable channel, in the order of
    the gettable list, and no other call to a buffer was made; and the
    buffer set holds exactly these buffers.  When an unbuffered
    [initialize] returns, the buffer set is empty, no buffer was called
    and no buffer object has changed. *)
Theorem initialize_subscribes_gettable_channels (w w' : world) :
  initialize w = Ok tt w' ->
  exists p,
    parts w' = Some p
    /\ if buffered w then
         exists bs,
           Forall2 (fun c b => is_bufferable c = true /\ root_qtools_buffer c = Some b)
             (gettable_channels p) bs
           /\ buffers p = list_to_set bs
           /\ buffer_calls w' = buffer_calls w ++ map (fun b => (b, CallSubscribe)) bs
       else
         buffers p = ∅ /\ buffer_calls w' = buffer_calls w
         /\ buffer_objects w' = buffer_objects w.
Proof.
  intros Hrun. rewrite initialize_steps in Hrun.
  set (rr := default _ _) in Hrun. set (rt := default _ _) in Hrun.
  set (si := default _ _) in Hrun.
  set (w0 := with_parts (fun _ => Some empty_partitions) w) in Hrun.
  pose proof (initialize_loop_frame buffered rr rt si (items (gate_parameters w)) w0
                (fun _ _ => eq_refl) (fun _ _ => eq_refl) (fun _ _ => eq_refl)
                (fun _ _ => eq_refl)) as Hb.
  pose proof (initialize_loop_frame buffer_calls rr rt si (items (gate_parameters w)) w0
                (fun _ _ => eq_refl) (fun _ _ => eq_refl) (fun _ _ => eq_refl)
                (fun _ _ => eq_refl)) as Hc.
  pose proof (initialize_loop_frame buffer_objects rr rt si (items (gate_parameters w)) w0
                (fun _ _ => eq_refl) (fun _ _ => eq_refl) (fun _ _ => eq_refl)
                (fun _ _ => eq_refl)) as Ho.
  assert (Hbuf : part_of buffers
                   (final_state
                      (for_ (items (gate_parameters w))
                         (fun '(gate, parameter, channel) =>
                            initialize_parameter rr rt si gate parameter channel) w0))
                 = Some ∅).
  { apply (preserves_for (part_of buffers)). intros [[g k] c].
    apply initialize_parameter_buffers. }
  match type of Hb with
  | buffered (final_state ?o) = _ => destruct o as [[] w1|e w1]
  end; [|done].
  simpl in Hb, Hc, Ho, Hbuf. subst w0. simpl in Hb, Hc, Ho.
  rewrite Hb in Hrun.
  destruct (buffered w) eqn:Hbw.
  - match type of Hrun with
    | match ?o with Ok _ _ => _ | Raise _ _ => _ end = _ =>
        destruct o as [[] w2|e w2] eqn:Hsub
    end; [|done].
    rewrite relabel_eq in Hrun. injection Hrun as <-.
    apply bind_Ok in Hsub as (chans & ? & Hch & Hsub).
    unfold get_parts in Hch. destruct (parts w1) as [p1|] eqn:Hp1; [|done].
    injection Hch as <- <-.
    apply bind_Ok in Hsub as (S & ? & HS & Hsub).
    destruct (buffers_of (gettable_channels p1)) as [e|S'] eqn:Hbo; [done|].
    injection HS as <- <-.
    apply bind_Ok in Hsub as ([] & w1' & Hup & Hsub).
    apply update_parts_Ok in Hup as (q & Hq & ->). rewrite Hp1 in Hq.
    injection Hq as <-.
    apply bind_Ok in Hsub as (chans & ? & Hch & Hsub).
    unfold get_parts in Hch. simpl in Hch. injection Hch as <- <-.
    simpl in Hsub.
    apply subscribe_loop in Hsub as (Hp2 & bs & Hall & Hc2). simpl in Hp2, Hc2.
    eexists. split; [simpl; exact Hp2|]. simpl.
    exists bs. split_and!.
    + exact Hall.
    + by apply (buffers_of_spec (gettable_channels p1)).
    + by rewrite Hc2, Hc.
  - cbv beta iota delta [ret] in Hrun. rewrite relabel_eq in Hrun. injection Hrun as <-.
    unfold part_of in Hbuf. destruct (parts w1) as [p1|] eqn:Hp1; [|done].
    injection Hbuf as Hbuf.
    exists p1. simpl. by split_and!.
Qed.

Lemma initialize_subscribes_gettable_channels_witness :
  exists p,
    parts (final_state (initialize lab_buffered_lockin)) = Some p
    /\ gettable_channels p = [buffered_X; buffered_Y]
    /\ buffers p = {[ 7%nat ]}
    /\ buffer_calls (final_state (initialize lab_buffered_lockin))
       = [(7%nat, CallSubscribe); (7%nat, CallSubscribe)].
Proof.
  assert (H : initialize lab_buffered_lockin
              = Ok tt (final_state (initialize lab_buffered_lockin)))
    by (vm_compute; reflexivity).
  destruct (initialize_subscribes_gettable_channels _ _ H) as (p & Hp & Hrest).
  change (buffered lab_buffered_lockin) with true in Hrest.
  destruct Hrest as (bs & Hall & Hset & Hcalls).
  assert (Hg : gettable_channels p = [buffered_X; buffered_Y]).
  { assert (Hq : part_of gettable_channels (final_state (initialize lab_buffered_lockin))
                 = Some [buffered_X; buffered_Y]) by (vm_compute; reflexivity).
    unfold part_of in Hq. rewrite Hp in Hq. by injection Hq. }
  rewrite Hg in Hall.
  apply Forall2_cons_inv_l in Hall as (b1 & bs1 & [_ H1] & Hall & ->).
  apply Forall2_cons_inv_l in Hall as (b2 & bs2 & [_ H2] & Hall & ->).
  apply Forall2_nil_inv_l in Hall as ->.
  injection H1 as <-. injection H2 as <-.
  exists p. split; [exact Hp|]. split; [exact Hg|]. split.
  - rewrite Hset. simpl. set_solver.
  - exact Hcalls.
Defined.

Module HookFacts.

Lemma datetime_hook_view a kw s :
  database_view (after_hook _add_datetime_to_metadata_if_empty a kw s)
  = database_view s.
Proof.
  unfold after_hook. simpl. destruct (truthy _); [|done].
  unfold try_except, bind, get_measurement, get_metadata, bind, print, modify,
    gets, ret, raise, database_view.
  destruct (metadata s) as [m|] eqn:Hm; simpl; [|by rewrite Hm].
  destruct (measurement m) as [r|] eqn:Hr; simpl; [|by rewrite Hm].
  destruct (negb (truthy (datetime r))); simpl; by rewrite Hm.
Qed.

Lemma data_hook_view a kw s :
  database_view (after_hook _add_data_to_metadata a kw s) = database_view s.
Proof.
  unfold after_hook. simpl. destruct (truthy _); [|done].
  unfold try_except, bind, get_measurement, get_metadata, bind, print, modify,
    gets, ret, raise, eval, database_view.
  destruct (metadata s) as [m|] eqn:Hm; simpl; [|by rewrite Hm].
  destruct (measurement m) as [r|] eqn:Hr; simpl; [|by rewrite Hm].
  destruct (negb (truthy (data r))); simpl; rewrite ?Hm; simpl; rewrite ?Hr; simpl.
  all: destruct (db_location (env _)); simpl; rewrite ?Hm; try done.
  all: destruct (new_measurement_data (env _)); simpl; rewrite ?Hm; try done.
  all: destruct (data r); simpl; by rewrite ?Hm.
Qed.

Lemma insert_hook_view a kw s saves :
  database_view s = Some (None, saves) ->
  database_view (after_hook _insert_metadata_into_db a kw s)
  = Some (None,
          (saves + (if truthy (default (PBool true) (kw !! "insert_metadata_into_db"))
                    then 1 else 0))%nat).
Proof.
  unfold after_hook, database_view. simpl. intros Hs.
  destruct (metadata s) as [m|] eqn:Hm; [|done]. injection Hs as Hf Hn.
  destruct (truthy _).
  - unfold try_except, save_to_db, bind, get_metadata, modify. rewrite Hm, Hf. simpl.
    rewrite Hm. simpl. rewrite Hf, Hn. do 2 f_equal. lia.
  - simpl. rewrite Hm. simpl. rewrite Hf, Hn. do 2 f_equal. lia.
Qed.

Lemma after_hooks_view a kw s saves :
  database_view s = Some (None, saves) ->
  database_view (after_hooks a kw s)
  = Some (None,
          (saves + (if truthy (default (PBool true) (kw !! "insert_metadata_into_db"))
                    then 1 else 0))%nat).
Proof.
  intros Hs. unfold after_hooks.
  rewrite (insert_hook_view _ _ _ saves).
  - rewrite !strip_lookup.
    cbn [hook_keyword_only _add_data_to_metadata _add_datetime_to_metadata_if_empty].
    rewrite !decide_False; [done|..]; by rewrite list_elem_of_singleton.
  - by rewrite data_hook_view, datetime_hook_view.
Qed.

Lemma __new___eq (run : routine) args kwargs w :
  __new__ run args kwargs w
  = run args (forwarded_kwargs kwargs) (after_hooks args kwargs w).
Proof.
  unfold __new__, forwarded_kwargs, after_hooks.
  rewrite create_hook_eq; [|done|].
  2:{ edestruct hook_never_raises as (s1 & Hs1 & _); [|by exists s1]. by left. }
  rewrite create_hook_eq; [|done|].
  2:{ edestruct hook_never_raises as (s1 & Hs1 & _); [|by exists s1].
      right; by left. }
  rewrite create_hook_eq; [done|done|].
  edestruct hook_never_raises as (s1 & Hs1 & _); [|by exists s1].
  right; right; by left.
Qed.

Lemma forwarded_kwargs_lookup kwargs k :
  forwarded_kwargs kwargs !! k
  = if decide (k ∈ hook_switches) then None else kwargs !! k.
Proof.
  unfold forwarded_kwargs, hook_switches. rewrite !strip_lookup.
  cbn [hook_keyword_only _add_data_to_metadata _add_datetime_to_metadata_if_empty
       _insert_metadata_into_db].
  repeat case_decide; try done; exfalso;
    repeat match goal with
           | H : context [_ ∈ _ :: _] |- _ => rewrite !elem_of_cons in H
           | H : context [_ ∈ []] |- _ => rewrite !elem_of_nil in H
           end; tauto.
Qed.

Lemma forwarded_kwargs_idemp kwargs :
  forwarded_kwargs (forwarded_kwargs kwargs) = forwarded_kwargs kwargs.
Proof.
  apply map_eq. intros k. rewrite !forwarded_kwargs_lookup. by case_decide.
Qed.

End HookFacts.

(** X25.  [__new__] rewraps the class attribute [run] at every
    instantiation, so after [n + 1] objects of a class have been created
    the three hooks run [n + 1] times around one call of [run].  Only the
    outermost layer sees the switches: with a working database the
    metadata is saved [n] times even when the caller passes
    [insert_metadata_into_db=False], and [n + 1] times otherwise.  [run]
    itself is still called once, with the switches removed. *)
Theorem rewrapped_run_saves (n : nat) (run : routine) args kwargs w saves :
  database_view w = Some (None, saves) ->
  exists w1,
    run_after (S n) run args kwargs w = run args (forwarded_kwargs kwargs) w1
    /\ database_view w1
       = Some (None,
               (saves + n
                + (if truthy (default (PBool true)
                                (kwargs !! "insert_metadata_into_db"))
                   then 1 else 0))%nat).
Proof.
  revert kwargs w saves. induction n as [|n IH]; intros kwargs w saves Hw.
  - exists (after_hooks args kwargs w). split.
    + apply HookFacts.__new___eq.
    + rewrite (HookFacts.after_hooks_view _ _ _ saves Hw). do 2 f_equal. lia.
  - pose proof (HookFacts.after_hooks_view args kwargs w saves Hw) as Hout.
    destruct (IH (forwarded_kwargs kwargs) _ _ Hout) as (w1 & Hrun & Hview).
    exists w1. split.
    + change (run_after (S (S n)) run) with (__new__ (run_after (S n) run)).
      rewrite HookFacts.__new___eq, Hrun.
      by rewrite HookFacts.forwarded_kwargs_idemp.
    + rewrite Hview, HookFacts.forwarded_kwargs_lookup.
      rewrite decide_True by (unfold hook_switches; rewrite !elem_of_cons; tauto).
      change (truthy (default (PBool true) None)) with true.
      do 2 f_equal. lia.
Qed.

Lemma rewrapped_run_saves_witness :
  database_view lab_without_measurement = Some (None, 0%nat)
  /\ exists w1,
       run_after 2%nat echo_kwargs [] kwargs_no_insert lab_without_measurement
       = echo_kwargs [] (forwarded_kwargs kwargs_no_insert) w1
       /\ database_view w1 = Some (None, 1%nat).
Proof.
  split; [reflexivity|].
  exact (rewrapped_run_saves 1%nat echo_kwargs [] kwargs_no_insert
           lab_without_measurement 0%nat eq_refl).
Defined.

Lemma setdefault_eq g k key dflt sp w :
  property_of g k "setpoints" w = inr sp ->
  exists w',
    setdefault g k key dflt w
    = Ok (match property_of g k key w with inr d => d | inl _ => dflt end) w'
    /\ parts w' = parts w
    /\ property_of g k key w'
       = inr (match property_of g k key w with inr d => d | inl _ => dflt end).
Proof.
  unfold setdefault, property_of, getitem.
  destruct (properties w !! g) as [dg|] eqn:Hg; [|done].
  destruct (dg !! k) as [dp|] eqn:Hk; [|done]. intros _.
  destruct (dp !! key) as [d|] eqn:Hd.
  - exists w. by rewrite Hg, Hk, Hd.
  - eexists. split; [reflexivity|]. split; [done|]. simpl.
    by rewrite !lookup_insert_eq.
Qed.

(** X26.  The sweep of an unbuffered dynamic parameter.  With [start],
    [stop], [num_points] and [delay] all declared it is the regular sweep
    over them, whether or not setpoints are declared too.  With one of the
    four missing, the setpoints are required: the sweep runs over them,
    its point count is their number, not a declared [num_points], and its
    delay is the declared one or [0], which is then written back into the
    properties; without setpoints the [KeyError] escapes and nothing has
    changed. *)
Theorem unbuffered_sweep_outcome g k c w p :
  parts w = Some p ->
  (forall a b n d,
      property_of g k "start" w = inr a -> property_of g k "stop" w = inr b ->
      property_of g k "num_points" w = inr n ->
      property_of g k "delay" w = inr d ->
      unbuffered_sweep g k c w
      = Ok tt (with_parts
                 (fun _ => Some (with_dynamic_sweeps
                                   (fun l => l ++ [LinSweep c a b n d]) p)) w))
  /\ (undeclared g k "start" w \/ undeclared g k "stop" w
      \/ undeclared g k "num_points" w \/ undeclared g k "delay" w ->
      (forall sp n,
          property_of g k "setpoints" w = inr sp -> len sp = inr n ->
          exists w',
            unbuffered_sweep g k c w = Ok tt w'
            /\ part_of dynamic_sweeps w'
               = Some (dynamic_sweeps p ++
                       [CustomSweep c sp n
                          (match property_of g k "delay" w with
                           | inr d => d
                           | inl _ => PInt 0
                           end)])
            /\ property_of g k "delay" w'
               = inr (match property_of g k "delay" w with
                      | inr d => d
                      | inl _ => PInt 0
                      end))
      /\ (undeclared g k "setpoints" w ->
          exists e, unbuffered_sweep g k c w = Raise e w /\ is_KeyError e = true)).
Proof.
  intros Hp. split.
  { intros a b n d Ha Hb Hn Hd.
    unfold unbuffered_sweep, try_except, bind, append_sweep, update_parts.
    rewrite !prop_eq, Ha. cbn. rewrite prop_eq, Hb. cbn. rewrite prop_eq, Hn. cbn.
    rewrite prop_eq, Hd. cbn. by rewrite Hp. }
  intros Hun.
  unfold unbuffered_sweep, try_except.
  set (body := bind (prop g k "start") _).
  assert (Hraise : exists e, body w = Raise e w /\ is_KeyError e = true).
  { subst body. unfold bind. rewrite prop_eq.
    destruct (property_of g k "start" w) as [e|a] eqn:Ha.
    { exists e. split; [done|]. by eapply property_of_KeyError. }
    cbn. rewrite prop_eq.
    destruct (property_of g k "stop" w) as [e|b] eqn:Hb.
    { exists e. split; [done|]. by eapply property_of_KeyError. }
    cbn. rewrite prop_eq.
    destruct (property_of g k "num_points" w) as [e|n] eqn:Hn.
    { exists e. split; [done|]. by eapply property_of_KeyError. }
    cbn. rewrite prop_eq.
    destruct (property_of g k "delay" w) as [e|d] eqn:Hd.
    { exists e. split; [done|]. by eapply property_of_KeyError. }
    exfalso. unfold undeclared in Hun. rewrite Ha, Hb, Hn, Hd in Hun. tauto. }
  destruct Hraise as (e & -> & He). rewrite He. clear body. split.
  - intros sp n Hsp Hlen.
    destruct (setdefault_eq g k "delay" (PInt 0) sp w Hsp) as (w1 & Hset & Hp1 & Hd1).
    unfold bind, CustomSweep_init, append_sweep, update_parts, eval, ret.
    rewrite prop_eq, Hsp. cbn. rewrite Hset. cbn. rewrite Hlen. cbn.
    rewrite Hp1, Hp. eexists. split; [reflexivity|]. split; [done|].
    exact Hd1.
  - intros Hno. unfold undeclared in Hno. unfold bind. rewrite prop_eq.
    destruct (property_of g k "setpoints" w) as [e'|] eqn:Hsp; [|done].
    exists e'. split; [done|]. by eapply property_of_KeyError.
Qed.

Lemma unbuffered_sweep_outcome_witness :
  exists w',
    unbuffered_sweep "topgate" "voltage" topgate_voltage lab_setpoints = Ok tt w'
    /\ part_of dynamic_sweeps w'
       = Some [CustomSweep topgate_voltage (PList [PInt 0; PInt 2; PInt 4]) 3 (PInt 0)]
    /\ property_of "topgate" "voltage" "delay" w' = inr (PInt 0).
Proof.
  assert (Hp : parts lab_setpoints = Some empty_partitions) by reflexivity.
  assert (Hun : undeclared "topgate" "voltage" "start" lab_setpoints
                \/ undeclared "topgate" "voltage" "stop" lab_setpoints
                \/ undeclared "topgate" "voltage" "num_points" lab_setpoints
                \/ undeclared "topgate" "voltage" "delay" lab_setpoints).
  { right. right. right. vm_compute. exact I. }
  assert (Hsp : property_of "topgate" "voltage" "setpoints" lab_setpoints
                = inr (PList [PInt 0; PInt 2; PInt 4])) by (vm_compute; reflexivity).
  assert (Hd : property_of "topgate" "voltage" "delay" lab_setpoints
               = inl (KeyError "delay")) by (vm_compute; reflexivity).
  destruct (proj1 (proj2 (unbuffered_sweep_outcome "topgate" "voltage" topgate_voltage
                            lab_setpoints empty_partitions Hp) Hun)
              (PList [PInt 0; PInt 2; PInt 4]) 3%nat Hsp eq_refl)
    as (w' & Hrun & Hsweeps & Hdelay).
  rewrite Hd in Hsweeps, Hdelay.
  exists w'. by split_and!.
Defined.
